(** * wavetracker: the streaming snippet-extraction pipeline

    A shallow embedding of [wavetracker/wavetracker.py] (class
    [AnalysisPipeline] and the flag handling of [main]) together with the
    facts that the written specification states about it.

    Conventions of the embedding.
    - A Python float is the rational it holds ([Q]); the one float that
      the code tests for, not-a-number in [ident_v], is a constructor of
      its own ([NaN]).  Where the code compares the results of a float
      operation, in [np.argmin(np.abs(spec_freqs - f))], the operation
      rounds as float64 does ([round_float64]).
    - A Python exception is a constructor of [exn]; an object keeps the
      mutations made before the exception was raised, so an outcome
      carries the world in both cases.
    - A Python list and a numpy array hold the same items but offer
      different methods ([extend] exists on lists only), so a sequence
      remembers which of the two it is.
    - Code of the package that the pipeline calls but that lives in other
      modules (the spectrogram engine, the harmonic-group detectors, the
      tracking stage) is a parameter, bundled in [Externals].
    - [log] is a ghost field: the list of calls the orchestrator made to
      its collaborators, oldest first.  [sched] is the oracle that
      resolves the order in which worker processes finish. *)

From Stdlib Require Import List ZArith QArith Qabs Qround Bool Lia Permutation Sorted.
Import ListNotations.

Close Scope Q_scope.
Set Implicit Arguments.

(* ------------------------------------------------------------------ *)
(** * Python values *)

Inductive exn : Type :=
| AttributeError
| ValueError
| IndexError
| ZeroDivisionError
| FileNotFoundError.

Inductive result (A : Type) : Type :=
| Ok (a : A)
| Err (e : exn).
Arguments Ok {A} a.
Arguments Err {A} e.

Definition bind {A B} (r : result A) (k : A -> result B) : result B :=
  match r with
  | Ok a => k a
  | Err e => Err e
  end.

Notation "'let*' x ':=' r 'in' k" := (bind r (fun x => k))
  (at level 10, x pattern, r at level 100, k at level 200).

Fixpoint mapM {A B} (f : A -> result B) (l : list A) : result (list B) :=
  match l with
  | [] => Ok []
  | x :: r =>
      let* y := f x in
      let* ys := mapM f r in
      Ok (y :: ys)
  end.

(** The argument of the [get_signals] setter is any Python object; what
    matters is its truth value. *)
Inductive pyobj : Type :=
| PyBool (b : bool)
| PyInt (z : Z)
| PyNone.

Definition truthy (o : pyobj) : bool :=
  match o with
  | PyBool b => b
  | PyInt z => negb (z =? 0)%Z
  | PyNone => false
  end.

(** A sequence attribute is either a Python list or a numpy array. *)
Inductive seqv (A : Type) : Type :=
| PyList (l : list A)
| NdArray (l : list A).
Arguments PyList {A} l.
Arguments NdArray {A} l.

Definition items {A} (s : seqv A) : list A :=
  match s with
  | PyList l => l
  | NdArray l => l
  end.

Definition is_list {A} (s : seqv A) : bool :=
  match s with
  | PyList _ => true
  | NdArray _ => false
  end.

(** [list.extend]; a numpy array has no such attribute. *)
Definition extend {A} (s : seqv A) (xs : list A) : result (seqv A) :=
  match s with
  | PyList l => Ok (PyList (l ++ xs))
  | NdArray _ => Err AttributeError
  end.

(** [np.array(x)] of a sequence of numbers: the items, as an array. *)
Definition np_array {A} (s : seqv A) : seqv A := NdArray (items s).

(** The rows have one length. *)
Definition rectangular {A} (rows : list (list A)) : bool :=
  match rows with
  | [] => true
  | r :: rest => forallb (fun r' => length r' =? length r) rest
  end.

(** [np.array(x)] of a sequence of rows: a list of rows of different
    lengths has no shape and is an error; an array is taken as it is. *)
Definition np_array_rows {A} (s : seqv (list A)) : result (seqv (list A)) :=
  match s with
  | PyList rows => if rectangular rows then Ok (NdArray rows) else Err ValueError
  | NdArray rows => Ok (NdArray rows)
  end.

(** An identity label: the unassigned sentinel or a finite label. *)
Inductive label : Type :=
| NaN
| Ident (q : Q).

Definition isnan (l : label) : bool :=
  match l with
  | NaN => true
  | Ident _ => false
  end.

(** [np.full(n, np.nan)] *)
Definition np_full_nan (n : nat) : seqv label := NdArray (repeat NaN n).

(** Rectangular numpy arrays of rank two and three. *)
Record array2 : Type := {
  rows2 : nat;
  cols2 : nat;
  get2 : nat -> nat -> Q
}.

Record array3 : Type := {
  dim0 : nat;
  dim1 : nat;
  dim2 : nat;
  get3 : nat -> nat -> nat -> Q
}.

(** Iterating [a.transpose()] yields the columns of [a]. *)
Definition transpose_rows (a : array2) : list (list Q) :=
  map (fun j => map (fun i => get2 a i j) (seq 0 (rows2 a))) (seq 0 (cols2 a)).

(** [np.hstack]: an empty list of parts is an error. *)
Definition np_hstack {A} (parts : list (list A)) : result (list A) :=
  match parts with
  | [] => Err ValueError
  | _ => Ok (concat parts)
  end.

Definition enumerate {A} (l : list A) : list (nat * A) :=
  combine (seq 0 (length l)) l.

Definition Qlt_bool (x y : Q) : bool := negb (Qle_bool y x).

(** The exponent [e] of a positive rational: [2 ^ e <= x < 2 ^ (e + 1)]. *)
Definition floor_log2 (x : Q) : Z :=
  let e := (Z.log2 (Qnum x) - Z.log2 (Zpos (Qden x)))%Z in
  if Qle_bool (2 ^ e) x then e else (e - 1)%Z.

(** The integer nearest to [m], the even one of two that are equally
    near. *)
Definition round_half_even (m : Q) : Z :=
  let f := Qfloor m in
  match (m - inject_Z f ?= 1 # 2)%Q with
  | Lt => f
  | Gt => (f + 1)%Z
  | Eq => if Z.even f then f else (f + 1)%Z
  end.

(** The float64 nearest to a rational: a significand of 53 bits, an
    exponent of at least -1022 (below it the spacing stays the one of the
    subnormal numbers), ties to the even significand.  A result beyond
    the largest float is an infinity, for which [2 ^ 1024] and its
    opposite stand: they compare with the floats and with themselves as
    the infinities do. *)
Definition round_float64 (x : Q) : Q :=
  if Qeq_bool x 0 then 0%Q
  else
    let a := Qabs x in
    let u := (Z.max (floor_log2 a) (-1022) - 52)%Z in
    let r := (inject_Z (round_half_even (a / 2 ^ u)) * 2 ^ u)%Q in
    let r := if Qle_bool (2 ^ 1024) r then (2 ^ 1024)%Q else r in
    if Qle_bool 0 x then r else (- r)%Q.

(** [np.argmin]: the first position of the least item. *)
Fixpoint argmin_from (best_i : nat) (best : Q) (i : nat) (l : list Q) : nat :=
  match l with
  | [] => best_i
  | x :: r =>
      if Qlt_bool x best then argmin_from i x (S i) r
      else argmin_from best_i best (S i) r
  end.

Definition np_argmin (l : list Q) : result nat :=
  match l with
  | [] => Err ValueError
  | x :: r => Ok (argmin_from 0 x 1 r)
  end.

(** [np.arange(0, stop, step)] for integers. *)
Definition np_arange (stop step : Z) : result (list Z) :=
  if (step =? 0)%Z then Err ZeroDivisionError
  else if (step <? 0)%Z then Ok []
  else Ok (map (fun k => (Z.of_nat k * step)%Z)
               (seq 0 (Z.to_nat ((stop + step - 1) / step)))).

(* ------------------------------------------------------------------ *)
(** * The collaborators' state *)

(** The attributes of the spectrogram engine that the pipeline reads or
    writes. *)
Module Spectrogram.
Record t : Type := {
  snippet_size : nat;
  snippet_overlap : nat;
  noverlap : nat;
  channel_list : list nat;
  get_fine_spec : bool;
  get_sparse_spec : bool;
  terminate : bool;
  itter_count : Z;
  times : list Q;
  spec_times : list Q;
  spec_freqs : list Q;
  sum_spec : array2;
  spec : array3
}.

Definition set_terminate (b : bool) (s : t) : t :=
  {| snippet_size := snippet_size s; snippet_overlap := snippet_overlap s;
     noverlap := noverlap s; channel_list := channel_list s;
     get_fine_spec := get_fine_spec s; get_sparse_spec := get_sparse_spec s;
     terminate := b; itter_count := itter_count s; times := times s;
     spec_times := spec_times s; spec_freqs := spec_freqs s;
     sum_spec := sum_spec s; spec := spec s |}.

Definition set_flags (sparse fine : bool) (s : t) : t :=
  {| snippet_size := snippet_size s; snippet_overlap := snippet_overlap s;
     noverlap := noverlap s; channel_list := channel_list s;
     get_fine_spec := fine; get_sparse_spec := sparse;
     terminate := terminate s; itter_count := itter_count s; times := times s;
     spec_times := spec_times s; spec_freqs := spec_freqs s;
     sum_spec := sum_spec s; spec := spec s |}.

(** A call of the engine changes what the engine accumulates; the
    parameters it was constructed with and the two [get_*] flags that
    [main] sets stay as they are. *)
Definition after_call (s produced : t) : t :=
  {| snippet_size := snippet_size s; snippet_overlap := snippet_overlap s;
     noverlap := noverlap s; channel_list := channel_list s;
     get_fine_spec := get_fine_spec s; get_sparse_spec := get_sparse_spec s;
     terminate := terminate produced; itter_count := itter_count produced;
     times := times produced; spec_times := spec_times produced;
     spec_freqs := spec_freqs produced; sum_spec := sum_spec produced;
     spec := spec produced |}.
End Spectrogram.

(** The raw recording: [frames] has one row per sample, one column per
    channel. *)
Record DataLoader : Type := {
  rate : Q;
  channels : nat;
  frames : list (list Q)
}.

Definition shape0 (d : DataLoader) : nat := length (frames d).

(** [data[i0 : i1, channel]] with 0 <= i0: the slice is cut at the end of
    the recording; a channel that does not exist is an error. *)
Definition slice_channel (d : DataLoader) (i0 i1 : nat) (channel : nat)
  : result (list Q) :=
  if channel <? channels d
  then Ok (map (fun row => nth channel row 0%Q) (firstn (i1 - i0) (skipn i0 (frames d))))
  else Err IndexError.

(** The code of the package that is not part of the pipeline module. *)
Record Externals : Type := {
  groups : Type;
  hg_rest : Type;
  (** [thunderfish.harmonics.harmonic_groups(freqs, psd, **cfg)], a tuple
      whose first component is the list of groups *)
  harmonic_groups : list Q -> list Q -> groups * hg_rest;
  (** [thunderfish.harmonics.fundamental_freqs] *)
  fundamental_freqs : groups -> list Q;
  assigned_hg : Type;
  gpu_rest : Type;
  (** [gpu_harmonic_group.harmonic_group_pipeline(sum_spec, freqs, cfg)] *)
  harmonic_group_pipeline : array2 -> list Q -> assigned_hg * gpu_rest;
  (** [gpu_harmonic_group.get_fundamentals] *)
  get_fundamentals : assigned_hg -> list Q -> list (list Q);
  (** [Spectrogram.snippet_spectrogram(snippet, snipptet_t0)] *)
  snippet_spectrogram : Spectrogram.t -> list (list Q) -> Q -> Spectrogram.t;
  (** [tracking.freq_tracking_v6(fund_v, idx_v, sign_v, times, ...)] *)
  freq_tracking_v6 : list Q -> list Z -> list (list Q) -> list Q -> list label
}.

(* ------------------------------------------------------------------ *)
(** * The pipeline object, the save directory and the world *)

Record AnalysisPipeline : Type := {
  data : DataLoader;
  samplerate : Q;
  dataset : list (list (list Q));
  data_shape : nat * nat;
  verbose : nat;
  gpu_use : bool;
  core_count : nat;
  Spec : Spectrogram.t;
  _get_signals : bool;
  do_tracking : bool;
  _fund_v : seqv Q;
  _idx_v : seqv Z;
  _sign_v : seqv (list Q);
  ident_v : seqv label;
  times : seqv Q
}.

Definition set_Spec (s : Spectrogram.t) (p : AnalysisPipeline) : AnalysisPipeline :=
  {| data := data p; samplerate := samplerate p; dataset := dataset p;
     data_shape := data_shape p; verbose := verbose p; gpu_use := gpu_use p;
     core_count := core_count p;
     Spec := s; _get_signals := _get_signals p; do_tracking := do_tracking p;
     _fund_v := _fund_v p; _idx_v := _idx_v p; _sign_v := _sign_v p;
     ident_v := ident_v p; times := times p |}.

Definition set_do_tracking (b : bool) (p : AnalysisPipeline) : AnalysisPipeline :=
  {| data := data p; samplerate := samplerate p; dataset := dataset p;
     data_shape := data_shape p; verbose := verbose p; gpu_use := gpu_use p;
     core_count := core_count p;
     Spec := Spec p; _get_signals := _get_signals p; do_tracking := b;
     _fund_v := _fund_v p; _idx_v := _idx_v p; _sign_v := _sign_v p;
     ident_v := ident_v p; times := times p |}.

Definition set__get_signals (b : bool) (p : AnalysisPipeline) : AnalysisPipeline :=
  {| data := data p; samplerate := samplerate p; dataset := dataset p;
     data_shape := data_shape p; verbose := verbose p; gpu_use := gpu_use p;
     core_count := core_count p;
     Spec := Spec p; _get_signals := b; do_tracking := do_tracking p;
     _fund_v := _fund_v p; _idx_v := _idx_v p; _sign_v := _sign_v p;
     ident_v := ident_v p; times := times p |}.

Definition set__fund_v (v : seqv Q) (p : AnalysisPipeline) : AnalysisPipeline :=
  {| data := data p; samplerate := samplerate p; dataset := dataset p;
     data_shape := data_shape p; verbose := verbose p; gpu_use := gpu_use p;
     core_count := core_count p;
     Spec := Spec p; _get_signals := _get_signals p; do_tracking := do_tracking p;
     _fund_v := v; _idx_v := _idx_v p; _sign_v := _sign_v p;
     ident_v := ident_v p; times := times p |}.

Definition set__idx_v (v : seqv Z) (p : AnalysisPipeline) : AnalysisPipeline :=
  {| data := data p; samplerate := samplerate p; dataset := dataset p;
     data_shape := data_shape p; verbose := verbose p; gpu_use := gpu_use p;
     core_count := core_count p;
     Spec := Spec p; _get_signals := _get_signals p; do_tracking := do_tracking p;
     _fund_v := _fund_v p; _idx_v := v; _sign_v := _sign_v p;
     ident_v := ident_v p; times := times p |}.

Definition set__sign_v (v : seqv (list Q)) (p : AnalysisPipeline) : AnalysisPipeline :=
  {| data := data p; samplerate := samplerate p; dataset := dataset p;
     data_shape := data_shape p; verbose := verbose p; gpu_use := gpu_use p;
     core_count := core_count p;
     Spec := Spec p; _get_signals := _get_signals p; do_tracking := do_tracking p;
     _fund_v := _fund_v p; _idx_v := _idx_v p; _sign_v := v;
     ident_v := ident_v p; times := times p |}.

Definition set_ident_v (v : seqv label) (p : AnalysisPipeline) : AnalysisPipeline :=
  {| data := data p; samplerate := samplerate p; dataset := dataset p;
     data_shape := data_shape p; verbose := verbose p; gpu_use := gpu_use p;
     core_count := core_count p;
     Spec := Spec p; _get_signals := _get_signals p; do_tracking := do_tracking p;
     _fund_v := _fund_v p; _idx_v := _idx_v p; _sign_v := _sign_v p;
     ident_v := v; times := times p |}.

Definition set_times (v : seqv Q) (p : AnalysisPipeline) : AnalysisPipeline :=
  {| data := data p; samplerate := samplerate p; dataset := dataset p;
     data_shape := data_shape p; verbose := verbose p; gpu_use := gpu_use p;
     core_count := core_count p;
     Spec := Spec p; _get_signals := _get_signals p; do_tracking := do_tracking p;
     _fund_v := _fund_v p; _idx_v := _idx_v p; _sign_v := _sign_v p;
     ident_v := ident_v p; times := v |}.

(** The five arrays of a checkpoint, each present or not, as the files
    [fund_v.npy], [idx_v.npy], [sign_v.npy], [ident_v.npy], [times.npy]
    of the save directory. *)
Record SaveDir : Type := {
  fund_v_npy : option (list Q);
  idx_v_npy : option (list Z);
  sign_v_npy : option (list (list Q));
  ident_v_npy : option (list label);
  times_npy : option (list Q)
}.

Definition empty_dir : SaveDir :=
  {| fund_v_npy := None; idx_v_npy := None; sign_v_npy := None;
     ident_v_npy := None; times_npy := None |}.

(** What the orchestrator asked of its collaborators. *)
Inductive event : Type :=
| SetTerminate
| SnippetSpectrogram (snippet : list (list Q)) (t0 : Q)
| ExtractSnippetSignals
| FreqTracking
| Save.

Record World : Type := {
  self : AnalysisPipeline;
  disk : SaveDir;
  log : list event;
  sched : list (list nat)
}.

Definition upd (f : AnalysisPipeline -> AnalysisPipeline) (w : World) : World :=
  {| self := f (self w); disk := disk w; log := log w; sched := sched w |}.

Definition set_disk (d : SaveDir) (w : World) : World :=
  {| self := self w; disk := d; log := log w; sched := sched w |}.

Definition emit (e : event) (w : World) : World :=
  {| self := self w; disk := disk w; log := log w ++ [e]; sched := sched w |}.

Definition set_sched (s : list (list nat)) (w : World) : World :=
  {| self := self w; disk := disk w; log := log w; sched := s |}.

Inductive outcome : Type :=
| Done (w : World)
| Raised (e : exn) (w : World).

Definition world_of (o : outcome) : World :=
  match o with
  | Done w => w
  | Raised _ w => w
  end.

Definition is_done (o : outcome) : bool :=
  match o with
  | Done _ => true
  | Raised _ _ => false
  end.

(** A method: it runs in a world and ends normally or by an exception. *)
Definition M : Type := World -> outcome.

Definition seqM (m k : M) : M :=
  fun w => match m w with
           | Done w' => k w'
           | Raised e w' => Raised e w'
           end.

Notation "m ;; k" := (seqM m k) (at level 61, right associativity).

Definition skip : M := Done.

Definition pure (f : World -> World) : M := fun w => Done (f w).

(** Run [k] on the value of [r], or raise its exception here. *)
Definition raising {A} (r : World -> result A) (k : A -> M) : M :=
  fun w => match r w with
           | Ok a => k a w
           | Err e => Raised e w
           end.

(* ------------------------------------------------------------------ *)
(** * The worker pool *)

(** [multiprocessing.Pool(processes)] *)
Definition Pool (processes : Z) : result unit :=
  if (processes <? 1)%Z then Err ValueError else Ok tt.

(** The order in which the tasks of one [pool.map] finish is not in the
    hands of the program.  An oracle word [ks] fixes it: the tasks enter
    the order of completion one by one, task [i] at the position
    [nth i ks 0] of the order of the tasks [0 .. i-1] (at its end when
    the position lies beyond it).  Any word gives an order, and every
    order has a word. *)
Fixpoint insert_at {A} (k : nat) (x : A) (l : list A) : list A :=
  match k, l with
  | 0, _ => x :: l
  | S k', y :: l' => y :: insert_at k' x l'
  | S _, [] => [x]
  end.

Definition completion_order (ks : list nat) (n : nat) : list nat :=
  fold_left (fun done i => insert_at (nth i ks 0) i done) (seq 0 n) [].

(** [pool.map(f, xs)]: every task is run by some worker; the results come
    back tagged with the position of their task, in the order of
    completion, and are handed out by position. *)
Definition pool_map {A B} (ks : list nat) (f : A -> B) (xs : list A) : list B :=
  let completed :=
    flat_map (fun i => match nth_error xs i with
                       | Some x => [(i, f x)]
                       | None => []
                       end)
             (completion_order ks (length xs)) in
  flat_map (fun i => match find (fun r => fst r =? i) completed with
                     | Some r => [snd r]
                     | None => []
                     end)
           (seq 0 (length xs)).

(** The oracle word of the next [pool.map], taken off the world. *)
Definition next_order (w : World) : list nat := hd [] (sched w).
Definition pop_order (w : World) : World := set_sched (tl (sched w)) w.

(* ------------------------------------------------------------------ *)
(** * [AnalysisPipeline.extract_snippet_signals] *)

Section Pipeline.

Variable X : Externals.

(** The GPU branch: one batched call. *)
Definition gpu_fundamentals (s : Spectrogram.t) : list (list Q) :=
  let '(hg, _) := harmonic_group_pipeline X (Spectrogram.sum_spec s)
                                          (Spectrogram.spec_freqs s) in
  get_fundamentals X hg (Spectrogram.spec_freqs s).

(** The CPU branch: a pool of [core_count - 1] workers and two maps. *)
Definition cpu_fundamentals (ks1 ks2 : list nat) (s : Spectrogram.t)
  : list (list Q) :=
  let a := pool_map ks1 (harmonic_groups X (Spectrogram.spec_freqs s))
                    (transpose_rows (Spectrogram.sum_spec s)) in
  let groups_per_time := map fst a in
  pool_map ks2 (fundamental_freqs X) groups_per_time.

Definition strategy (k : list (list Q) -> M) : M :=
  fun w =>
    let p := self w in
    if gpu_use p then k (gpu_fundamentals (Spec p)) w
    else
      match Pool (Z.of_nat (core_count p) - 1) with
      | Err e => Raised e w
      | Ok _ =>
          let ks1 := next_order w in
          let w1 := pop_order w in
          let ks2 := next_order w1 in
          let w2 := pop_order w1 in
          k (cpu_fundamentals ks1 ks2 (Spec p)) w2
      end.

(** [tmp_idx_v]: the position of its time bin, once per fundamental. *)
Definition local_idx (tmp_fundamentals : list (list Q)) : list nat :=
  concat (map (fun ef => repeat (fst ef) (length (snd ef)))
              (enumerate tmp_fundamentals)).

(** [np.argmin(np.abs(spec_freqs - f))]: the subtraction of two floats
    is the float nearest to their difference; the absolute value and
    the comparisons of [np.argmin] are exact. *)
Definition nearest_bin (freqs : list Q) (f : Q) : result nat :=
  np_argmin (map (fun x => Qabs (round_float64 (x - f))) freqs).

(** [spec[:, f_idx, tmp_idx_v].transpose()]: one row per detection, one
    column per channel. *)
Definition signatures (a : array3) (f_idx t_idx : list nat)
  : result (list (list Q)) :=
  if forallb (fun fi => fi <? dim1 a) f_idx && forallb (fun ti => ti <? dim2 a) t_idx
  then Ok (map (fun ft => map (fun c => get3 a c (fst ft) (snd ft)) (seq 0 (dim0 a)))
               (combine f_idx t_idx))
  else Err IndexError.

(** What one snippet contributes: the lines between the strategy and
    the four updates. *)
Record contribution : Type := {
  tmp_fund_v : list Q;
  tmp_idx_v : list nat;
  tmp_sign_v : list (list Q);
  idx_0 : Z
}.

Definition contribute (s : Spectrogram.t) (tmp_fundamentals : list (list Q))
  : result contribution :=
  let* fund := np_hstack tmp_fundamentals in
  let* idx := np_hstack (map (fun ef => repeat (fst ef) (length (snd ef)))
                             (enumerate tmp_fundamentals)) in
  let* f_idx := mapM (nearest_bin (Spectrogram.spec_freqs s))
                     (concat tmp_fundamentals) in
  let* sign := signatures (Spectrogram.spec s) f_idx idx in
  Ok {| tmp_fund_v := fund; tmp_idx_v := idx; tmp_sign_v := sign;
        idx_0 := (Z.of_nat (length (Spectrogram.times s))
                  - Z.of_nat (length (Spectrogram.spec_times s)))%Z |}.

Definition extend_fund_v (xs : list Q) : M :=
  raising (fun w => extend (_fund_v (self w)) xs)
          (fun v => pure (upd (set__fund_v v))).

Definition extend_idx_v (xs : list Z) : M :=
  raising (fun w => extend (_idx_v (self w)) xs)
          (fun v => pure (upd (set__idx_v v))).

Definition extend_sign_v (xs : list (list Q)) : M :=
  raising (fun w => extend (_sign_v (self w)) xs)
          (fun v => pure (upd (set__sign_v v))).

Definition reset_ident_v : M :=
  pure (fun w => upd (set_ident_v (np_full_nan (length (items (_idx_v (self w)))))) w).

Definition extract_snippet_signals : M :=
  pure (emit ExtractSnippetSignals) ;;
  strategy (fun tmp_fundamentals =>
    raising (fun w => contribute (Spec (self w)) tmp_fundamentals) (fun c =>
      extend_fund_v (tmp_fund_v c) ;;
      extend_idx_v (map (fun i => (Z.of_nat i + idx_0 c)%Z) (tmp_idx_v c)) ;;
      extend_sign_v (tmp_sign_v c) ;;
      reset_ident_v)).

(* ------------------------------------------------------------------ *)
(** * [AnalysisPipeline.save] and the property [get_signals] *)

(** The five [np.save] calls, in the order of the code; [self.fund_v],
    [self.idx_v] and [self.sign_v] are the array views of the private
    lists.  The view of the signatures is the last to be taken: when it
    has no shape, four files have been written and [sign_v.npy] is as it
    was.  [self.Spec.save()], the last line, writes the engine's own
    files, none of the five; the event [Save] stands for it. *)
Definition save : M :=
  fun w =>
    let p := self w in
    match np_array_rows (_sign_v p) with
    | Ok s =>
        Done (emit Save
                (set_disk {| fund_v_npy := Some (items (np_array (_fund_v p)));
                             ident_v_npy := Some (items (ident_v p));
                             idx_v_npy := Some (items (np_array (_idx_v p)));
                             times_npy := Some (items (times p));
                             sign_v_npy := Some (items s) |} w))
    | Err e =>
        Raised e
          (set_disk {| fund_v_npy := Some (items (np_array (_fund_v p)));
                       ident_v_npy := Some (items (ident_v p));
                       idx_v_npy := Some (items (np_array (_idx_v p)));
                       times_npy := Some (items (times p));
                       sign_v_npy := sign_v_npy (disk w) |} w)
    end.

Definition get_signals (p : AnalysisPipeline) : bool := _get_signals p.

(** The setter of [get_signals]. *)
Definition set_get_signals (get_sigs : pyobj) (p : AnalysisPipeline)
  : AnalysisPipeline :=
  let p' :=
    if truthy get_sigs
    then set_times (PyList [])
           (set_ident_v (PyList [])
              (set__sign_v (PyList [])
                 (set__idx_v (PyList [])
                    (set__fund_v (PyList []) p))))
    else p in
  set__get_signals (truthy get_sigs) p'.

(* ------------------------------------------------------------------ *)
(** * [AnalysisPipeline.__init__] *)

(** [np.load] of a file of the save directory. *)
Definition np_load {A} (file : option (list A)) : result (seqv A) :=
  match file with
  | Some l => Ok (NdArray l)
  | None => Err FileNotFoundError
  end.

(** [len(ident_v[~np.isnan(ident_v)])] *)
Definition count_assigned (v : seqv label) : nat :=
  length (filter (fun l => negb (isnan l)) (items v)).

Definition __init__ (data0 : DataLoader) (samplerate0 : Q)
    (dataset0 : list (list (list Q))) (data_shape0 : nat * nat)
    (verbose0 : nat) (gpu_use0 : bool) (core_count0 : nat)
    (spec0 : Spectrogram.t) (d : SaveDir) : result AnalysisPipeline :=
  let fresh :=
    {| data := data0; samplerate := samplerate0; dataset := dataset0;
       data_shape := data_shape0; verbose := verbose0; gpu_use := gpu_use0;
       core_count := core_count0; Spec := spec0;
       _get_signals := true; do_tracking := true;
       _fund_v := PyList []; _idx_v := PyList []; _sign_v := PyList [];
       ident_v := PyList []; times := PyList [] |} in
  match fund_v_npy d with
  | Some _ =>
      let* f := np_load (fund_v_npy d) in
      let* i := np_load (idx_v_npy d) in
      let* s := np_load (sign_v_npy d) in
      let* l := np_load (ident_v_npy d) in
      let* t := np_load (times_npy d) in
      let p := set_times t (set_ident_v l (set__sign_v s
                 (set__idx_v i (set__fund_v f fresh)))) in
      let p := set_get_signals (PyBool false) p in
      Ok (if 0 <? count_assigned (ident_v p) then set_do_tracking false p else p)
  | None => Ok fresh
  end.

(* ------------------------------------------------------------------ *)
(** * The snippet loops *)

Fixpoint for_each {A} (body : A -> M) (l : list A) : M :=
  match l with
  | [] => skip
  | x :: r => body x ;; for_each body r
  end.

(** Python's [a // b] on integers. *)
Definition floordiv (a b : Z) : result Z :=
  if (b =? 0)%Z then Err ZeroDivisionError else Ok (a / b)%Z.

Definition call_engine (snippet : list (list Q)) (t0 : Q) : M :=
  pure (fun w =>
    emit (SnippetSpectrogram snippet t0)
      (upd (fun p =>
              set_Spec (Spectrogram.after_call (Spec p)
                          (snippet_spectrogram X (Spec p) snippet t0)) p) w)).

Definition set_terminate : M :=
  pure (fun w =>
    emit SetTerminate
      (upd (fun p => set_Spec (Spectrogram.set_terminate true (Spec p)) p) w)).

(** [if self.verbose == 3: self.logger.info(f"Progress {counter / iterations:3.1%} ...")]:
    the message of each iteration of both loops.  The logger is given;
    what can fail is the quotient of the two integers. *)
Definition progress_message (p : AnalysisPipeline) (iterations : Z) : result unit :=
  if (verbose p =? 3) && (iterations =? 0)%Z then Err ZeroDivisionError else Ok tt.

Definition report_progress (iterations : Z) : M :=
  raising (fun w => progress_message (self w) iterations) (fun _ => skip).

(** ** [pipeline_CPU] *)

Definition cpu_step (p : AnalysisPipeline) : Z :=
  (Z.of_nat (Spectrogram.snippet_size (Spec p))
   - Z.of_nat (Spectrogram.noverlap (Spec p)))%Z.

(** [[self.data[i0 : i0 + snippet_size, channel] for channel in channel_list]] *)
Definition cpu_snippet (p : AnalysisPipeline) (i0 : Z) : result (list (list Q)) :=
  mapM (slice_channel (data p) (Z.to_nat i0)
          (Z.to_nat i0 + Spectrogram.snippet_size (Spec p)))
       (Spectrogram.channel_list (Spec p)).

Definition cpu_t0 (p : AnalysisPipeline) (i0 : Z) : Q :=
  (inject_Z i0 / samplerate p)%Q.

(** The test that precedes [self.Spec.terminate = True]. *)
Definition cpu_is_last (p : AnalysisPipeline) (i0 : Z) : bool :=
  (Z.of_nat (shape0 (data p)) / cpu_step p * cpu_step p =? i0)%Z.

(** The body of the loop up to the message: the test, the window, the
    engine and the extraction. *)
Definition cpu_window (i0 : Z) : M :=
  (fun w => if cpu_is_last (self w) i0 then set_terminate w else Done w) ;;
  raising (fun w => cpu_snippet (self w) i0)
          (fun snippet w => call_engine snippet (cpu_t0 (self w) i0) w) ;;
  extract_snippet_signals.

Definition cpu_iteration (iterations : Z) (i0 : Z) : M :=
  cpu_window i0 ;; report_progress iterations.

Definition pipeline_CPU : M :=
  raising (fun w => floordiv (Z.of_nat (shape0 (data (self w)))) (cpu_step (self w)))
    (fun iterations =>
       raising (fun w => np_arange (Z.of_nat (shape0 (data (self w)))) (cpu_step (self w)))
               (for_each (cpu_iteration iterations))).

(** ** [pipeline_GPU] *)

(** [snippet_data.T] of a block of the data set: one row per channel. *)
Definition block_T (p : AnalysisPipeline) (block : list (list Q)) : list (list Q) :=
  map (fun c => map (fun row => nth c row 0%Q) block) (seq 0 (channels (data p))).

Definition gpu_t0 (p : AnalysisPipeline) : Q :=
  (inject_Z (Spectrogram.itter_count (Spec p)
             * Z.of_nat (Spectrogram.snippet_size (Spec p))) / samplerate p
   + inject_Z (Z.of_nat (Spectrogram.snippet_overlap (Spec p)) / 2) * samplerate p)%Q.

Definition gpu_is_last (p : AnalysisPipeline) : bool :=
  (Z.of_nat (shape0 (data p)) / Z.of_nat (Spectrogram.snippet_size (Spec p))
   =? Spectrogram.itter_count (Spec p))%Z.

(** The body of the loop up to the message. *)
Definition gpu_block (block : list (list Q)) : M :=
  (fun w => if gpu_is_last (self w) then set_terminate w else Done w) ;;
  (fun w => call_engine (block_T (self w) block) (gpu_t0 (self w)) w) ;;
  (fun w => if _get_signals (self w) then extract_snippet_signals w else Done w).

Definition gpu_iteration (iterations : Z) (block : list (list Q)) : M :=
  gpu_block block ;; report_progress iterations.

(** [for enu, snippet_data in enumerate(self.dataset)] with its [break]. *)
Fixpoint gpu_loop (iterations : Z) (enu : nat) (blocks : list (list (list Q))) : M :=
  match blocks with
  | [] => skip
  | block :: rest =>
      gpu_iteration iterations block ;;
      (fun w => if (Z.of_nat enu =? iterations - 1)%Z then Done w
                else gpu_loop iterations (S enu) rest w)
  end.

(** [iterations = int(np.floor(data_shape[0] / snippet_size))]: the
    floor of the float64 quotient of the two integers.  It is their
    integer quotient for every shape below [2 ^ 53], and as such it is
    taken here. *)
Definition pipeline_GPU : M :=
  raising (fun w => floordiv (Z.of_nat (fst (data_shape (self w))))
                             (Z.of_nat (Spectrogram.snippet_size (Spec (self w)))))
    (fun iterations w => gpu_loop iterations 0 (dataset (self w)) w).

(* ------------------------------------------------------------------ *)
(** * [AnalysisPipeline.run] *)

(** The last lines of [run]: the hand-off to the tracking stage.  The
    arguments of the tracker are evaluated before it is called; the view
    [self.sign_v] is the one that can fail. *)
Definition tracking_handoff : M :=
  fun w =>
    if do_tracking (self w) then
      raising (fun w => np_array_rows (_sign_v (self w))) (fun sign_v =>
        pure (emit FreqTracking) ;;
        pure (upd (fun p =>
          set_ident_v
            (NdArray (freq_tracking_v6 X (items (np_array (_fund_v p)))
                                         (items (np_array (_idx_v p)))
                                         (items sign_v)
                                         (items (times p)))) p)) ;;
        save) w
    else Done w.

(** The messages of [run] itself to the logger are left out: the logger
    is given, as in [main], and what they format besides the pipeline is
    the configuration, which is not part of the embedding. *)
Definition run : M :=
  (fun w =>
     let p := self w in
     if _get_signals p || Spectrogram.get_fine_spec (Spec p)
        || Spectrogram.get_sparse_spec (Spec p)
     then ((if gpu_use p then pipeline_GPU else pipeline_CPU) ;;
           pure (upd (fun p => set_times (NdArray (Spectrogram.times (Spec p))) p)) ;;
           save) w
     else Done w) ;;
  tracking_handoff.

(** The flags that [main] sets between construction and [run]. *)
Definition main_flags (renew nosave : bool) (p : AnalysisPipeline) : AnalysisPipeline :=
  let p :=
    if renew
    then set_get_signals (PyBool true)
           (set_Spec (Spectrogram.set_flags true true (Spec p)) p)
    else p in
  if nosave then set_Spec (Spectrogram.set_flags false false (Spec p)) p else p.

(* ------------------------------------------------------------------ *)
(** * Vocabulary of the statements *)

(** The fundamentals of each local time bin, by position. *)
Definition detections (gpu : bool) (s : Spectrogram.t) : list (list Q) :=
  if gpu then gpu_fundamentals s
  else map (fun column =>
              fundamental_freqs X
                (fst (harmonic_groups X (Spectrogram.spec_freqs s) column)))
           (transpose_rows (Spectrogram.sum_spec s)).

(** The pool can be created. *)
Definition pool_ok (p : AnalysisPipeline) : bool :=
  gpu_use p || (2 <=? core_count p).

(** The three private sequences are Python lists. *)
Definition list_backed (p : AnalysisPipeline) : bool :=
  is_list (_fund_v p) && is_list (_idx_v p) && is_list (_sign_v p).

(** Everything but the four sequences of detections. *)
Definition same_frame (p p' : AnalysisPipeline) : Prop :=
  data p' = data p /\ samplerate p' = samplerate p /\ dataset p' = dataset p /\
  data_shape p' = data_shape p /\ gpu_use p' = gpu_use p /\
  core_count p' = core_count p /\ Spec p' = Spec p /\
  _get_signals p' = _get_signals p /\ do_tracking p' = do_tracking p /\
  times p' = times p /\ verbose p' = verbose p.

Definition is_ok {A} (r : result A) : bool :=
  match r with
  | Ok _ => true
  | Err _ => false
  end.

(** The engine state [s] lets a snippet be accumulated. *)
Definition snippet_ok (gpu : bool) (s : Spectrogram.t) : bool :=
  is_ok (contribute s (detections gpu s)).

(** An outcome, up to what is left of the oracle. *)
Definition forget_sched (o : outcome) : outcome :=
  match o with
  | Done w => Done (set_sched [] w)
  | Raised e w => Raised e (set_sched [] w)
  end.

(** A sequence of append operations: the engine has reached the state
    [s] before each call of [extract_snippet_signals]. *)
Definition appends (snapshots : list Spectrogram.t) : M :=
  for_each (fun s => pure (upd (set_Spec s)) ;; extract_snippet_signals) snapshots.

(** The engine appends one entry to the global time axis per local time
    bin of each snippet; [n] is the length of the axis before the first
    snippet of the list. *)
Fixpoint one_entry_per_bin (gpu : bool) (n : nat) (snapshots : list Spectrogram.t)
  : bool :=
  match snapshots with
  | [] => true
  | s :: r =>
      (length (Spectrogram.times s) =? n + length (Spectrogram.spec_times s))
      && (length (detections gpu s) =? length (Spectrogram.spec_times s))
      && one_entry_per_bin gpu (length (Spectrogram.times s)) r
  end.

Definition empty_state (p : AnalysisPipeline) : Prop :=
  _fund_v p = PyList [] /\ _idx_v p = PyList [] /\ _sign_v p = PyList [] /\
  ident_v p = PyList [].

(** The four sequences have the same length. *)
Definition aligned (p : AnalysisPipeline) : Prop :=
  length (items (_fund_v p)) = length (items (_idx_v p)) /\
  length (items (_sign_v p)) = length (items (_idx_v p)) /\
  length (items (ident_v p)) = length (items (_idx_v p)).

(** Every index of [l] is non-negative and less than [n]. *)
Definition below (n : nat) (l : list Z) : Prop :=
  Forall (fun i => (0 <= i < Z.of_nat n)%Z) l.

(** Every recorded index points into the engine's global time axis. *)
Definition in_axis (p : AnalysisPipeline) : Prop :=
  Forall (fun i => (0 <= i < Z.of_nat (length (Spectrogram.times (Spec p))))%Z)
         (items (_idx_v p)).

(** The calls of the engine in a log, oldest first. *)
Definition engine_calls (l : list event) : list (list (list Q) * Q) :=
  flat_map (fun e => match e with
                     | SnippetSpectrogram snippet t0 => [(snippet, t0)]
                     | _ => []
                     end) l.

(** For each call of the engine in a log, whether the orchestrator set
    [terminate] since the call before it. *)
Fixpoint final_marks (pending : bool) (l : list event) : list bool :=
  match l with
  | [] => []
  | SetTerminate :: r => final_marks true r
  | SnippetSpectrogram _ _ :: r => pending :: final_marks false r
  | _ :: r => final_marks pending r
  end.

Definition count_events (which : event -> bool) (l : list event) : nat :=
  length (filter which l).

Definition is_extract (e : event) : bool :=
  match e with
  | ExtractSnippetSignals => true
  | _ => false
  end.

Definition is_tracking (e : event) : bool :=
  match e with
  | FreqTracking => true
  | _ => false
  end.

(** The rows [i0 .. i0 + snippet_size - 1] of the recording that exist,
    one list per channel of [channel_list]. *)
Definition window (p : AnalysisPipeline) (i0 : nat) : list (list Q) :=
  map (fun channel =>
         map (fun row => nth channel row 0%Q)
             (firstn (Spectrogram.snippet_size (Spec p)) (skipn i0 (frames (data p)))))
      (Spectrogram.channel_list (Spec p)).

(** Every channel of [channel_list] exists in the recording. *)
Definition channels_ok (p : AnalysisPipeline) : bool :=
  forallb (fun channel => channel <? channels (data p))
          (Spectrogram.channel_list (Spec p)).

(** What the CPU loop reads of the pipeline and never writes. *)
Definition setup (p : AnalysisPipeline)
  : DataLoader * Q * bool * nat * nat * nat * list nat * nat :=
  (data p, samplerate p, gpu_use p, core_count p,
   Spectrogram.snippet_size (Spec p), Spectrogram.noverlap (Spec p),
   Spectrogram.channel_list (Spec p), verbose p).

(** What one iteration of the CPU loop adds to the log. *)
Definition cpu_events (p : AnalysisPipeline) (i0 : Z) : list event :=
  (if cpu_is_last p i0 then [SetTerminate] else [])
  ++ [SnippetSpectrogram (window p (Z.to_nat i0)) (cpu_t0 p i0);
      ExtractSnippetSignals].

(** The number of iterations of the CPU loop, for a positive step. *)
Definition cpu_count (p : AnalysisPipeline) : nat :=
  Z.to_nat ((Z.of_nat (shape0 (data p)) + cpu_step p - 1) / cpu_step p).

(** The blocks of the data set that the GPU loop reaches before its
    [break]. *)
Fixpoint gpu_taken (iterations : Z) (enu : nat) (blocks : list (list (list Q)))
  : list (list (list Q)) :=
  match blocks with
  | [] => []
  | block :: rest =>
      block :: (if (Z.of_nat enu =? iterations - 1)%Z then []
                else gpu_taken iterations (S enu) rest)
  end.

(** The engine always yields a state that lets the snippet be
    accumulated. *)
Definition engine_total (gpu : bool) : Prop :=
  forall s snippet t0, snippet_ok gpu (snippet_spectrogram X s snippet t0) = true.

End Pipeline.

(* ------------------------------------------------------------------ *)
(** * A small instance

    A recording of one channel whose sample [k] has the value [k], an
    engine that yields two time bins per snippet with the tones 300 and
    620 above the detection threshold, a detector that reports every
    frequency whose power exceeds one, and a tracker that gives every
    detection the label 1. *)

Module Example.

Definition loud (freqs psd : list Q) : list Q :=
  map fst (filter (fun fp => Qlt_bool 1 (snd fp)) (combine freqs psd)).

Definition tones : array2 :=
  {| rows2 := 3; cols2 := 2;
     get2 := fun i _ => match i with 0 => 0%Q | _ => 5%Q end |}.

Definition power : array3 :=
  {| dim0 := 2; dim1 := 3; dim2 := 2;
     get3 := fun c i j => inject_Z (Z.of_nat (c + i + j)) |}.

Definition engine (s : Spectrogram.t) (snippet : list (list Q)) (t0 : Q)
  : Spectrogram.t :=
  {| Spectrogram.snippet_size := Spectrogram.snippet_size s;
     Spectrogram.snippet_overlap := Spectrogram.snippet_overlap s;
     Spectrogram.noverlap := Spectrogram.noverlap s;
     Spectrogram.channel_list := Spectrogram.channel_list s;
     Spectrogram.get_fine_spec := Spectrogram.get_fine_spec s;
     Spectrogram.get_sparse_spec := Spectrogram.get_sparse_spec s;
     Spectrogram.terminate := Spectrogram.terminate s;
     Spectrogram.itter_count := (Spectrogram.itter_count s + 1)%Z;
     Spectrogram.times := Spectrogram.times s ++ [t0; (t0 + (1 # 2))%Q];
     Spectrogram.spec_times := [t0; (t0 + (1 # 2))%Q];
     Spectrogram.spec_freqs := [100%Q; 300%Q; 620%Q];
     Spectrogram.sum_spec := tones;
     Spectrogram.spec := power |}.

Definition all_one (f : list Q) (i : list Z) (s : list (list Q)) (t : list Q)
  : list label :=
  map (fun _ => Ident 1) f.

Definition X : Externals :=
  {| groups := list Q; hg_rest := unit;
     harmonic_groups := fun freqs psd => (loud freqs psd, tt);
     fundamental_freqs := fun g => g;
     assigned_hg := list (list Q); gpu_rest := unit;
     harmonic_group_pipeline :=
       fun a freqs => (map (loud freqs) (transpose_rows a), tt);
     get_fundamentals := fun hg _ => hg;
     snippet_spectrogram := engine;
     freq_tracking_v6 := all_one |}.

Definition recording (n : nat) : DataLoader :=
  {| rate := 20000%Q; channels := 1;
     frames := map (fun k => [inject_Z (Z.of_nat k)]) (seq 0 n) |}.

(** The engine before the first snippet. *)
Definition engine0 (size overlap : nat) (fine : bool) : Spectrogram.t :=
  {| Spectrogram.snippet_size := size;
     Spectrogram.snippet_overlap := 0;
     Spectrogram.noverlap := overlap;
     Spectrogram.channel_list := [0];
     Spectrogram.get_fine_spec := fine;
     Spectrogram.get_sparse_spec := false;
     Spectrogram.terminate := false;
     Spectrogram.itter_count := 0%Z;
     Spectrogram.times := [];
     Spectrogram.spec_times := [];
     Spectrogram.spec_freqs := [];
     Spectrogram.sum_spec := {| rows2 := 0; cols2 := 0; get2 := fun _ _ => 0%Q |};
     Spectrogram.spec :=
       {| dim0 := 0; dim1 := 0; dim2 := 0; get3 := fun _ _ _ => 0%Q |} |}.

(** The engine after [k] snippets. *)
Definition engine_after (k : nat) : Spectrogram.t :=
  fold_left (fun s i => engine s [] (inject_Z (Z.of_nat i)))
            (seq 0 k) (engine0 4 0 false).

(** The blocks that the data set of the GPU path yields for a
    recording of [n] samples cut into full blocks of [size] samples. *)
Definition blocks (n size : nat) : list (list (list Q)) :=
  map (fun b => firstn size (skipn (b * size) (frames (recording n))))
      (seq 0 (n / size)).

Definition world (p : AnalysisPipeline) (d : SaveDir) : World :=
  {| self := p; disk := d; log := []; sched := [[1; 0]; [0; 2]] |}.

(** A pipeline constructed over an empty save directory. *)
Definition pipeline (n size overlap : nat) (gpu : bool) : AnalysisPipeline :=
  {| data := recording n; samplerate := 20000%Q;
     dataset := blocks n size; data_shape := (n, 1); verbose := 0;
     gpu_use := gpu; core_count := 4; Spec := engine0 size overlap false;
     _get_signals := true; do_tracking := true;
     _fund_v := PyList []; _idx_v := PyList []; _sign_v := PyList [];
     ident_v := PyList []; times := PyList [] |}.

(** A checkpoint of one detection that has not been tracked. *)
Definition untracked : SaveDir :=
  {| fund_v_npy := Some [300%Q]; idx_v_npy := Some [0%Z];
     sign_v_npy := Some [[1%Q; 2%Q]]; ident_v_npy := Some [NaN];
     times_npy := Some [0%Q] |}.

(** A checkpoint of one detection that has been tracked. *)
Definition tracked : SaveDir :=
  {| fund_v_npy := Some [300%Q]; idx_v_npy := Some [0%Z];
     sign_v_npy := Some [[1%Q; 2%Q]]; ident_v_npy := Some [Ident 7];
     times_npy := Some [0%Q] |}.

(** The same collaborators with a tracker that returns two labels
    whatever it is given. *)
Definition two_labels (f : list Q) (i : list Z) (s : list (list Q)) (t : list Q)
  : list label :=
  [Ident 1; Ident 2].

Definition X_two_labels : Externals :=
  {| groups := list Q; hg_rest := unit;
     harmonic_groups := fun freqs psd => (loud freqs psd, tt);
     fundamental_freqs := fun g => g;
     assigned_hg := list (list Q); gpu_rest := unit;
     harmonic_group_pipeline :=
       fun a freqs => (map (loud freqs) (transpose_rows a), tt);
     get_fundamentals := fun hg _ => hg;
     snippet_spectrogram := engine;
     freq_tracking_v6 := two_labels |}.

(** A pipeline that holds one detection, not yet tracked. *)
Definition one_detection : AnalysisPipeline :=
  set_ident_v (NdArray [NaN])
    (set__sign_v (PyList [[1%Q; 2%Q]])
       (set__idx_v (PyList [0%Z])
          (set__fund_v (PyList [300%Q]) (pipeline 8 4 0 false)))).

End Example.

(* ------------------------------------------------------------------ *)
(** * Further vocabulary *)

(** The signature of a fundamental [f] found at the local time bin [t]:
    the power of every channel at the frequency bin nearest to [f]. *)
Definition signature_at (s : Spectrogram.t) (f : Q) (t : nat) : list Q :=
  match nearest_bin (Spectrogram.spec_freqs s) f with
  | Ok k => map (fun c => get3 (Spectrogram.spec s) c k t)
                (seq 0 (dim0 (Spectrogram.spec s)))
  | Err _ => []
  end.

(** The detections of a pipeline, one record per detection: the
    fundamental, the global time-bin index and the signature. *)
Definition records (p : AnalysisPipeline) : list (Q * (Z * list Q)) :=
  combine (items (_fund_v p)) (combine (items (_idx_v p)) (items (_sign_v p))).

(** The records of one snippet: for each local time bin in order, for
    each fundamental of the bin in order. *)
Definition snippet_records (s : Spectrogram.t) (l : list (list Q))
  : list (Q * (Z * list Q)) :=
  flat_map (fun tf =>
              map (fun f =>
                     (f, ((Z.of_nat (fst tf)
                           + (Z.of_nat (length (Spectrogram.times s))
                              - Z.of_nat (length (Spectrogram.spec_times s))))%Z,
                          signature_at s f (fst tf))))
                  (snd tf))
           (enumerate l).

Definition is_set_terminate (e : event) : bool :=
  match e with
  | SetTerminate => true
  | _ => false
  end.

Definition is_save (e : event) : bool :=
  match e with
  | Save => true
  | _ => false
  end.

(** The engine counts its calls in [itter_count]. *)
Definition engine_counts (X : Externals) : Prop :=
  forall s snippet t0,
    Spectrogram.itter_count (snippet_spectrogram X s snippet t0)
    = (Spectrogram.itter_count s + 1)%Z.

(** The save directory that mirrors the state of a pipeline. *)
Definition checkpoint_of (p : AnalysisPipeline) : SaveDir :=
  {| fund_v_npy := Some (items (_fund_v p));
     idx_v_npy := Some (items (_idx_v p));
     sign_v_npy := Some (items (_sign_v p));
     ident_v_npy := Some (items (ident_v p));
     times_npy := Some (items (times p)) |}.

(** No identity is assigned. *)
Definition untracked (p : AnalysisPipeline) : bool :=
  forallb isnan (items (ident_v p)).

(** A stage of [run] has something to do. *)
Definition has_work (p : AnalysisPipeline) : bool :=
  _get_signals p || Spectrogram.get_fine_spec (Spec p)
  || Spectrogram.get_sparse_spec (Spec p) || do_tracking p.

(** What the snippet loops keep: the stage flags, the save directory and
    the number of calls of the tracking stage; and no loop assigns an
    identity. *)
Definition kept (w w' : World) : Prop :=
  do_tracking (self w') = do_tracking (self w) /\
  _get_signals (self w') = _get_signals (self w) /\
  disk w' = disk w /\
  count_events is_tracking (log w') = count_events is_tracking (log w) /\
  (untracked (self w) = true -> untracked (self w') = true).

(** The world after the two lines of [run] that follow the loop:
    [self.times = self.Spec.times] and [self.save()]. *)
Definition saved_with_times (w : World) : World :=
  emit Save
    (set_disk (checkpoint_of
                 (set_times (NdArray (Spectrogram.times (Spec (self w)))) (self w)))
       (upd (set_times (NdArray (Spectrogram.times (Spec (self w))))) w)).

(** Nothing was written to the save directory and the tracking stage was
    not called between two worlds. *)
Definition unsaved (w w' : World) : Prop :=
  disk w' = disk w /\
  count_events is_save (log w') = count_events is_save (log w) /\
  count_events is_tracking (log w') = count_events is_tracking (log w).

(** A method that neither saves nor tracks, however it ends. *)
Definition quiet (m : M) : Prop := forall w, unsaved w (world_of (m w)).

(** The pipeline as [multiprocessing.cpu_count()] makes it on a host with
    a single core. *)
Definition on_one_core (p : AnalysisPipeline) : AnalysisPipeline :=
  {| data := data p; samplerate := samplerate p; dataset := dataset p;
     data_shape := data_shape p; verbose := verbose p; gpu_use := gpu_use p;
     core_count := 1;
     Spec := Spec p; _get_signals := _get_signals p; do_tracking := do_tracking p;
     _fund_v := _fund_v p; _idx_v := _idx_v p; _sign_v := _sign_v p;
     ident_v := ident_v p; times := times p |}.

(** The view [self.sign_v] can be taken: the signatures are an array, or
    a list of rows of one length. *)
Definition sign_v_ok (p : AnalysisPipeline) : bool :=
  is_ok (np_array_rows (_sign_v p)).

(** The fundamentals that the CPU strategy finds in a snippet: for each
    time bin of the summed spectrum, by position, those of its harmonic
    groups. *)
Definition per_bin (X : Externals) (s : Spectrogram.t) : list (list Q) :=
  map (fun column =>
         fundamental_freqs X
           (fst (harmonic_groups X (Spectrogram.spec_freqs s) column)))
      (transpose_rows (Spectrogram.sum_spec s)).

(** The world after a [save] that ends normally. *)
Definition saved (w : World) : World :=
  emit Save (set_disk (checkpoint_of (self w)) w).

(** The world after a hand-off to the tracking stage that ends normally,
    with [do_tracking] set. *)
Definition tracked (X : Externals) (w : World) : World :=
  saved
    (upd (set_ident_v
            (NdArray (freq_tracking_v6 X (items (_fund_v (self w)))
                                         (items (_idx_v (self w)))
                                         (items (_sign_v (self w)))
                                         (items (times (self w))))))
         (emit FreqTracking w)).

From Stdlib Require String.

(* ------------------------------------------------------------------ *)
(** * The search for the configuration file: [Configuration.find_config]

    The file system is a tree without symbolic links, so that
    [os.path.realpath] followed by [os.path.normpath] gives the names from
    the root to the folder; the search is given its folder in that form.
    The entries of a directory are in the order in which [os.scandir]
    lists them. *)

Module Config.
Import String.

#[warnings="-register-all"] Inductive node : Type :=
| File
| Dir (entries : list (string * node)).

Definition is_Dir (n : node) : bool :=
  match n with
  | Dir _ => true
  | File => false
  end.

(** The names from the root to an entry. *)
Definition Path : Type := list string.

Fixpoint entry (name : string) (entries : list (string * node)) : option node :=
  match entries with
  | [] => None
  | (k, n) :: r => if String.eqb k name then Some n else entry name r
  end.

Fixpoint lookup (n : node) (p : Path) : option node :=
  match p with
  | [] => Some n
  | name :: r =>
      match n with
      | Dir entries =>
          match entry name entries with
          | Some c => lookup c r
          | None => None
          end
      | File => None
      end
  end.

Definition dirnames (entries : list (string * node)) : list string :=
  map fst (filter (fun e => is_Dir (snd e)) entries).

Definition filenames (entries : list (string * node)) : list string :=
  map fst (filter (fun e => negb (is_Dir (snd e))) entries).

(** [os.walk(top, topdown=True)] on the entry [n] found at [top]: the
    directory itself, then its subdirectories in the order of the
    listing, each with all that is below it.  On a file the listing
    fails and the walk yields nothing. *)
Fixpoint walk_node (top : Path) (n : node) : list (Path * list string * list string) :=
  match n with
  | File => []
  | Dir entries =>
      (top, dirnames entries, filenames entries)
      :: flat_map (fun e => match e with
                            | (name, c) => walk_node (top ++ [name])%list c
                            end) entries
  end.

(** [os.walk(top)]: a path that does not exist yields nothing. *)
Definition walk (fs : node) (top : Path) : list (Path * list string * list string) :=
  match lookup fs top with
  | Some n => walk_node top n
  | None => []
  end.

(** [f.endswith(suffix)] *)
Definition endswith (f suffix : string) : bool :=
  (String.length suffix <=? String.length f)
  && String.eqb (substring (String.length f - String.length suffix)
                           (String.length suffix) f) suffix.

Definition dot_yaml : string := ".yaml".

(** The two inner loops of [find_config] with their [break]s: the first
    name that ends in [.yaml] of the first directory of the walk that has
    one, joined to that directory. *)
Fixpoint first_yaml (triples : list (Path * list string * list string)) : option Path :=
  match triples with
  | [] => None
  | (dirpath, _, names) :: r =>
      match find (fun f => endswith f dot_yaml) names with
      | Some filename => Some (dirpath ++ [filename])%list
      | None => first_yaml r
      end
  end.

(** [os.sep.join(folder.split(os.sep)[:-1])]: the string of the parent,
    but the empty string for the root and for an entry of the root; the
    empty string names nothing. *)
Definition parent_by_split (folder : Path) : option Path :=
  match folder with
  | [] | [_] => None
  | _ => Some (removelast folder)
  end.

Definition search_folders (module_dir folder : Path) : list (option Path) :=
  [Some folder; parent_by_split folder; Some module_dir].

(** The outer loop over the search folders. *)
Fixpoint search (fs : node) (folders : list (option Path)) : option Path :=
  match folders with
  | [] => None
  | search_folder :: r =>
      match first_yaml (match search_folder with
                        | Some top => walk fs top
                        | None => []
                        end) with
      | Some file => Some file
      | None => search fs r
      end
  end.

(** The exception of ruamel that [create_standard_cfg_file] ends by. *)
Inductive error : Type :=
| YAMLStreamError.

(** How [find_config] ends: with a file that it found in [self.file], or
    by an exception. *)
Inductive config_file : Type :=
| Found (file : Path)
| Raises (e : error).

(** [create_standard_cfg_file()] parses the standard document and hands
    [yaml.dump(code, file)] the name of the file, a [str], where ruamel
    takes a stream: ruamel raises its [YAMLStreamError] for an object
    without a method [write].  No file is written and nothing is
    returned. *)
Definition create_standard_cfg_file : config_file := Raises YAMLStreamError.

(** [module_dir] is [os.path.dirname(os.path.abspath(__file__))]. *)
Definition find_config (fs : node) (module_dir folder : Path) : config_file :=
  match search fs (search_folders module_dir folder) with
  | Some file => Found file
  | None => create_standard_cfg_file
  end.

(** A directory [/p] that lists [a.yaml] before [my.yaml], below a root
    that holds nothing else. *)
Definition a_yaml : string := "a.yaml".

Definition my_yaml : string := "my.yaml".

Definition p : Path := ["p"]%string.

Definition two_configs : node :=
  Dir [("p"%string, Dir [(a_yaml, File); (my_yaml, File)])].

End Config.

(* ------------------------------------------------------------------ *)
(** * The entry point

    [wavetracker.main] from the command line to the loading of the raw
    data (its steps 0 to 2), and [datahandler.open_raw_data], which step 2
    calls.  The calls that leave the package ([Path.is_dir], [Path.glob],
    [Path.mkdir], the [DataLoader] of thunderlab) are parameters, bundled
    in [Host], and return; the constructor of [Configuration] is
    followed through its search for the file, and the loading of the
    file that it found is a parameter that may raise.  The strings that
    [main] makes of its paths are kept as the paths they spell. *)

Module Cli.
Import String.

(** A path as [pathlib] has it on POSIX: the tuple of its parts.  The
    first part of an absolute path is the root, one slash or two. *)
Definition Path : Type := list string.

Definition is_absolute (p : Path) : bool :=
  match p with
  | r :: _ => String.eqb r "/" || String.eqb r "//"
  | [] => false
  end.

(** [Path.absolute()] in the working directory [cwd] *)
Definition absolute (cwd p : Path) : Path :=
  if is_absolute p then p else (cwd ++ p)%list.

(** [Path.parent]: the root is its own parent. *)
Definition parent (p : Path) : Path :=
  if is_absolute p && (List.length p =? 1) then p else removelast p.

(** [l[-k] = x] for a positive [k] *)
Definition setitem_from_end {A} (k : nat) (x : A) (l : list A) : result (list A) :=
  if List.length l <? k then Err IndexError
  else Ok (firstn (List.length l - k) l ++ x :: skipn (S (List.length l - k)) l)%list.

(** A scalar of the configuration file. *)
Inductive value : Type :=
| Int (z : Z)
| Float (q : Q)
| Str (s : string)
| Bool (b : bool)
| Null.

(** A section of the configuration: a [dict] with string keys. *)
Definition section : Type := list (string * value).

Fixpoint get (d : section) (key : string) : option value :=
  match d with
  | [] => None
  | (k, v) :: r => if String.eqb k key then Some v else get r key
  end.

(** The value that a call binds to the parameter [name]: the one of
    the expanded [dict], or the default of the signature. *)
Definition keyword (d : section) (name : string) (default : value) : value :=
  match get d name with
  | Some v => v
  | None => default
  end.

(** [argparse.Namespace] as [cli] fills it. *)
Record Namespace : Type := {
  path : option Path;
  config : option string;
  verbose : nat;
  cpu : bool;
  renew : bool;
  logging : bool;
  nosave : bool
}.

(** The argument [filename] of [open_raw_data]: a path or a list of
    paths. *)
Inductive filename_arg : Type :=
| OneFile (f : Path)
| Files (l : list Path).

(** [datahandler.MultiChannelAudioDataset.__init__] stores its three
    arguments. *)
Record MultiChannelAudioDataset : Type := {
  data_loader : DataLoader;
  block_size : value;
  noverlap : nat
}.

(** The components of the tuple that [open_raw_data] returns. *)
Inductive component : Type :=
| Data (d : DataLoader)
| Rate (q : Q)
| Channels (n : nat)
| Dataset (d : option MultiChannelAudioDataset)
| Shape (s : nat * nat).

(** The exceptions of the pipeline, the one of a call that cannot bind
    its keywords, the one of [create_standard_cfg_file], and any other
    by the name of its class. *)
Inductive raised : Type :=
| Builtin (e : exn)
| TypeError
| YAMLStreamError
| Other (class : string).

Inductive returns (A : Type) : Type :=
| Return (a : A)
| Raise (e : raised).
Arguments Return {A} a.
Arguments Raise {A} e.

Definition lift {A} (r : result A) : returns A :=
  match r with
  | Ok a => Return a
  | Err e => Raise (Builtin e)
  end.

Definition and_then {A B} (r : returns A) (k : A -> returns B) : returns B :=
  match r with
  | Return a => k a
  | Raise e => Raise e
  end.

Notation "'do' x '<-' r ';' k" := (and_then r (fun x => k))
  (at level 10, x pattern, r at level 100, k at level 200).

(** What the attribute [spectrogram] of a configuration holds when
    [main] expands it with [**]: a mapping whose keys are strings; any
    other object, which the call refuses; or nothing, when the file had
    a key that took the attributes of the object away. *)
Inductive attribute : Type :=
| Keywords (d : section)
| NoKeywords
| Unset.

Record Host : Type := {
  (** the working directory, the prefix of [Path.absolute] *)
  cwd : Path;
  is_dir : Path -> bool;
  (** [sorted(path.glob("*.wav"))] *)
  glob_wav : Path -> list Path;
  (** the file system as step 1 of [main] finds it, after the save
      directory was made *)
  fs : Config.node;
  (** [os.path.dirname(os.path.abspath(__file__))] in [config.py] *)
  module_dir : Config.Path;
  (** [os.path.normpath(os.path.realpath(folder))] *)
  realpath : string -> Config.Path;
  (** lines 52 to 58 of [Configuration.__init__] on the file found:
      [open], the [load] of ruamel, [self.cfg.keys()] and the [setattr] of
      every key of the document.  Each of them may raise, by the
      content of the file and the object model of Python (the document
      may be no mapping, a key [keys] meets the property of that name);
      otherwise they leave the attribute [spectrogram] as line 42 or as
      a key of the document set it. *)
  load : Config.Path -> returns attribute;
  (** [thunderlab.dataloader.DataLoader(filename, buffersize=..., backsize=...)] *)
  open_loader : filename_arg -> value -> value -> DataLoader;
  (** the module constant [available_GPU] *)
  available_GPU : bool
}.

(** [Configuration(folder, verbose=verbose, logger=log)] as far as
    [main] reads it: the attribute [spectrogram].  [file] keeps its
    default [None], so the search is made whatever [folder] names; the
    message of line 50 goes to the logger that [main] gives. *)
Definition Configuration (h : Host) (folder : option string) (verbose : nat)
  : returns attribute :=
  let folder :=
    match folder with
    | None => module_dir h
    | Some f => realpath h f
    end in
  match Config.find_config (fs h) (module_dir h) folder with
  | Config.Raises Config.YAMLStreamError => Raise YAMLStreamError
  | Config.Found file => load h file
  end.

(** The mapping that [**cfg.spectrogram] expands. *)
Definition expand (a : attribute) : returns section :=
  match a with
  | Keywords d => Return d
  | NoKeywords => Raise TypeError
  | Unset => Raise (Builtin AttributeError)
  end.

(** [logger.info(...)]: the default [logger=None] has no such method. *)
Definition logger_info (logger : bool) : result unit :=
  if logger then Ok tt else Err AttributeError.

(** [datahandler.open_raw_data].  [logger] tells whether a logger was
    given.  The folder of the first file is read by a message only; the
    subscript [filename[0]] that leads to it exists on a list with an
    item. *)
Definition open_raw_data (h : Host) (filename : filename_arg)
    (buffersize backsize channel snippet_size : value)
    (verbose : nat) (logger : bool) : result (list component) :=
  let* first :=
    match filename with
    | OneFile f => Ok f
    | Files [] => Err IndexError
    | Files (f :: _) => Ok f
    end in
  let data := open_loader h filename buffersize backsize in
  let samplerate := rate data in
  let channels := channels data in
  let shape := (shape0 data, channels) in
  let* _ := if 1 <=? verbose then logger_info logger else Ok tt in
  let* dataset :=
    if available_GPU h
    then let d := {| data_loader := data; block_size := snippet_size;
                     noverlap := 0 |} in
         let* _ := logger_info logger in
         Ok (Some d)
    else Ok None in
  Ok [Data data; Rate samplerate; Channels channels; Dataset dataset; Shape shape].

(** Whether a section has a key that the call of [main] passes by
    keyword already. *)
Definition clashes (d : section) : bool :=
  existsb (fun kv => String.eqb (fst kv) "filename"
                     || String.eqb (fst kv) "verbose"
                     || String.eqb (fst kv) "logger") d.

(** The call [open_raw_data(filename=..., verbose=..., logger=log, **d)]:
    a key of [d] that names one of the three keywords is bound twice; a
    key that names another parameter gives its value; any other key is
    collected by [**kwargs], which the function does not read. *)
Definition call_open_raw_data (h : Host) (filename : filename_arg)
    (verbose : nat) (d : section) : returns (list component) :=
  if clashes d
  then Raise TypeError
  else lift (open_raw_data h filename
               (keyword d "buffersize" (Float 60))
               (keyword d "backsize" (Float 0))
               (keyword d "channel" (Int (-1)))
               (keyword d "snippet_size" (Int (2 ^ 21)))
               verbose true).

(** An assignment of a tuple to four names. *)
Definition unpack4 {A} (t : list A) : result (A * A * A * A) :=
  match t with
  | [a; b; c; d] => Ok (a, b, c, d)
  | _ => Err ValueError
  end.

(** An assignment of a tuple to five names, as in [datahandler.main]. *)
Definition unpack5 {A} (t : list A) : result (A * A * A * A * A) :=
  match t with
  | [a; b; c; d; e] => Ok (a, b, c, d, e)
  | _ => Err ValueError
  end.

(** Step 0 of [main]: the file or files, and the folder. *)
Definition file_and_folder (h : Host) (p : Path) : filename_arg * Path :=
  if is_dir h p
  then (Files (map (absolute (cwd h)) (glob_wav h p)), p)
  else (OneFile (absolute (cwd h) p), parent (absolute (cwd h) p)).

Definition intermediate : string := "intermediate".

(** [save_path = list(folder.parts); save_path[-3] = "intermediate"] *)
Definition save_path (folder : Path) : result Path :=
  setitem_from_end 3 intermediate folder.

(** What steps 0 to 2 of [main] hand to step 3. *)
Record loaded : Type := {
  file : filename_arg;
  folder : Path;
  save_dir : Path;
  spectrogram : section;
  names : component * component * component * component
}.

(** Steps 0 to 2 of [main].  The first component is the directory that
    [save_path.mkdir(exist_ok=True, parents=True)] was called on, if the
    call was reached. *)
Definition main_steps_0_to_2 (h : Host) (args : Namespace)
  : option Path * returns loaded :=
  match path args with
  | None => (None, Raise (Builtin AttributeError))
  | Some p =>
      let (file0, folder0) := file_and_folder h p in
      match save_path folder0 with
      | Err e => (None, Raise (Builtin e))
      | Ok save_path0 =>
          (Some save_path0,
           do cfg <- Configuration h (config args) (verbose args);
           do d <- expand cfg;
           do t <- call_open_raw_data h file0 (verbose args) d;
           do n <- lift (unpack4 t);
           Return {| file := file0; folder := folder0; save_dir := save_path0;
                     spectrogram := d; names := n |})
      end
  end.

(** A host for the examples: the working directory [/home], no
    directory of recordings, the file system [Config.two_configs] with
    the package in [/p], configuration files without settings for the
    spectrogram, a recording of eight samples and no GPU. *)
Definition desk : Host :=
  {| cwd := ["/"; "home"]%string;
     is_dir := fun _ => false;
     glob_wav := fun _ => [];
     fs := Config.two_configs;
     module_dir := Config.p;
     realpath := fun f => ["home"; f]%string;
     load := fun _ => Return (Keywords []);
     open_loader := fun _ _ _ => Example.recording 8;
     available_GPU := false |}.

(** The same host over a file system that holds no file at all. *)
Definition bare_desk : Host :=
  {| cwd := cwd desk;
     is_dir := is_dir desk;
     glob_wav := glob_wav desk;
     fs := Config.Dir [];
     module_dir := module_dir desk;
     realpath := realpath desk;
     load := load desk;
     open_loader := open_loader desk;
     available_GPU := available_GPU desk |}.

(** A recording given by a relative path, and the path
    [intermediate/home/data]. *)
Definition rec_wav : Path := ["data"; "rec.wav"]%string.

Definition intermediate_home_data : Path := ["intermediate"; "home"; "data"]%string.

(** The command line [wavetracker data/rec.wav]. *)
Definition rec_args : Namespace :=
  {| path := Some rec_wav; config := None; verbose := 0; cpu := false;
     renew := false; logging := false; nosave := false |}.

End Cli.
(* ------------------------------------------------------------------ *)
(** * Facts about the Python values *)

Unset Implicit Arguments.

Lemma mapM_length {A B} (f : A -> result B) (l : list A) (out : list B) :
  mapM f l = Ok out -> length out = length l.
Proof.
  revert out; induction l as [|x r IH]; simpl; intros out H.
  - inversion H; reflexivity.
  - destruct (f x) as [y|e]; simpl in H; [|discriminate].
    destruct (mapM f r) as [ys|e]; simpl in H; [|discriminate].
    inversion H; subst; simpl; f_equal; apply IH; reflexivity.
Qed.

Lemma argmin_from_bound (l : list Q) :
  forall best_i best i, best_i < i -> argmin_from best_i best i l < i + length l.
Proof.
  induction l as [|x r IH]; simpl; intros best_i best i H; [lia|].
  destruct (Qlt_bool x best).
  - specialize (IH i x (S i)); lia.
  - specialize (IH best_i best (S i)); lia.
Qed.

Lemma np_argmin_bound (l : list Q) (k : nat) :
  np_argmin l = Ok k -> k < length l.
Proof.
  destruct l as [|x r]; simpl; intros H; [discriminate|].
  inversion H; subst.
  pose proof (argmin_from_bound r 0 x 1); lia.
Qed.

(* ------------------------------------------------------------------ *)
(** * Facts about the worker pool *)

Lemma insert_at_perm {A} (k : nat) (x : A) (l : list A) :
  Permutation (insert_at k x l) (x :: l).
Proof.
  revert k; induction l as [|y l IH]; intros [|k]; simpl; auto.
  rewrite IH; apply perm_swap.
Qed.

Lemma completion_order_perm (ks : list nat) (n : nat) :
  Permutation (completion_order ks n) (seq 0 n).
Proof.
  unfold completion_order.
  assert (G : forall l done,
             Permutation (fold_left (fun done i => insert_at (nth i ks 0) i done) l done)
                         (l ++ done)).
  { induction l as [|i l IH]; simpl; intros done; auto.
    rewrite IH. rewrite insert_at_perm. symmetry; apply Permutation_middle. }
  rewrite G, app_nil_r; reflexivity.
Qed.

Lemma by_position {A B} (f : A -> B) (xs : list A) :
  forall start,
    flat_map (fun i => match nth_error xs (i - start) with
                       | Some x => [f x]
                       | None => []
                       end) (seq start (length xs)) = map f xs.
Proof.
  induction xs as [|x r IH]; simpl; intros start; [reflexivity|].
  rewrite Nat.sub_diag; simpl; f_equal.
  rewrite <- (IH (S start)).
  rewrite !flat_map_concat_map; f_equal.
  apply map_ext_in; intros i Hi; apply in_seq in Hi.
  replace (i - start) with (S (i - S start)) by lia; reflexivity.
Qed.

(** The list that [pool.map] hands out does not depend on the order of
    completion: it is the list of results by position. *)
Lemma pool_map_eq_map {A B} (ks : list nat) (f : A -> B) (xs : list A) :
  pool_map ks f xs = map f xs.
Proof.
  unfold pool_map.
  set (completed := flat_map _ (completion_order ks (length xs))).
  rewrite <- (by_position f xs 0).
  rewrite !flat_map_concat_map; f_equal.
  apply map_ext_in; intros i Hi; apply in_seq in Hi.
  rewrite Nat.sub_0_r.
  destruct (nth_error xs i) as [x|] eqn:Hx;
    [|apply nth_error_None in Hx; lia].
  assert (Hin : In (i, f x) completed).
  { apply in_flat_map; exists i; split.
    - apply (Permutation_in i (Permutation_sym (completion_order_perm ks (length xs)))).
      apply in_seq; lia.
    - rewrite Hx; left; reflexivity. }
  destruct (find (fun r => fst r =? i) completed) as [r|] eqn:Hf.
  - apply find_some in Hf; destruct Hf as [Hr Hi'].
    apply Nat.eqb_eq in Hi'.
    apply in_flat_map in Hr; destruct Hr as [j [_ Hj]].
    destruct (nth_error xs j) as [y|] eqn:Hy; [|contradiction].
    destruct Hj as [Hj|[]]; subst r; simpl in *; subst j.
    congruence.
  - apply (find_none _ _ Hf) in Hin; simpl in Hin.
    rewrite Nat.eqb_refl in Hin; discriminate.
Qed.
(* ------------------------------------------------------------------ *)
(** * Facts about one snippet's contribution *)

Lemma sorted_repeat_app (a n : nat) (l : list nat) :
  Forall (le a) l -> StronglySorted le l -> StronglySorted le (repeat a n ++ l).
Proof.
  intros Hl Hs; induction n as [|n IH]; simpl; [assumption|].
  constructor; [assumption|].
  apply Forall_app; split; [|assumption].
  apply Forall_forall; intros x Hx; apply repeat_spec in Hx; subst; constructor.
Qed.

(** The local time-bin indices, taken from the position of each time bin
    in the list of fundamentals: as many as there are fundamentals, each
    the position of a time bin, in ascending order. *)
Lemma stamps_from (l : list (list Q)) :
  forall start,
    let stamps :=
      concat (map (fun ef : nat * list Q => repeat (fst ef) (length (snd ef)))
                  (combine (seq start (length l)) l)) in
    length stamps = length (concat l) /\
    Forall (fun i => start <= i < start + length l) stamps /\
    StronglySorted le stamps.
Proof.
  induction l as [|f r IH]; intros start; simpl.
  - repeat split; constructor.
  - destruct (IH (S start)) as [Hlen [Hb Hs]].
    rewrite !length_app, repeat_length, Hlen.
    split; [reflexivity|split].
    + apply Forall_app; split.
      * apply Forall_forall; intros x Hx; apply repeat_spec in Hx; lia.
      * eapply Forall_impl; [|exact Hb]; simpl; intros; lia.
    + apply sorted_repeat_app; [|assumption].
      eapply Forall_impl; [|exact Hb]; simpl; intros; lia.
Qed.

Lemma local_idx_length (l : list (list Q)) :
  length (local_idx l) = length (concat l).
Proof. apply (stamps_from l 0). Qed.

Lemma local_idx_bound (l : list (list Q)) :
  Forall (fun i => i < length l) (local_idx l).
Proof.
  destruct (stamps_from l 0) as [_ [H _]].
  eapply Forall_impl; [|exact H]; simpl; intros; lia.
Qed.

Lemma local_idx_sorted (l : list (list Q)) : StronglySorted le (local_idx l).
Proof. apply (stamps_from l 0). Qed.

Lemma contribute_inv (s : Spectrogram.t) (l : list (list Q)) (c : contribution) :
  contribute s l = Ok c ->
  tmp_fund_v c = concat l /\
  tmp_idx_v c = local_idx l /\
  length (tmp_sign_v c) = length (concat l) /\
  idx_0 c = (Z.of_nat (length (Spectrogram.times s))
             - Z.of_nat (length (Spectrogram.spec_times s)))%Z.
Proof.
  unfold contribute, np_hstack, signatures.
  destruct l as [|f r]; [discriminate|].
  set (l := f :: r).
  change (map _ (enumerate l)) with
    (map (fun ef : nat * list Q => repeat (fst ef) (length (snd ef))) (enumerate l)).
  destruct (map _ (enumerate l)) as [|st sts] eqn:E; [discriminate|].
  assert (Hidx : concat (st :: sts) = local_idx l)
    by (unfold local_idx; rewrite E; reflexivity).
  cbn [bind].
  destruct (mapM _ (concat l)) as [f_idx|e] eqn:Hf; cbn [bind]; [|discriminate].
  destruct (forallb _ f_idx && forallb _ _); cbn [bind]; [|discriminate].
  intros H; inversion H; subst c; clear H;
    cbn [tmp_fund_v tmp_idx_v tmp_sign_v idx_0].
  repeat split; try assumption.
  change (st ++ concat sts) with (concat (st :: sts)).
  rewrite length_map, length_combine, Hidx, local_idx_length.
  rewrite (mapM_length _ _ _ Hf); apply Nat.min_id.
Qed.

(* ------------------------------------------------------------------ *)
(** * Facts about [extract_snippet_signals] *)

Section ExtractFacts.

Variable X : Externals.

Lemma Pool_ok (n : nat) : Pool (Z.of_nat n - 1) = Ok tt <-> (2 <=? n) = true.
Proof.
  unfold Pool; rewrite Nat.leb_le.
  destruct (Z.of_nat n - 1 <? 1)%Z eqn:L.
  - apply Z.ltb_lt in L; split; [discriminate|lia].
  - apply Z.ltb_ge in L; split; [lia|reflexivity].
Qed.

Lemma cpu_fundamentals_by_position (ks1 ks2 : list nat) (s : Spectrogram.t) :
  cpu_fundamentals X ks1 ks2 s =
  map (fun column =>
         fundamental_freqs X (fst (harmonic_groups X (Spectrogram.spec_freqs s) column)))
      (transpose_rows (Spectrogram.sum_spec s)).
Proof.
  unfold cpu_fundamentals; rewrite !pool_map_eq_map, !map_map; reflexivity.
Qed.

Lemma extract_done_inv (w w' : World) :
  extract_snippet_signals X w = Done w' ->
  exists c,
    contribute (Spec (self w)) (detections X (gpu_use (self w)) (Spec (self w))) = Ok c /\
    pool_ok (self w) = true /\
    list_backed (self w) = true /\
    _fund_v (self w') = PyList (items (_fund_v (self w)) ++ tmp_fund_v c) /\
    _idx_v (self w') =
      PyList (items (_idx_v (self w))
              ++ map (fun i => (Z.of_nat i + idx_0 c)%Z) (tmp_idx_v c)) /\
    _sign_v (self w') = PyList (items (_sign_v (self w)) ++ tmp_sign_v c) /\
    ident_v (self w') = np_full_nan (length (items (_idx_v (self w')))) /\
    same_frame (self w) (self w') /\
    log w' = log w ++ [ExtractSnippetSignals] /\ disk w' = disk w.
Proof.
  unfold extract_snippet_signals, seqM, pure, strategy, raising, detections.
  unfold extend_fund_v, extend_idx_v, extend_sign_v, reset_ident_v, raising, pure.
  unfold list_backed, same_frame.
  cbn.
  destruct (gpu_use (self w)) eqn:G.
  - destruct (contribute _ _) as [c|e] eqn:C; cbn; [|discriminate].
    destruct (_fund_v (self w)) as [lf|lf]; cbn; [|discriminate].
    destruct (_idx_v (self w)) as [li|li]; cbn; [|discriminate].
    destruct (_sign_v (self w)) as [ls|ls]; cbn; [|discriminate].
    intros H; inversion H; subst; clear H; cbn.
    exists c; repeat split; auto.
    unfold pool_ok; rewrite G; reflexivity.
  - destruct (Pool _) eqn:P; [|discriminate].
    rewrite cpu_fundamentals_by_position. cbn.
    destruct (contribute _ _) as [c|e] eqn:C; cbn; [|discriminate].
    destruct (_fund_v (self w)) as [lf|lf]; cbn; [|discriminate].
    destruct (_idx_v (self w)) as [li|li]; cbn; [|discriminate].
    destruct (_sign_v (self w)) as [ls|ls]; cbn; [|discriminate].
    intros H; inversion H; subst; clear H; cbn.
    exists c; repeat split; auto.
    unfold pool_ok; rewrite G; apply Pool_ok; destruct a; assumption.
Qed.

Lemma extract_done (w : World) (c : contribution) :
  pool_ok (self w) = true ->
  list_backed (self w) = true ->
  contribute (Spec (self w)) (detections X (gpu_use (self w)) (Spec (self w))) = Ok c ->
  exists w', extract_snippet_signals X w = Done w'.
Proof.
  intros P L C.
  assert (P' : gpu_use (self w) = true \/ 2 <= core_count (self w)).
  { unfold pool_ok in P; apply orb_true_iff in P.
    destruct P as [P|P]; [left; assumption|right; apply Nat.leb_le; assumption]. }
  clear P; revert L C.
  unfold extract_snippet_signals, seqM, pure, strategy, raising, detections.
  unfold extend_fund_v, extend_idx_v, extend_sign_v, reset_ident_v, raising, pure.
  unfold list_backed, Pool.
  cbn.
  destruct (_fund_v (self w)) as [lf|lf] eqn:F; cbn; [|discriminate].
  destruct (_idx_v (self w)) as [li|li] eqn:I; cbn; [|discriminate].
  destruct (_sign_v (self w)) as [ls|ls] eqn:S; cbn; [|discriminate].
  intros _.
  destruct (gpu_use (self w)) eqn:G.
  - intros C; rewrite C; cbn; rewrite ?F; cbn; rewrite ?I; cbn; rewrite ?S; cbn.
    eexists; reflexivity.
  - destruct P' as [P'|P']; [discriminate|].
    destruct (Z.of_nat (core_count (self w)) - 1 <? 1)%Z eqn:L;
      [apply Z.ltb_lt in L; lia|].
    rewrite cpu_fundamentals_by_position; cbn.
    intros C; rewrite C; cbn; rewrite ?F; cbn; rewrite ?I; cbn; rewrite ?S; cbn.
    eexists; reflexivity.
Qed.

(** An exception in a list-backed pipeline is raised before any of the
    four sequences is touched. *)
Lemma extract_raised_inv (w w' : World) (e : exn) :
  extract_snippet_signals X w = Raised e w' ->
  list_backed (self w) = true ->
  _fund_v (self w') = _fund_v (self w) /\ _idx_v (self w') = _idx_v (self w) /\
  _sign_v (self w') = _sign_v (self w) /\ ident_v (self w') = ident_v (self w) /\
  same_frame (self w) (self w') /\
  log w' = log w ++ [ExtractSnippetSignals] /\ disk w' = disk w.
Proof.
  unfold extract_snippet_signals, seqM, pure, strategy, raising.
  unfold extend_fund_v, extend_idx_v, extend_sign_v, reset_ident_v, raising, pure.
  unfold list_backed, same_frame.
  cbn.
  destruct (_fund_v (self w)) as [lf|lf] eqn:F; cbn; [|discriminate].
  destruct (_idx_v (self w)) as [li|li] eqn:I; cbn; [|discriminate].
  destruct (_sign_v (self w)) as [ls|ls] eqn:S; cbn; [|discriminate].
  intros H _.
  destruct (gpu_use (self w)) eqn:G.
  - destruct (contribute _ _) as [c|e'] eqn:C; cbn in H.
    + rewrite ?F in H; cbn in H; rewrite ?I in H; cbn in H; rewrite ?S in H; cbn in H.
      discriminate.
    + inversion H; subst; cbn; repeat split; auto.
  - destruct (Pool _).
    + destruct (contribute _ _) as [c|e'] eqn:C; cbn in H.
      * rewrite ?F in H; cbn in H; rewrite ?I in H; cbn in H; rewrite ?S in H; cbn in H.
        discriminate.
      * inversion H; subst; cbn; repeat split; auto.
    + inversion H; subst; cbn; repeat split; auto.
Qed.

Ltac open_extract :=
  unfold extract_snippet_signals, seqM, pure, strategy, raising, detections;
  unfold extend_fund_v, extend_idx_v, extend_sign_v, reset_ident_v, raising, pure;
  cbn.

(** Whatever the outcome, a call touches nothing but the four sequences,
    the oracle and the log. *)
Lemma extract_frame (w : World) :
  let w' := world_of (extract_snippet_signals X w) in
  same_frame (self w) (self w') /\
  log w' = log w ++ [ExtractSnippetSignals] /\ disk w' = disk w.
Proof.
  unfold same_frame; open_extract.
  destruct (gpu_use (self w)) eqn:G; [|destruct (Pool _)];
    try destruct (contribute _ _) as [c|e]; cbn;
    try (destruct (_fund_v (self w)); cbn);
    try (destruct (_idx_v (self w)); cbn);
    try (destruct (_sign_v (self w)); cbn);
    repeat split; auto.
Qed.

(** A call ends normally exactly when the pool can be created, the
    snippet can be accumulated and the three sequences are lists. *)
Lemma extract_is_done (w : World) :
  is_done (extract_snippet_signals X w) =
  pool_ok (self w)
  && snippet_ok X (gpu_use (self w)) (Spec (self w))
  && list_backed (self w).
Proof.
  destruct (extract_snippet_signals X w) as [w'|e w'] eqn:E; cbn [is_done].
  - destruct (extract_done_inv w w' E) as [c [C [P [L _]]]].
    unfold snippet_ok; rewrite P, C, L; reflexivity.
  - destruct (pool_ok (self w)) eqn:P; [|reflexivity].
    unfold snippet_ok.
    destruct (contribute _ _) as [c|e'] eqn:C; [|reflexivity].
    destruct (list_backed (self w)) eqn:L; [|reflexivity].
    destruct (extract_done w c P L C) as [w2 H]; congruence.
Qed.

(** The identity sequence changes only when the call ends normally. *)
Lemma extract_raised_ident (w w' : World) (e : exn) :
  extract_snippet_signals X w = Raised e w' -> ident_v (self w') = ident_v (self w).
Proof.
  open_extract.
  destruct (gpu_use (self w)); [|destruct (Pool _)];
    try destruct (contribute _ _) as [c|e']; cbn;
    try (destruct (_fund_v (self w)); cbn);
    try (destruct (_idx_v (self w)); cbn);
    try (destruct (_sign_v (self w)); cbn);
    intros H; inversion H; subst; reflexivity.
Qed.

(** The oracle decides nothing. *)
Lemma extract_any_order (w : World) (s1 s2 : list (list nat)) :
  forget_sched (extract_snippet_signals X (set_sched s1 w)) =
  forget_sched (extract_snippet_signals X (set_sched s2 w)).
Proof.
  open_extract.
  destruct (gpu_use (self w)); [|destruct (Pool _)]; cbn;
    rewrite ?cpu_fundamentals_by_position;
    try destruct (contribute _ _) as [c|e]; cbn;
    try (destruct (_fund_v (self w)); cbn);
    try (destruct (_idx_v (self w)); cbn);
    try (destruct (_sign_v (self w)); cbn);
    reflexivity.
Qed.

End ExtractFacts.

(* ------------------------------------------------------------------ *)
(** * Facts about sequences of appends *)

Section AppendFacts.

Variable X : Externals.

Lemma below_weaken (n m : nat) (l : list Z) : n <= m -> below n l -> below m l.
Proof.
  intros H B; eapply Forall_impl; [|exact B]; simpl; intros; lia.
Qed.

(** The indices that one snippet adds, once the engine has kept its
    contract, lie between the length of the axis before the snippet and
    its length after. *)
Lemma new_indices (s : Spectrogram.t) (l : list (list Q)) (c : contribution)
    (n : nat) :
  contribute s l = Ok c ->
  length (Spectrogram.times s) = n + length (Spectrogram.spec_times s) ->
  length l = length (Spectrogram.spec_times s) ->
  idx_0 c = Z.of_nat n /\
  Forall (fun i => (Z.of_nat n <= i < Z.of_nat (length (Spectrogram.times s)))%Z)
         (map (fun i => (Z.of_nat i + idx_0 c)%Z) (tmp_idx_v c)).
Proof.
  intros C T B.
  destruct (contribute_inv _ _ _ C) as [_ [Ix [_ I0]]].
  assert (E : idx_0 c = Z.of_nat n) by lia.
  split; [exact E|].
  rewrite Ix, E; apply Forall_map.
  eapply Forall_impl; [|apply local_idx_bound]; simpl; intros; lia.
Qed.

Lemma append_step (w : World) (s : Spectrogram.t) (n : nat) :
  list_backed (self w) = true ->
  aligned (self w) ->
  below n (items (_idx_v (self w))) ->
  length (Spectrogram.times s) = n + length (Spectrogram.spec_times s) ->
  length (detections X (gpu_use (self w)) s) = length (Spectrogram.spec_times s) ->
  let w' := world_of (extract_snippet_signals X (upd (set_Spec s) w)) in
  list_backed (self w') = true /\ aligned (self w') /\
  below (length (Spectrogram.times s)) (items (_idx_v (self w'))) /\
  Spec (self w') = s /\ gpu_use (self w') = gpu_use (self w).
Proof.
  intros L A B T D.
  destruct (extract_snippet_signals X (upd (set_Spec s) w)) as [w'|e w'] eqn:E;
    cbn [world_of].
  - destruct (extract_done_inv X _ _ E)
      as [c [C [_ [_ [F [Ix [S [Id [Fr _]]]]]]]]].
    cbn in C, F, Ix, S, Fr.
    destruct (contribute_inv _ _ _ C) as [Cf [Ci [Cs _]]].
    destruct (new_indices _ _ _ n C T D) as [_ N].
    destruct A as [A1 [A2 A3]].
    destruct Fr as [_ [_ [_ [_ [G [_ [Sp _]]]]]]]; cbn in G, Sp.
    unfold list_backed, aligned, below.
    rewrite Id, F, Ix, S, Sp, G; unfold np_full_nan; cbn [items is_list andb].
    rewrite repeat_length, !length_app, length_map.
    rewrite Ci in N; rewrite Cf, Ci, Cs, local_idx_length.
    repeat split; try lia.
    apply Forall_app; split.
    + apply (below_weaken n); [lia|exact B].
    + eapply Forall_impl; [|exact N]; simpl; intros; lia.
  - destruct (extract_raised_inv X _ _ _ E L) as [F [Ix [S [Id [Fr _]]]]].
    cbn in F, Ix, S, Id, Fr.
    destruct Fr as [_ [_ [_ [_ [G [_ [Sp _]]]]]]]; cbn in G, Sp.
    unfold list_backed, aligned, below in *.
    rewrite F, Ix, S, Id, Sp, G.
    repeat split; try tauto.
    apply (below_weaken n); [lia|exact B].
Qed.

Lemma appends_cons (s : Spectrogram.t) (r : list Spectrogram.t) (w : World) :
  appends X (s :: r) w =
  match extract_snippet_signals X (upd (set_Spec s) w) with
  | Done w' => appends X r w'
  | Raised e w' => Raised e w'
  end.
Proof. reflexivity. Qed.

Lemma appends_invariant (snapshots : list Spectrogram.t) :
  forall (w : World) (n : nat),
    list_backed (self w) = true ->
    aligned (self w) ->
    below n (items (_idx_v (self w))) ->
    (snapshots = [] -> in_axis (self w)) ->
    one_entry_per_bin X (gpu_use (self w)) n snapshots = true ->
    let w' := world_of (appends X snapshots w) in
    aligned (self w') /\ in_axis (self w').
Proof.
  induction snapshots as [|s r IH]; intros w n L A B E C.
  - split; [exact A|apply E; reflexivity].
  - cbn [one_entry_per_bin] in C.
    apply andb_prop in C; destruct C as [C Cr].
    apply andb_prop in C; destruct C as [T D].
    apply Nat.eqb_eq in T; apply Nat.eqb_eq in D.
    pose proof (append_step w s n L A B T D) as St.
    rewrite appends_cons.
    destruct (extract_snippet_signals X (upd (set_Spec s) w)) as [w1|e w1];
      cbn [world_of] in St |- *;
      destruct St as [L1 [A1 [B1 [Sp G]]]].
    + apply (IH w1 (length (Spectrogram.times s))); try assumption.
      * intros _; unfold in_axis; rewrite Sp; exact B1.
      * rewrite G; exact Cr.
    + split; [exact A1|unfold in_axis; rewrite Sp; exact B1].
Qed.

Lemma one_entry_per_bin_firstn (gpu : bool) (k : nat) (snapshots : list Spectrogram.t) :
  forall n, one_entry_per_bin X gpu n snapshots = true ->
            one_entry_per_bin X gpu n (firstn k snapshots) = true.
Proof.
  revert k; induction snapshots as [|s r IH]; intros [|k] n H; try reflexivity.
  cbn [firstn one_entry_per_bin] in *.
  apply andb_prop in H; destruct H as [H Hr].
  rewrite H; apply IH; exact Hr.
Qed.

End AppendFacts.

Lemma is_done_inv (o : outcome) : is_done o = true -> exists w, o = Done w.
Proof.
  destruct o as [w|e w]; [exists w; reflexivity|discriminate].
Qed.

(** One append under the engine's contract, ending normally. *)
Lemma append_done (X : Externals) (w : World) (s : Spectrogram.t) (n : nat) :
  list_backed (self w) = true ->
  pool_ok (self w) = true ->
  snippet_ok X (gpu_use (self w)) s = true ->
  length (Spectrogram.times s) = n + length (Spectrogram.spec_times s) ->
  length (detections X (gpu_use (self w)) s) = length (Spectrogram.spec_times s) ->
  exists w',
    extract_snippet_signals X (upd (set_Spec s) w) = Done w' /\
    items (_idx_v (self w')) =
      items (_idx_v (self w))
      ++ map (fun i => (Z.of_nat i + Z.of_nat n)%Z)
             (local_idx (detections X (gpu_use (self w)) s)) /\
    list_backed (self w') = true /\ pool_ok (self w') = true /\
    gpu_use (self w') = gpu_use (self w).
Proof.
  intros L P K T D.
  destruct (is_done_inv (extract_snippet_signals X (upd (set_Spec s) w)))
    as [w' E].
  { rewrite extract_is_done; cbn.
    change (pool_ok (self w) && snippet_ok X (gpu_use (self w)) s
            && list_backed (self w) = true).
    rewrite L, P, K; reflexivity. }
  exists w'; split; [exact E|].
  destruct (extract_done_inv X _ _ E) as [c [C [_ [_ [F [Ix [S [_ [Fr _]]]]]]]]].
  cbn in C, F, Ix, S, Fr.
  destruct (contribute_inv _ _ _ C) as [_ [Ci _]].
  destruct (new_indices _ _ _ n C T D) as [I0 _].
  destruct Fr as [_ [_ [_ [_ [G [Cc _]]]]]]; cbn in G, Cc.
  split; [rewrite Ix, Ci, I0; reflexivity|].
  unfold list_backed, pool_ok in *.
  rewrite F, Ix, S, G, Cc; repeat split; assumption.
Qed.

(* ------------------------------------------------------------------ *)
(** * Facts about the CPU loop *)

Lemma slices (d : DataLoader) (i0 size : nat) (l : list nat) :
  mapM (slice_channel d i0 (i0 + size)) l =
  if forallb (fun channel => channel <? channels d) l
  then Ok (map (fun channel =>
                  map (fun row => nth channel row 0%Q)
                      (firstn size (skipn i0 (frames d)))) l)
  else Err IndexError.
Proof.
  induction l as [|c r IH]; [reflexivity|].
  cbn [mapM forallb map]; unfold slice_channel at 1.
  replace (i0 + size - i0) with size by lia.
  destruct (c <? channels d); cbn [bind andb]; [|reflexivity].
  rewrite IH; destruct (forallb _ r); reflexivity.
Qed.

Lemma cpu_snippet_window (p : AnalysisPipeline) (i0 : Z) :
  cpu_snippet p i0 =
  if channels_ok p then Ok (window p (Z.to_nat i0)) else Err IndexError.
Proof. unfold cpu_snippet, channels_ok, window; apply slices. Qed.

(** A window is cut at the end of the recording and never padded. *)
Lemma window_length (p : AnalysisPipeline) (i0 : nat) (slice : list Q) :
  In slice (window p i0) ->
  length slice = Nat.min (Spectrogram.snippet_size (Spec p)) (shape0 (data p) - i0).
Proof.
  unfold window, shape0; intros H.
  apply in_map_iff in H; destruct H as [c [H _]]; subst slice.
  rewrite length_map, length_firstn, length_skipn; reflexivity.
Qed.

Lemma setup_eq (p q : AnalysisPipeline) :
  setup q = setup p ->
  (forall i0, cpu_events q i0 = cpu_events p i0) /\
  (forall i0, cpu_snippet q i0 = cpu_snippet p i0) /\
  (forall i0, cpu_t0 q i0 = cpu_t0 p i0) /\
  channels_ok q = channels_ok p /\ pool_ok q = pool_ok p /\
  gpu_use q = gpu_use p /\
  (forall iterations, progress_message q iterations = progress_message p iterations).
Proof.
  unfold setup; intros H; inversion H as [[D R G C S O L V]].
  unfold cpu_events, cpu_is_last, cpu_step, cpu_t0, window, cpu_snippet,
    channels_ok, pool_ok, progress_message.
  rewrite D, R, G, C, S, O, L, V; repeat split; reflexivity.
Qed.

Lemma report_progress_done (iterations : Z) (w w' : World) :
  report_progress iterations w = Done w' ->
  w' = w /\ progress_message (self w) iterations = Ok tt.
Proof.
  unfold report_progress, raising, skip.
  destruct (progress_message (self w) iterations) as [[]|e]; [|discriminate].
  intros H; inversion H; split; reflexivity.
Qed.

Lemma report_progress_raised (iterations : Z) (w w' : World) (e : exn) :
  report_progress iterations w = Raised e w' ->
  w' = w /\ e = ZeroDivisionError /\ verbose (self w) = 3 /\ iterations = 0%Z.
Proof.
  unfold report_progress, raising, skip, progress_message.
  destruct (verbose (self w) =? 3) eqn:V; [|discriminate].
  destruct (iterations =? 0)%Z eqn:I; [|discriminate].
  apply Nat.eqb_eq in V; apply Z.eqb_eq in I.
  cbn [andb]; intros H; inversion H; subst; repeat split; auto.
Qed.

Section CpuLoop.

Variable X : Externals.

Lemma cpu_window_done (i0 : Z) (w w' : World) :
  cpu_window X i0 w = Done w' ->
  log w' = log w ++ cpu_events (self w) i0 /\
  setup (self w') = setup (self w) /\
  list_backed (self w') = true.
Proof.
  unfold cpu_window, seqM, raising, cpu_events.
  set (w1 := world_of (if cpu_is_last (self w) i0 then set_terminate w else Done w)).
  assert (H1 : (if cpu_is_last (self w) i0 then set_terminate w else Done w)
               = Done w1) by (unfold w1; destruct (cpu_is_last _ _); reflexivity).
  assert (S1 : setup (self w1) = setup (self w))
    by (unfold w1; destruct (cpu_is_last _ _); reflexivity).
  assert (L1 : log w1 = log w ++ (if cpu_is_last (self w) i0 then [SetTerminate] else []))
    by (unfold w1; destruct (cpu_is_last _ _); cbn;
        [reflexivity|rewrite app_nil_r; reflexivity]).
  rewrite H1.
  destruct (setup_eq (self w) (self w1) S1) as [_ [Sn _]].
  rewrite Sn, cpu_snippet_window.
  destruct (channels_ok (self w)); [|discriminate].
  set (w2 := world_of (call_engine X (window (self w) (Z.to_nat i0))
                                   (cpu_t0 (self w1) i0) w1)).
  change (call_engine X (window (self w) (Z.to_nat i0)) (cpu_t0 (self w1) i0) w1)
    with (Done w2).
  intros E.
  destruct (extract_done_inv X w2 w' E)
    as [c [_ [_ [_ [F [Ix [S [_ [Fr [Lg _]]]]]]]]]].
  destruct Fr as [D [R [_ [_ [G [C [Sp [_ [_ [_ Vb]]]]]]]]]].
  assert (T : cpu_t0 (self w1) i0 = cpu_t0 (self w) i0)
    by (apply (setup_eq (self w) (self w1) S1)).
  split; [|split].
  - rewrite Lg; unfold w2; cbn; rewrite L1, T, <- !app_assoc; reflexivity.
  - rewrite <- S1; unfold setup; rewrite D, R, G, C, Sp, Vb; reflexivity.
  - unfold list_backed; rewrite F, Ix, S; reflexivity.
Qed.

Lemma cpu_iteration_inv (iterations i0 : Z) (w w' : World) :
  cpu_iteration X iterations i0 w = Done w' ->
  cpu_window X i0 w = Done w' /\ progress_message (self w') iterations = Ok tt.
Proof.
  unfold cpu_iteration, seqM.
  destruct (cpu_window X i0 w) as [w1|e w1]; [|discriminate].
  intros H; destruct (report_progress_done _ _ _ H) as [E P]; subst w'.
  split; [reflexivity|exact P].
Qed.

Lemma cpu_iteration_done (iterations i0 : Z) (w w' : World) :
  cpu_iteration X iterations i0 w = Done w' ->
  log w' = log w ++ cpu_events (self w) i0 /\
  setup (self w') = setup (self w) /\
  list_backed (self w') = true.
Proof.
  intros H; apply cpu_window_done, (cpu_iteration_inv _ _ _ _ H).
Qed.

Lemma cpu_loop_done (iterations : Z) (starts : list Z) :
  forall w w',
    for_each (cpu_iteration X iterations) starts w = Done w' ->
    log w' = log w ++ flat_map (cpu_events (self w)) starts /\
    setup (self w') = setup (self w).
Proof.
  induction starts as [|i0 r IH]; intros w w' H.
  - inversion H; subst; rewrite app_nil_r; split; reflexivity.
  - cbn [for_each] in H; unfold seqM in H.
    destruct (cpu_iteration X iterations i0 w) as [w1|e w1] eqn:E; [|discriminate].
    destruct (cpu_iteration_done iterations i0 w w1 E) as [L1 [S1 _]].
    destruct (IH w1 w' H) as [L2 S2].
    destruct (setup_eq (self w) (self w1) S1) as [Ev _].
    split; [|congruence].
    rewrite L2, L1; cbn [flat_map]; rewrite <- app_assoc; f_equal; f_equal.
    apply flat_map_ext; exact Ev.
Qed.

Lemma snippet_ok_after_call (gpu : bool) (s produced : Spectrogram.t) :
  snippet_ok X gpu (Spectrogram.after_call s produced) = snippet_ok X gpu produced.
Proof. destruct gpu; reflexivity. Qed.

Lemma cpu_window_total (i0 : Z) (w : World) :
  channels_ok (self w) = true ->
  pool_ok (self w) = true ->
  list_backed (self w) = true ->
  engine_total X (gpu_use (self w)) ->
  exists w', cpu_window X i0 w = Done w'.
Proof.
  intros C P L T.
  apply is_done_inv.
  unfold cpu_window, seqM, raising.
  set (w1 := world_of (if cpu_is_last (self w) i0 then set_terminate w else Done w)).
  assert (H1 : (if cpu_is_last (self w) i0 then set_terminate w else Done w)
               = Done w1) by (unfold w1; destruct (cpu_is_last _ _); reflexivity).
  assert (S1 : setup (self w1) = setup (self w))
    by (unfold w1; destruct (cpu_is_last _ _); reflexivity).
  assert (L1 : list_backed (self w1) = true)
    by (unfold w1; destruct (cpu_is_last _ _); exact L).
  rewrite H1.
  destruct (setup_eq (self w) (self w1) S1) as [_ [Sn [_ [_ [P1 [G1 _]]]]]].
  rewrite Sn, cpu_snippet_window, C.
  set (w2 := world_of (call_engine X (window (self w) (Z.to_nat i0))
                                   (cpu_t0 (self w1) i0) w1)).
  change (is_done (extract_snippet_signals X w2) = true).
  rewrite extract_is_done.
  change (pool_ok (self w2)) with (pool_ok (self w1)).
  change (list_backed (self w2)) with (list_backed (self w1)).
  change (gpu_use (self w2)) with (gpu_use (self w1)).
  unfold w2; cbn [world_of call_engine pure self upd emit Spec set_Spec].
  rewrite snippet_ok_after_call, G1, T, P1, P, L1; reflexivity.
Qed.

Lemma cpu_iteration_total (iterations i0 : Z) (w : World) :
  channels_ok (self w) = true ->
  pool_ok (self w) = true ->
  list_backed (self w) = true ->
  engine_total X (gpu_use (self w)) ->
  progress_message (self w) iterations = Ok tt ->
  exists w', cpu_iteration X iterations i0 w = Done w'.
Proof.
  intros C P L T V.
  destruct (cpu_window_total i0 w C P L T) as [w1 E].
  destruct (cpu_window_done i0 w w1 E) as [_ [S1 _]].
  destruct (setup_eq (self w) (self w1) S1) as [_ [_ [_ [_ [_ [_ Pm]]]]]].
  exists w1; unfold cpu_iteration, seqM, report_progress, raising.
  rewrite E, Pm, V; reflexivity.
Qed.

Lemma cpu_loop_total (iterations : Z) (starts : list Z) :
  forall w,
    channels_ok (self w) = true ->
    pool_ok (self w) = true ->
    list_backed (self w) = true ->
    engine_total X (gpu_use (self w)) ->
    progress_message (self w) iterations = Ok tt ->
    is_done (for_each (cpu_iteration X iterations) starts w) = true.
Proof.
  induction starts as [|i0 r IH]; intros w C P L T V; [reflexivity|].
  cbn [for_each]; unfold seqM.
  destruct (cpu_iteration_total iterations i0 w C P L T V) as [w1 E]; rewrite E.
  destruct (cpu_iteration_done iterations i0 w w1 E) as [_ [S1 L1]].
  destruct (setup_eq (self w) (self w1) S1) as [_ [_ [_ [C1 [P1 [G1 Pm]]]]]].
  apply IH; congruence.
Qed.

(** The starts of the windows, for a positive step. *)
Lemma cpu_starts (p : AnalysisPipeline) :
  Spectrogram.noverlap (Spec p) < Spectrogram.snippet_size (Spec p) ->
  let step := Spectrogram.snippet_size (Spec p) - Spectrogram.noverlap (Spec p) in
  floordiv (Z.of_nat (shape0 (data p))) (cpu_step p)
    = Ok (Z.of_nat (shape0 (data p) / step)) /\
  np_arange (Z.of_nat (shape0 (data p))) (cpu_step p)
    = Ok (map (fun k => Z.of_nat (k * step)) (seq 0 (cpu_count p))) /\
  forall k, k < cpu_count p <-> k * step < shape0 (data p).
Proof.
  intros H step.
  assert (St : cpu_step p = Z.of_nat step) by (unfold cpu_step, step; lia).
  assert (Pos : 0 < step) by (unfold step; lia).
  unfold floordiv, np_arange, cpu_count; rewrite St.
  destruct (Z.of_nat step =? 0)%Z eqn:E0; [apply Z.eqb_eq in E0; lia|].
  destruct (Z.of_nat step <? 0)%Z eqn:E1; [apply Z.ltb_lt in E1; lia|].
  split; [rewrite Nat2Z.inj_div; reflexivity|].
  split.
  - f_equal; apply map_ext; intros k; lia.
  - intros k.
    set (N := shape0 (data p)).
    assert (Q : ((Z.of_nat N + Z.of_nat step - 1) / Z.of_nat step
                 = Z.of_nat ((N + step - 1) / step))%Z).
    { rewrite Nat2Z.inj_div; f_equal; lia. }
    rewrite Q, Nat2Z.id.
    split; intros K.
    + assert (S k <= (N + step - 1) / step) by lia.
      assert (S k * step <= N + step - 1).
      { etransitivity; [apply Nat.mul_le_mono_r; eassumption|].
        rewrite Nat.mul_comm; apply Nat.Div0.mul_div_le. }
      simpl in *; lia.
    + apply Nat.div_le_lower_bound with (a := N + step - 1) (b := step) (q := S k);
        simpl; lia.
Qed.

Lemma pipeline_CPU_done (w w' : World) :
  Spectrogram.noverlap (Spec (self w)) < Spectrogram.snippet_size (Spec (self w)) ->
  pipeline_CPU X w = Done w' ->
  log w' = log w
           ++ flat_map (cpu_events (self w))
                (map (fun k => Z.of_nat
                        (k * (Spectrogram.snippet_size (Spec (self w))
                              - Spectrogram.noverlap (Spec (self w)))))
                     (seq 0 (cpu_count (self w)))).
Proof.
  intros H; destruct (cpu_starts (self w) H) as [F [A _]].
  unfold pipeline_CPU, raising; rewrite F, A.
  intros E; apply (cpu_loop_done _ _ _ _ E).
Qed.

Lemma pipeline_CPU_total (w : World) :
  Spectrogram.noverlap (Spec (self w)) < Spectrogram.snippet_size (Spec (self w)) ->
  channels_ok (self w) = true ->
  pool_ok (self w) = true ->
  list_backed (self w) = true ->
  engine_total X (gpu_use (self w)) ->
  (verbose (self w) = 3 ->
   0 < shape0 (data (self w)) ->
   Spectrogram.snippet_size (Spec (self w)) - Spectrogram.noverlap (Spec (self w))
   <= shape0 (data (self w))) ->
  is_done (pipeline_CPU X w) = true.
Proof.
  intros H C P L T V; destruct (cpu_starts (self w) H) as [F [A K]].
  unfold pipeline_CPU, raising; rewrite F, A.
  destruct (Nat.eq_dec (shape0 (data (self w))) 0) as [N0|N0].
  { assert (C0 : cpu_count (self w) = 0).
    { destruct (cpu_count (self w)) as [|n]; [reflexivity|].
      assert (B : 0 < S n) by lia; apply K in B; lia. }
    rewrite C0; reflexivity. }
  apply cpu_loop_total; try assumption.
  unfold progress_message.
  destruct (verbose (self w) =? 3) eqn:E; [|reflexivity].
  apply Nat.eqb_eq in E; specialize (V E ltac:(lia)).
  destruct (Z.of_nat _ =? 0)%Z eqn:Z0; [|reflexivity].
  apply Z.eqb_eq in Z0; exfalso.
  assert (Q : shape0 (data (self w))
              / (Spectrogram.snippet_size (Spec (self w))
                 - Spectrogram.noverlap (Spec (self w))) = 0) by lia.
  apply Nat.div_small_iff in Q; lia.
Qed.

(** At verbosity 3 the message of the first iteration cannot be
    formatted when the recording is shorter than one step. *)
Lemma pipeline_CPU_progress (w : World) :
  Spectrogram.noverlap (Spec (self w)) < Spectrogram.snippet_size (Spec (self w)) ->
  verbose (self w) = 3 ->
  0 < shape0 (data (self w)) ->
  shape0 (data (self w))
  < Spectrogram.snippet_size (Spec (self w)) - Spectrogram.noverlap (Spec (self w)) ->
  is_done (pipeline_CPU X w) = false.
Proof.
  intros H V N0 N1; destruct (cpu_starts (self w) H) as [F [A K]].
  unfold pipeline_CPU, raising; rewrite F, A.
  rewrite Nat.div_small by exact N1.
  assert (C : 0 < cpu_count (self w)) by (apply K; lia).
  destruct (cpu_count (self w)) as [|n]; [lia|].
  cbn [seq map for_each]; unfold seqM at 1.
  destruct (cpu_iteration X (Z.of_nat 0) _ w) as [w1|e w1] eqn:E; [|reflexivity].
  exfalso.
  destruct (cpu_iteration_inv _ _ _ _ E) as [Wd P].
  destruct (cpu_window_done _ _ _ Wd) as [_ [S1 _]].
  destruct (setup_eq (self w) (self w1) S1) as [_ [_ [_ [_ [_ [_ Pm]]]]]].
  rewrite Pm in P; unfold progress_message in P; rewrite V in P; discriminate.
Qed.

End CpuLoop.

Lemma engine_calls_app (a b : list event) :
  engine_calls (a ++ b) = engine_calls a ++ engine_calls b.
Proof. apply flat_map_app. Qed.

Lemma engine_calls_cpu (p : AnalysisPipeline) (starts : list Z) :
  engine_calls (flat_map (cpu_events p) starts) =
  map (fun i0 => (window p (Z.to_nat i0), cpu_t0 p i0)) starts.
Proof.
  induction starts as [|i0 r IH]; [reflexivity|].
  cbn [flat_map map]; rewrite engine_calls_app, IH.
  unfold cpu_events; destruct (cpu_is_last p i0); reflexivity.
Qed.

Lemma final_marks_cpu (p : AnalysisPipeline) (starts : list Z) :
  final_marks false (flat_map (cpu_events p) starts) = map (cpu_is_last p) starts.
Proof.
  induction starts as [|i0 r IH]; [reflexivity|].
  cbn [flat_map map]; unfold cpu_events at 1.
  destruct (cpu_is_last p i0); cbn; rewrite IH; reflexivity.
Qed.

(** The test of the CPU loop holds for the window that starts at [i0]
    exactly when the next start would exceed the number of samples; it
    does not hold when the next start meets that number. *)
Lemma cpu_is_last_exceeds (p : AnalysisPipeline) (k : nat) :
  Spectrogram.noverlap (Spec p) < Spectrogram.snippet_size (Spec p) ->
  let step := Spectrogram.snippet_size (Spec p) - Spectrogram.noverlap (Spec p) in
  k * step < shape0 (data p) ->
  cpu_is_last p (Z.of_nat (k * step)) = (shape0 (data p) <? k * step + step).
Proof.
  intros H step K.
  assert (St : cpu_step p = Z.of_nat step) by (unfold cpu_step, step; lia).
  assert (Pos : 0 < step) by (unfold step; lia).
  unfold cpu_is_last; rewrite St.
  set (N := shape0 (data p)) in *.
  rewrite <- Nat2Z.inj_div, <- Nat2Z.inj_mul.
  pose proof (Nat.Div0.mul_div_le N step) as Lo.
  pose proof (Nat.mul_succ_div_gt N step ltac:(lia)) as Hi.
  destruct (N <? k * step + step) eqn:E.
  - apply Nat.ltb_lt in E; apply Z.eqb_eq; f_equal.
    assert (Q : N / step = k).
    { symmetry; apply Nat.div_unique with (r := N - k * step); lia. }
    rewrite Q; reflexivity.
  - apply Nat.ltb_ge in E; apply Z.eqb_neq; intros C.
    apply Nat2Z.inj in C.
    assert (Q : N / step = k) by (apply (Nat.mul_cancel_r _ _ step); lia).
    rewrite Q in Hi; lia.
Qed.

(** In a CPU loop that starts with an empty log and ends normally, the
    window that starts at [k * (S - O)] is marked final exactly when the
    next start exceeds the number of samples. *)
Lemma pipeline_CPU_final_marks (X : Externals) (w w' : World) :
  Spectrogram.noverlap (Spec (self w)) < Spectrogram.snippet_size (Spec (self w)) ->
  log w = [] ->
  pipeline_CPU X w = Done w' ->
  let step := Spectrogram.snippet_size (Spec (self w))
              - Spectrogram.noverlap (Spec (self w)) in
  final_marks false (log w') =
  map (fun k => shape0 (data (self w)) <? k * step + step)
      (seq 0 (cpu_count (self w))).
Proof.
  intros H L E step.
  rewrite (pipeline_CPU_done X w w' H E), L; cbn [app].
  rewrite final_marks_cpu, map_map.
  apply map_ext_in; intros k K; apply in_seq in K.
  apply (cpu_is_last_exceeds (self w) k H).
  apply (cpu_starts (self w) H); lia.
Qed.

Lemma Example_engine_total (gpu : bool) : engine_total Example.X gpu.
Proof. intros s snippet t0; destruct gpu; reflexivity. Qed.

(* ------------------------------------------------------------------ *)
(** * The GPU loop *)

Lemma gpu_taken_firstn (iterations : nat) (blocks : list (list (list Q))) :
  gpu_taken (Z.of_nat iterations) 0 blocks =
  if iterations =? 0 then blocks else firstn iterations blocks.
Proof.
  assert (G : forall blocks enu,
             enu < iterations ->
             gpu_taken (Z.of_nat iterations) enu blocks
             = firstn (iterations - enu) blocks).
  { induction blocks0 as [|b r IH]; intros enu H; cbn [gpu_taken].
    - rewrite firstn_nil; reflexivity.
    - destruct (Z.of_nat enu =? Z.of_nat iterations - 1)%Z eqn:E.
      + apply Z.eqb_eq in E.
        replace (iterations - enu) with 1 by lia; reflexivity.
      + apply Z.eqb_neq in E.
        replace (iterations - enu) with (S (iterations - S enu)) by lia.
        cbn [firstn]; rewrite IH by lia; reflexivity. }
  destruct iterations as [|k].
  - cbn [Nat.eqb].
    assert (A : forall blocks enu, gpu_taken 0 enu blocks = blocks).
    { induction blocks0 as [|b r IH]; intros enu; cbn [gpu_taken]; [reflexivity|].
      destruct (Z.of_nat enu =? 0 - 1)%Z eqn:E; [apply Z.eqb_eq in E; lia|].
      rewrite IH; reflexivity. }
    apply A.
  - cbn [Nat.eqb]; rewrite G by lia; rewrite Nat.sub_0_r; reflexivity.
Qed.

Section GpuLoop.

Variable X : Externals.

Lemma gpu_block_done (block : list (list Q)) (w w' : World) :
  gpu_block X block w = Done w' ->
  map fst (engine_calls (log w')) =
    map fst (engine_calls (log w)) ++ [block_T (self w) block] /\
  data (self w') = data (self w).
Proof.
  unfold gpu_block, seqM.
  set (w1 := world_of (if gpu_is_last (self w) then set_terminate w else Done w)).
  assert (H1 : (if gpu_is_last (self w) then set_terminate w else Done w) = Done w1)
    by (unfold w1; destruct (gpu_is_last _); reflexivity).
  rewrite H1.
  set (w2 := world_of (call_engine X (block_T (self w1) block) (gpu_t0 (self w1)) w1)).
  change (call_engine X (block_T (self w1) block) (gpu_t0 (self w1)) w1)
    with (Done w2).
  cbv iota beta.
  assert (L2 : map fst (engine_calls (log w2)) =
               map fst (engine_calls (log w)) ++ [block_T (self w) block]
               /\ data (self w2) = data (self w)).
  { unfold w2, w1; destruct (gpu_is_last _); cbn;
      rewrite !engine_calls_app, ?map_app; cbn; rewrite ?app_nil_r;
      split; reflexivity. }
  destruct L2 as [L2 D2].
  destruct (_get_signals (self w2)).
  - intros E.
    destruct (extract_done_inv X w2 w' E)
      as [c [_ [_ [_ [_ [_ [_ [_ [Fr [Lg _]]]]]]]]]].
    destruct Fr as [D _].
    split; [|rewrite D; exact D2].
    rewrite Lg, engine_calls_app, map_app; cbn [engine_calls flat_map map app].
    rewrite app_nil_r; exact L2.
  - intros E; inversion E; subst; split; assumption.
Qed.

Lemma gpu_iteration_inv (iterations : Z) (block : list (list Q)) (w w' : World) :
  gpu_iteration X iterations block w = Done w' ->
  gpu_block X block w = Done w' /\ progress_message (self w') iterations = Ok tt.
Proof.
  unfold gpu_iteration, seqM.
  destruct (gpu_block X block w) as [w1|e w1]; [|discriminate].
  intros H; destruct (report_progress_done _ _ _ H) as [E P]; subst w'.
  split; [reflexivity|exact P].
Qed.

Lemma gpu_iteration_done (iterations : Z) (block : list (list Q)) (w w' : World) :
  gpu_iteration X iterations block w = Done w' ->
  map fst (engine_calls (log w')) =
    map fst (engine_calls (log w)) ++ [block_T (self w) block] /\
  data (self w') = data (self w).
Proof.
  intros H; apply gpu_block_done, (gpu_iteration_inv _ _ _ _ H).
Qed.

Lemma gpu_loop_done (iterations : Z) (blocks : list (list (list Q))) :
  forall enu w w',
    gpu_loop X iterations enu blocks w = Done w' ->
    map fst (engine_calls (log w')) =
      map fst (engine_calls (log w))
      ++ map (block_T (self w)) (gpu_taken iterations enu blocks).
Proof.
  induction blocks as [|b r IH]; intros enu w w' H.
  - inversion H; subst; cbn; rewrite app_nil_r; reflexivity.
  - cbn [gpu_loop] in H; unfold seqM in H.
    destruct (gpu_iteration X iterations b w) as [w1|e w1] eqn:E; [|discriminate].
    destruct (gpu_iteration_done iterations b w w1 E) as [L1 D1].
    cbn [gpu_taken map].
    destruct (Z.of_nat enu =? iterations - 1)%Z.
    + inversion H; subst; exact L1.
    + rewrite (IH (S enu) w1 w' H), L1, <- app_assoc; cbn [app].
      unfold block_T; rewrite D1; reflexivity.
Qed.

End GpuLoop.

Lemma pipeline_GPU_done (X : Externals) (w w' : World) :
  0 < Spectrogram.snippet_size (Spec (self w)) ->
  pipeline_GPU X w = Done w' ->
  let n := fst (data_shape (self w)) / Spectrogram.snippet_size (Spec (self w)) in
  map fst (engine_calls (log w')) =
    map fst (engine_calls (log w))
    ++ map (block_T (self w))
           (if n =? 0 then dataset (self w) else firstn n (dataset (self w))).
Proof.
  intros H; unfold pipeline_GPU, raising, floordiv.
  destruct (Z.of_nat (Spectrogram.snippet_size (Spec (self w))) =? 0)%Z eqn:E;
    [apply Z.eqb_eq in E; lia|].
  rewrite <- Nat2Z.inj_div.
  intros G; rewrite (gpu_loop_done X _ _ _ _ _ G), gpu_taken_firstn; reflexivity.
Qed.

Lemma count_events_app (which : event -> bool) (a b : list event) :
  count_events which (a ++ b) = count_events which a + count_events which b.
Proof. unfold count_events; rewrite filter_app, length_app; reflexivity. Qed.

Lemma count_extract_cpu (p : AnalysisPipeline) (starts : list Z) :
  count_events is_extract (flat_map (cpu_events p) starts) = length starts.
Proof.
  induction starts as [|i0 r IH]; [reflexivity|].
  cbn [flat_map length]; rewrite count_events_app, IH.
  unfold cpu_events; destruct (cpu_is_last p i0); reflexivity.
Qed.

(* ------------------------------------------------------------------ *)
(** * Facts about the constructor and [run] *)

(** The constructor selects the stages from the save directory alone. *)
Lemma init_stage_selection
    (data0 : DataLoader) (samplerate0 : Q) (dataset0 : list (list (list Q)))
    (data_shape0 : nat * nat) (verbose0 : nat)
    (gpu_use0 : bool) (core_count0 : nat)
    (spec0 : Spectrogram.t) :
  (forall d,
      fund_v_npy d = None ->
      exists p,
        __init__ data0 samplerate0 dataset0 data_shape0 verbose0 gpu_use0 core_count0 spec0 d
          = Ok p /\
        _get_signals p = true /\ do_tracking p = true /\ empty_state p)
  /\ (forall f i s l t,
        exists p,
          __init__ data0 samplerate0 dataset0 data_shape0 verbose0 gpu_use0 core_count0 spec0
               {| fund_v_npy := Some f; idx_v_npy := Some i; sign_v_npy := Some s;
                  ident_v_npy := Some l; times_npy := Some t |} = Ok p /\
          _get_signals p = false /\
          do_tracking p = forallb isnan l /\
          _fund_v p = NdArray f /\ _idx_v p = NdArray i /\ _sign_v p = NdArray s /\
          ident_v p = NdArray l /\ times p = NdArray t).
Proof.
  split.
  - intros d H; unfold __init__; rewrite H.
    eexists; split; [reflexivity|]; repeat split; reflexivity.
  - intros f i s l t.
    assert (Q : (0 <? count_assigned (NdArray l)) = negb (forallb isnan l)).
    { unfold count_assigned; cbn [items].
      induction l as [|x r IH]; [reflexivity|].
      cbn [filter forallb]; destruct (isnan x); cbn [negb andb length]; auto. }
    eexists; split; [reflexivity|].
    change (ident_v (set_get_signals (PyBool false) _)) with (NdArray l).
    rewrite Q; destruct (forallb isnan l); repeat split; reflexivity.
Qed.

(** With no spectrogram product asked for, a loaded pipeline goes
    straight to the hand-off. *)
Lemma run_without_products (X : Externals) (w : World) :
  _get_signals (self w) = false ->
  Spectrogram.get_fine_spec (Spec (self w)) = false ->
  Spectrogram.get_sparse_spec (Spec (self w)) = false ->
  run X w = tracking_handoff X w.
Proof.
  intros G F S; unfold run, seqM; rewrite G, F, S; reflexivity.
Qed.

(** A block of the GPU loop of a loaded pipeline ends normally, skips
    the extraction and leaves the sequences and the flags as they are. *)
Lemma gpu_block_skips_extraction (X : Externals) (b : list (list Q)) (w : World) :
  _get_signals (self w) = false ->
  exists w',
    gpu_block X b w = Done w' /\
    count_events is_extract (log w') = count_events is_extract (log w) /\
    _get_signals (self w') = false /\ do_tracking (self w') = do_tracking (self w) /\
    _fund_v (self w') = _fund_v (self w) /\ _idx_v (self w') = _idx_v (self w) /\
    _sign_v (self w') = _sign_v (self w) /\ ident_v (self w') = ident_v (self w) /\
    verbose (self w') = verbose (self w).
Proof.
  intros G; unfold gpu_block, seqM.
  set (w1 := world_of (if gpu_is_last (self w) then set_terminate w else Done w)).
  assert (H1 : (if gpu_is_last (self w) then set_terminate w else Done w) = Done w1)
    by (unfold w1; destruct (gpu_is_last _); reflexivity).
  rewrite H1.
  set (w2 := world_of (call_engine X (block_T (self w1) b) (gpu_t0 (self w1)) w1)).
  change (call_engine X (block_T (self w1) b) (gpu_t0 (self w1)) w1) with (Done w2).
  cbv iota beta.
  assert (G2 : _get_signals (self w2) = false)
    by (unfold w2, w1; destruct (gpu_is_last _); exact G).
  rewrite G2; exists w2; split; [reflexivity|].
  unfold w2, w1, count_events; destruct (gpu_is_last _); cbn;
    rewrite ?filter_app, ?length_app; cbn; rewrite ?Nat.add_0_r;
    repeat split; auto.
Qed.

(** The GPU loop of a loaded pipeline computes spectrograms only: it
    ends normally when its message can be formatted, calls
    [extract_snippet_signals] not once and leaves the sequences and the
    stage flags as they are. *)
Lemma gpu_loop_skips_extraction (X : Externals) (iterations : Z)
    (blocks : list (list (list Q))) :
  forall enu w,
    _get_signals (self w) = false ->
    progress_message (self w) iterations = Ok tt ->
    exists w',
      gpu_loop X iterations enu blocks w = Done w' /\
      count_events is_extract (log w') = count_events is_extract (log w) /\
      _get_signals (self w') = false /\ do_tracking (self w') = do_tracking (self w) /\
      _fund_v (self w') = _fund_v (self w) /\ _idx_v (self w') = _idx_v (self w) /\
      _sign_v (self w') = _sign_v (self w) /\ ident_v (self w') = ident_v (self w).
Proof.
  induction blocks as [|b r IH]; intros enu w G P.
  - exists w; repeat split; auto.
  - cbn [gpu_loop]; unfold seqM at 1; unfold gpu_iteration, seqM at 1.
    destruct (gpu_block_skips_extraction X b w G)
      as [w2 [E [C2 [G2 [T2 [Fu [Ix [Sg [Id V]]]]]]]]].
    rewrite E.
    assert (P2 : progress_message (self w2) iterations = Ok tt)
      by (unfold progress_message in *; rewrite V; exact P).
    unfold report_progress, raising; rewrite P2; unfold skip.
    destruct (Z.of_nat enu =? iterations - 1)%Z.
    + exists w2; repeat split; assumption.
    + destruct (IH (S enu) w2 G2 P2) as [w' [E' [C [G' [T [Fu' [Ix' [Sg' Id']]]]]]]].
      exists w'; repeat split; congruence.
Qed.
(* ------------------------------------------------------------------ *)
(** * Facts about what a snippet contributes *)

Lemma mapM_Forall2 {A B} (f : A -> result B) (l : list A) (out : list B) :
  mapM f l = Ok out -> Forall2 (fun x y => f x = Ok y) l out.
Proof.
  revert out; induction l as [|x r IH]; simpl; intros out H.
  - inversion H; constructor.
  - destruct (f x) as [y|e] eqn:E; simpl in H; [|discriminate].
    destruct (mapM f r) as [ys|e]; simpl in H; [|discriminate].
    inversion H; subst; constructor; [exact E|apply IH; reflexivity].
Qed.

Lemma combine_app {A B} (a a' : list A) (b b' : list B) :
  length a = length b ->
  combine (a ++ a') (b ++ b') = combine a b ++ combine a' b'.
Proof.
  revert b; induction a as [|x a IH]; intros [|y b] H; try discriminate.
  - reflexivity.
  - simpl; f_equal; apply IH; simpl in H; lia.
Qed.

Lemma combine_repeat {A B} (a : list A) (b : B) :
  combine a (repeat b (length a)) = map (fun x => (x, b)) a.
Proof. induction a as [|x a IH]; simpl; [reflexivity|f_equal; exact IH]. Qed.

(** Every fundamental stands beside the position of its time bin. *)
Lemma stamped (l : list (list Q)) :
  forall start,
    combine (concat l)
            (concat (map (fun ef : nat * list Q => repeat (fst ef) (length (snd ef)))
                         (combine (seq start (length l)) l)))
    = flat_map (fun tf : nat * list Q => map (fun f => (f, fst tf)) (snd tf))
               (combine (seq start (length l)) l).
Proof.
  induction l as [|fs r IH]; intros start; [reflexivity|].
  cbn [length seq combine map concat flat_map fst snd].
  rewrite combine_app by (rewrite repeat_length; reflexivity).
  rewrite combine_repeat, IH; reflexivity.
Qed.

Lemma zip3 {A B C D} (g : B -> C) (h : A * B -> D) (a : list A) :
  forall b : list B,
    combine a (combine (map g b) (map h (combine a b)))
    = map (fun ft => (fst ft, (g (snd ft), h ft))) (combine a b).
Proof.
  induction a as [|x a IH]; intros [|y b]; try reflexivity.
  simpl; f_equal; apply IH.
Qed.

Lemma signatures_by_bin (s : Spectrogram.t) (fs : list Q) :
  forall (ks ts : list nat) (out : list (list Q)),
    Forall2 (fun f k => nearest_bin (Spectrogram.spec_freqs s) f = Ok k) fs ks ->
    signatures (Spectrogram.spec s) ks ts = Ok out ->
    out = map (fun ft => signature_at s (fst ft) (snd ft)) (combine fs ts).
Proof.
  unfold signatures; intros ks ts out F.
  destruct (forallb _ ks && forallb _ ts); [|discriminate].
  intros H; inversion H; subst out; clear H.
  revert ts; induction F as [|f k fs ks E F IH]; intros ts; [reflexivity|].
  destruct ts as [|t ts]; [reflexivity|].
  cbn [combine map fst snd]; f_equal; [|apply IH].
  unfold signature_at; rewrite E; reflexivity.
Qed.

Lemma contribute_records (s : Spectrogram.t) (l : list (list Q)) (c : contribution) :
  contribute s l = Ok c ->
  combine (tmp_fund_v c)
          (combine (map (fun i => (Z.of_nat i + idx_0 c)%Z) (tmp_idx_v c))
                   (tmp_sign_v c))
  = snippet_records s l.
Proof.
  intros C.
  destruct (contribute_inv _ _ _ C) as [Cf [Ci [_ I0]]].
  assert (Sg : tmp_sign_v c
               = map (fun ft => signature_at s (fst ft) (snd ft))
                     (combine (concat l) (local_idx l))).
  { revert C; unfold contribute, np_hstack.
    destruct l as [|f r]; [discriminate|].
    set (l := f :: r).
    change (map _ (enumerate l)) with
      (map (fun ef : nat * list Q => repeat (fst ef) (length (snd ef)))
           (enumerate l)).
    destruct (map _ (enumerate l)) as [|st sts] eqn:E; [discriminate|].
    assert (Hidx : concat (st :: sts) = local_idx l)
      by (unfold local_idx; rewrite E; reflexivity).
    cbn [bind].
    destruct (mapM _ (concat l)) as [ks|e] eqn:Hf; cbn [bind]; [|discriminate].
    destruct (signatures _ ks _) as [out|e] eqn:Hs; cbn [bind]; [|discriminate].
    intros H; inversion H; subst c; cbn [tmp_sign_v].
    rewrite Hidx in Hs.
    apply (signatures_by_bin s (concat l) ks _ out (mapM_Forall2 _ _ _ Hf) Hs). }
  rewrite Cf, Ci, Sg, I0, zip3.
  unfold local_idx, enumerate; rewrite stamped.
  unfold snippet_records, enumerate.
  rewrite !flat_map_concat_map, concat_map, map_map; f_equal.
  apply map_ext; intros [t fs]; rewrite map_map; reflexivity.
Qed.

(** ** When the lines between the strategy and the updates succeed *)

Lemma mapM_total {A B} (f : A -> result B) (l : list A) :
  (forall x, In x l -> is_ok (f x) = true) -> is_ok (mapM f l) = true.
Proof.
  induction l as [|x r IH]; simpl; intros H; [reflexivity|].
  pose proof (H x (or_introl eq_refl)) as Hx.
  destruct (f x) as [y|e]; [|discriminate]; simpl.
  assert (Hr : is_ok (mapM f r) = true) by (apply IH; intros; apply H; right; assumption).
  destruct (mapM f r); [reflexivity|discriminate].
Qed.

Lemma mapM_errors {A B} (f : A -> result B) (l : list A) (e : exn) :
  mapM f l = Err e -> exists x, In x l /\ f x = Err e.
Proof.
  induction l as [|x r IH]; simpl; intros H; [discriminate|].
  destruct (f x) as [y|e'] eqn:E; simpl in H.
  - destruct (mapM f r) as [ys|e'']; simpl in H; [discriminate|].
    inversion H; subst; destruct IH as [z [Z1 Z2]]; [reflexivity|].
    exists z; split; [right; assumption|assumption].
  - inversion H; subst; exists x; split; [left; reflexivity|assumption].
Qed.

Lemma Forall2_source {A B} (R : A -> B -> Prop) (l : list A) (out : list B) :
  Forall2 R l out -> forall y, In y out -> exists x, In x l /\ R x y.
Proof.
  induction 1 as [|x y l out H F IH]; intros z Z; [contradiction|].
  destruct Z as [<-|Z].
  - exists x; split; [left; reflexivity|exact H].
  - destruct (IH z Z) as [x' [I R']]; exists x'; split; [right; exact I|exact R'].
Qed.

Lemma nearest_bin_in_axis (freqs : list Q) (f : Q) (k : nat) :
  nearest_bin freqs f = Ok k -> k < length freqs.
Proof.
  unfold nearest_bin; intros H; apply np_argmin_bound in H.
  rewrite length_map in H; exact H.
Qed.

Lemma nearest_bin_ok (freqs : list Q) (f : Q) :
  freqs <> [] -> is_ok (nearest_bin freqs f) = true.
Proof. destruct freqs; [congruence|reflexivity]. Qed.

(** The only exceptions of the lines between the strategy and the four
    updates. *)
Lemma contribute_errors (s : Spectrogram.t) (l : list (list Q)) (e : exn) :
  contribute s l = Err e -> e = ValueError \/ e = IndexError.
Proof.
  unfold contribute, np_hstack, signatures.
  destruct l as [|f r]; [intros H; inversion H; left; reflexivity|].
  set (l := f :: r).
  destruct (map _ (enumerate l)) as [|st sts];
    [intros H; inversion H; left; reflexivity|].
  cbn [bind].
  destruct (mapM _ (concat l)) as [ks|e'] eqn:Hf; cbn [bind].
  - destruct (forallb _ ks && forallb _ _); cbn [bind]; intros H; inversion H.
    right; reflexivity.
  - intros H; inversion H; subst e'.
    destruct (mapM_errors _ _ _ Hf) as [x [_ Hx]].
    unfold nearest_bin, np_argmin in Hx.
    destruct (map _ (Spectrogram.spec_freqs s)); inversion Hx; left; reflexivity.
Qed.

Lemma contribute_ok (s : Spectrogram.t) (l : list (list Q)) :
  l <> [] ->
  Spectrogram.spec_freqs s <> [] ->
  length (Spectrogram.spec_freqs s) <= dim1 (Spectrogram.spec s) ->
  length l <= dim2 (Spectrogram.spec s) ->
  is_ok (contribute s l) = true.
Proof.
  intros L F D1 D2; unfold contribute, np_hstack, signatures.
  destruct l as [|f r]; [congruence|].
  set (l := f :: r) in *.
  change (map _ (enumerate l)) with
    (map (fun ef : nat * list Q => repeat (fst ef) (length (snd ef))) (enumerate l)).
  destruct (map _ (enumerate l)) as [|st sts] eqn:E; [discriminate|].
  assert (Hidx : concat (st :: sts) = local_idx l)
    by (unfold local_idx; rewrite E; reflexivity).
  cbn [bind].
  destruct (mapM _ (concat l)) as [ks|e] eqn:Hf; cbn [bind].
  - rewrite Hidx.
    assert (K : forallb (fun fi => fi <? dim1 (Spectrogram.spec s)) ks = true).
    { apply forallb_forall; intros k Hk; apply Nat.ltb_lt.
      destruct (Forall2_source _ _ _ (mapM_Forall2 _ _ _ Hf) k Hk) as [x [_ Hx]].
      apply nearest_bin_in_axis in Hx; lia. }
    assert (T : forallb (fun ti => ti <? dim2 (Spectrogram.spec s)) (local_idx l) = true).
    { apply forallb_forall; intros t Ht; apply Nat.ltb_lt.
      pose proof (local_idx_bound l) as B; rewrite Forall_forall in B.
      apply B in Ht; lia. }
    rewrite K, T; reflexivity.
  - assert (O : is_ok (mapM (nearest_bin (Spectrogram.spec_freqs s)) (concat l)) = true)
      by (apply mapM_total; intros; apply nearest_bin_ok; exact F).
    rewrite Hf in O; discriminate.
Qed.


(* ------------------------------------------------------------------ *)
(** * Facts about [save] and the hand-off *)

Lemma np_array_rows_items {A : Type} (s s' : seqv (list A)) :
  np_array_rows s = Ok s' -> s' = NdArray (items s).
Proof.
  destruct s as [rows|rows]; cbn; [destruct (rectangular rows)|];
    intros H; inversion H; reflexivity.
Qed.

Lemma np_array_rows_error {A : Type} (s : seqv (list A)) (e : exn) :
  np_array_rows s = Err e -> e = ValueError.
Proof.
  destruct s as [rows|rows]; cbn; [destruct (rectangular rows)|];
    intros H; inversion H; reflexivity.
Qed.

Lemma save_spec (w : World) :
  save w =
  if sign_v_ok (self w) then Done (saved w)
  else Raised ValueError
         (set_disk {| fund_v_npy := Some (items (_fund_v (self w)));
                      ident_v_npy := Some (items (ident_v (self w)));
                      idx_v_npy := Some (items (_idx_v (self w)));
                      times_npy := Some (items (times (self w)));
                      sign_v_npy := sign_v_npy (disk w) |} w).
Proof.
  unfold save, sign_v_ok, saved, checkpoint_of.
  destruct (np_array_rows (_sign_v (self w))) as [s|e] eqn:E; cbn [is_ok].
  - rewrite (np_array_rows_items _ _ E); reflexivity.
  - rewrite (np_array_rows_error _ _ E); reflexivity.
Qed.

Lemma save_done (w w' : World) :
  save w = Done w' -> sign_v_ok (self w) = true /\ w' = saved w.
Proof.
  rewrite save_spec; destruct (sign_v_ok (self w)); [|discriminate].
  intros H; inversion H; split; reflexivity.
Qed.

Lemma tracking_handoff_spec (X : Externals) (w : World) :
  tracking_handoff X w =
  if do_tracking (self w)
  then if sign_v_ok (self w) then Done (tracked X w) else Raised ValueError w
  else Done w.
Proof.
  unfold tracking_handoff, raising, sign_v_ok.
  destruct (do_tracking (self w)); [|reflexivity].
  destruct (np_array_rows (_sign_v (self w))) as [s|e] eqn:E; cbn [is_ok].
  - unfold seqM, pure; rewrite save_spec.
    unfold sign_v_ok; cbn [self upd emit _sign_v set_ident_v]; rewrite E.
    cbn [is_ok]; rewrite (np_array_rows_items _ _ E); reflexivity.
  - rewrite (np_array_rows_error _ _ E); reflexivity.
Qed.

(** The rounding of the subtraction decides the bin: on the axis
    [2, 2 ^ -60] the frequency [1] is at the distance [1] of the first
    bin and, rounded, at the same distance of the second, so the first
    is taken; and two distances beyond the largest float are the same
    infinity. *)
Lemma nearest_bin_rounds :
  nearest_bin [2; 1 # 1152921504606846976]%Q 1%Q = Ok 0
  /\ nearest_bin [(2 ^ 1023) * (2 - (1 # 4503599627370496)); 2 ^ 1023]%Q
                 (- (2 ^ 1023) * (2 - (1 # 4503599627370496)))%Q = Ok 0.
Proof. split; vm_compute; reflexivity. Qed.

(* ------------------------------------------------------------------ *)
(** * The claims of the specification *)

(** C1 at the failing input: a save directory that holds a checkpoint
    whose only identity is unassigned, a recording of eight samples, the
    CPU path, and an engine that is asked for its fine spectrogram.  The
    constructor selects tracking only; [run] enters the CPU loop, which
    calls [extract_snippet_signals] on the loaded arrays, and the run
    ends by an [AttributeError] before the tracking stage.  On the GPU
    path the same run skips the extraction and tracks. *)
Theorem C1_cpu_run_extracts_on_a_loaded_checkpoint :
  exists p w' g,
    __init__ (Example.recording 8) 20000%Q (Example.blocks 8 4) (8, 1) 0 false 4
         (Example.engine0 4 0 true) Example.untracked = Ok p /\
    _get_signals p = false /\ do_tracking p = true /\
    run Example.X (Example.world p Example.untracked) = Raised AttributeError w' /\
    log w' = [SnippetSpectrogram [[0; 1; 2; 3]]%Q (0 # 20000)%Q; ExtractSnippetSignals] /\
    __init__ (Example.recording 8) 20000%Q (Example.blocks 8 4) (8, 1) 0 true 4
         (Example.engine0 4 0 true) Example.untracked = Ok g /\
    is_done (run Example.X (Example.world g Example.untracked)) = true /\
    count_events is_extract
      (log (world_of (run Example.X (Example.world g Example.untracked)))) = 0 /\
    count_events is_tracking
      (log (world_of (run Example.X (Example.world g Example.untracked)))) = 1.
Proof.
  eexists; eexists; eexists.
  split; [reflexivity|].
  split; [reflexivity|].
  split; [reflexivity|].
  split; [vm_compute; reflexivity|].
  split; [reflexivity|].
  split; [reflexivity|].
  repeat split; vm_compute; reflexivity.
Qed.

(** C2.  Start from the empty pipeline state and run any sequence of
    append operations, the engine having appended one entry to its global
    time axis per local time bin of each snippet (the strategy reporting
    one list of fundamentals per local time bin).  Then, wherever the
    sequence ends, normally or by an exception, the four sequences have
    the same length; and at every moment of the run (after the first [k]
    appends, for every [k]) each recorded global time-bin index is
    non-negative and less than the length of the global time axis of
    that moment. *)
Theorem C2_appends_keep_sequences_aligned_and_indices_in_axis
    (X : Externals) (w : World) (n : nat) (snapshots : list Spectrogram.t) :
  empty_state (self w) ->
  one_entry_per_bin X (gpu_use (self w)) n snapshots = true ->
  aligned (self (world_of (appends X snapshots w)))
  /\ forall k, in_axis (self (world_of (appends X (firstn k snapshots) w))).
Proof.
  intros [F [Ix [S Id]]] C.
  assert (L : list_backed (self w) = true)
    by (unfold list_backed; rewrite F, Ix, S; reflexivity).
  assert (A : aligned (self w))
    by (unfold aligned; rewrite F, Ix, S, Id; repeat split; reflexivity).
  assert (B : below n (items (_idx_v (self w))))
    by (rewrite Ix; constructor).
  assert (E : in_axis (self w))
    by (unfold in_axis; rewrite Ix; constructor).
  split.
  - apply (appends_invariant X snapshots w n); auto.
  - intros k; apply (appends_invariant X (firstn k snapshots) w n); auto.
    apply one_entry_per_bin_firstn; exact C.
Qed.

(** C2 at two snippets of the small instance: the hypotheses hold there. *)
Lemma C2_witness :
  empty_state (self (Example.world (Example.pipeline 8 4 0 false) empty_dir))
  /\ one_entry_per_bin Example.X false 0
       [Example.engine_after 1; Example.engine_after 2] = true
  /\ aligned (self (world_of
       (appends Example.X [Example.engine_after 1; Example.engine_after 2]
                (Example.world (Example.pipeline 8 4 0 false) empty_dir))))
  /\ forall k, in_axis (self (world_of
       (appends Example.X
                (firstn k [Example.engine_after 1; Example.engine_after 2])
                (Example.world (Example.pipeline 8 4 0 false) empty_dir)))).
Proof.
  assert (E : empty_state
                (self (Example.world (Example.pipeline 8 4 0 false) empty_dir)))
    by (repeat split; reflexivity).
  assert (C : one_entry_per_bin Example.X false 0
                [Example.engine_after 1; Example.engine_after 2] = true)
    by reflexivity.
  split; [exact E|split; [exact C|]].
  exact (C2_appends_keep_sequences_aligned_and_indices_in_axis
           Example.X (Example.world (Example.pipeline 8 4 0 false) empty_dir) 0
           [Example.engine_after 1; Example.engine_after 2] E C).
Defined.

(** C3.  An append remaps the local time-bin index of each detection to
    a global one by adding an offset, and under the engine's contract the
    offset is the number of time bins that the global axis held before
    the snippet was processed ([n] before the first of two consecutive
    snippets, the length of the axis after the first before the second).
    Hence every index recorded for a snippet is less than every index
    recorded for the snippet that follows it. *)
Theorem C3_append_offsets_by_bins_recorded_before
    (X : Externals) (w : World) (n : nat) (s1 s2 : Spectrogram.t) :
  list_backed (self w) = true ->
  pool_ok (self w) = true ->
  snippet_ok X (gpu_use (self w)) s1 = true ->
  snippet_ok X (gpu_use (self w)) s2 = true ->
  one_entry_per_bin X (gpu_use (self w)) n [s1; s2] = true ->
  exists w1 w2,
    extract_snippet_signals X (upd (set_Spec s1) w) = Done w1 /\
    extract_snippet_signals X (upd (set_Spec s2) w1) = Done w2 /\
    let new1 := map (fun i => (Z.of_nat i + Z.of_nat n)%Z)
                    (local_idx (detections X (gpu_use (self w)) s1)) in
    let new2 := map (fun i => (Z.of_nat i
                               + Z.of_nat (length (Spectrogram.times s1)))%Z)
                    (local_idx (detections X (gpu_use (self w)) s2)) in
    items (_idx_v (self w1)) = items (_idx_v (self w)) ++ new1 /\
    items (_idx_v (self w2)) = items (_idx_v (self w1)) ++ new2 /\
    forall i j, In i new1 -> In j new2 -> (i < j)%Z.
Proof.
  intros L P K1 K2 C.
  cbn [one_entry_per_bin] in C.
  apply andb_prop in C; destruct C as [C C2].
  apply andb_prop in C; destruct C as [T1 D1].
  apply andb_prop in C2; destruct C2 as [C2 _].
  apply andb_prop in C2; destruct C2 as [T2 D2].
  apply Nat.eqb_eq in T1, D1, T2, D2.
  destruct (append_done X w s1 n L P K1 T1 D1) as [w1 [E1 [I1 [L1 [P1 G1]]]]].
  rewrite <- G1 in K2, D2.
  destruct (append_done X w1 s2 _ L1 P1 K2 T2 D2) as [w2 [E2 [I2 _]]].
  rewrite G1 in I2, D2.
  exists w1, w2; repeat split; try assumption.
  intros i j Hi Hj.
  apply in_map_iff in Hi; destruct Hi as [a [Ha Hi]].
  apply in_map_iff in Hj; destruct Hj as [b [Hb Hj]].
  pose proof (local_idx_bound (detections X (gpu_use (self w)) s1)) as B.
  rewrite Forall_forall in B; apply B in Hi.
  lia.
Qed.

(** C3 at the same two snippets. *)
Lemma C3_witness :
  exists w1 w2,
    extract_snippet_signals Example.X
      (upd (set_Spec (Example.engine_after 1))
           (Example.world (Example.pipeline 8 4 0 false) empty_dir)) = Done w1 /\
    extract_snippet_signals Example.X
      (upd (set_Spec (Example.engine_after 2)) w1) = Done w2 /\
    items (_idx_v (self w1)) = [0; 0; 1; 1]%Z /\
    items (_idx_v (self w2)) = [0; 0; 1; 1; 2; 2; 3; 3]%Z.
Proof.
  destruct (C3_append_offsets_by_bins_recorded_before
              Example.X (Example.world (Example.pipeline 8 4 0 false) empty_dir)
              0 (Example.engine_after 1) (Example.engine_after 2)
              eq_refl eq_refl eq_refl eq_refl eq_refl)
    as [w1 [w2 [E1 [E2 [I1 [I2 _]]]]]].
  exists w1, w2; split; [exact E1|split; [exact E2|]].
  rewrite I2, I1; split; reflexivity.
Defined.

(** C4, as stated, fails: over a checkpoint of one detection with the
    identity 7 the constructor leaves arrays, and a call of
    [extract_snippet_signals] on a snippet with four detections ends by
    an [AttributeError] at the first [extend]; the identity 7 is still
    there. *)
Lemma C4_counterexample :
  exists p w',
    __init__ (Example.recording 8) 20000%Q (Example.blocks 8 4) (8, 1) 0 false 4
         (Example.engine_after 1) Example.tracked = Ok p /\
    length (concat (detections Example.X false (Spec p))) = 4 /\
    extract_snippet_signals Example.X (Example.world p Example.tracked)
    = Raised AttributeError w' /\
    ident_v (self w') = NdArray [Ident 7].
Proof.
  eexists; eexists.
  split; [reflexivity|].
  split; [reflexivity|].
  split; [vm_compute; reflexivity|reflexivity].
Qed.

(** C4, amended.  A call of [extract_snippet_signals] that ends normally
    leaves [ident_v] as an array of not-a-number only, one per detection
    held after the call (those held before and those of the snippet),
    whatever [ident_v] held before; the other three sequences have grown
    by the detections of the snippet.  A call that ends by an exception
    leaves [ident_v] as it was.  The call ends normally exactly when the
    pool can be created, the snippet can be accumulated and the three
    sequences are Python lists; it does so whenever, besides the pool
    and the lists, the snippet has a time bin, the frequency axis is not
    empty and the tensor covers the axis and the time bins. *)
Theorem C4_append_resets_every_identity (X : Externals) (w : World) :
  match extract_snippet_signals X w with
  | Done w' =>
      let found := length (concat (detections X (gpu_use (self w)) (Spec (self w)))) in
      ident_v (self w') = NdArray (repeat NaN (length (items (_idx_v (self w')))))
      /\ length (items (_idx_v (self w'))) = length (items (_idx_v (self w))) + found
      /\ length (items (_fund_v (self w'))) = length (items (_fund_v (self w))) + found
      /\ length (items (_sign_v (self w'))) = length (items (_sign_v (self w))) + found
  | Raised _ w' => ident_v (self w') = ident_v (self w)
  end
  /\ is_done (extract_snippet_signals X w) =
     pool_ok (self w) && snippet_ok X (gpu_use (self w)) (Spec (self w))
     && list_backed (self w)
  /\ (pool_ok (self w) = true ->
      list_backed (self w) = true ->
      detections X (gpu_use (self w)) (Spec (self w)) <> [] ->
      Spectrogram.spec_freqs (Spec (self w)) <> [] ->
      length (Spectrogram.spec_freqs (Spec (self w)))
        <= dim1 (Spectrogram.spec (Spec (self w))) ->
      length (detections X (gpu_use (self w)) (Spec (self w)))
        <= dim2 (Spectrogram.spec (Spec (self w))) ->
      is_done (extract_snippet_signals X w) = true).
Proof.
  split; [|split; [apply extract_is_done|]].
  - destruct (extract_snippet_signals X w) as [w'|e w'] eqn:E.
    + destruct (extract_done_inv X w w' E) as [c [C [_ [_ [F [Ix [S [Id _]]]]]]]].
      destruct (contribute_inv _ _ _ C) as [Cf [Ci [Cs _]]].
      cbv zeta; rewrite Id, F, Ix, S; cbn [items].
      rewrite !length_app, length_map, Cf, Ci, Cs, local_idx_length.
      repeat split; reflexivity.
    + apply (extract_raised_ident X w w' e E).
  - intros P L D F D1 D2.
    rewrite extract_is_done, P, L; unfold snippet_ok.
    rewrite (contribute_ok _ _ D F D1 D2); reflexivity.
Qed.

(** C4, amended, at a pipeline that holds one detection with the
    identity 7 in lists: the call ends normally and the five identities
    it leaves are not-a-number. *)
Lemma C4_witness :
  exists w',
    extract_snippet_signals Example.X
      (Example.world
         (set_ident_v (PyList [Ident 7])
            (set_Spec (Example.engine_after 1) Example.one_detection)) empty_dir)
    = Done w' /\
    ident_v (self w') = NdArray (repeat NaN 5).
Proof.
  destruct (C4_append_resets_every_identity Example.X
              (Example.world
                 (set_ident_v (PyList [Ident 7])
                    (set_Spec (Example.engine_after 1) Example.one_detection))
                 empty_dir)) as [H [_ T]].
  specialize (T eq_refl eq_refl ltac:(discriminate) ltac:(discriminate)
                ltac:(cbn; lia) ltac:(cbn; lia)).
  destruct (extract_snippet_signals Example.X _) as [w'|e w'];
    [|discriminate].
  destruct H as [I [L _]]; exists w'; split; [reflexivity|].
  rewrite I, L; reflexivity.
Defined.

(** C5, as stated, fails: with ten samples, a snippet size of four and no
    overlap, the CPU loop hands the engine a third window of two samples. *)
Lemma C5_counterexample :
  exists w',
    pipeline_CPU Example.X (Example.world (Example.pipeline 10 4 0 false) empty_dir)
      = Done w' /\
    map fst (engine_calls (log w')) =
      [[[0; 1; 2; 3]]; [[4; 5; 6; 7]]; [[8; 9]]]%Q.
Proof.
  eexists; split; [vm_compute; reflexivity|reflexivity].
Qed.

(** C5, amended.  Take a snippet size [S] and an overlap [O < S].  A CPU
    loop that ends normally has handed the engine, and then the
    extraction, one window per start [k * (S - O)] below the number of
    samples [N], in ascending order and no other; the window that starts
    at [i] holds the samples [i .. min (i + S, N) - 1] of each channel, so
    it is never padded and is shorter than [S] when [i + S > N]: the loop
    runs to the end of the recording and discards no tail.  The loop does
    end normally when the channels exist, the pool can be created, the
    sequences are lists, the engine yields states that can be
    accumulated and the progress message can be formatted, which it can
    unless the verbosity is 3 and the recording is not empty and
    shorter than one step; in that case the loop does not end normally.  A GPU loop over a shape below [2 ^ 53] that ends
    normally has handed the engine the first [N / S] blocks that the
    data set yields (all of them if [N / S] is zero), whatever their
    lengths. *)
Theorem C5_cpu_loop_windows_run_to_the_end (X : Externals) (w : World) :
  let p := self w in
  let N := shape0 (data p) in
  let S := Spectrogram.snippet_size (Spec p) in
  let O := Spectrogram.noverlap (Spec p) in
  O < S ->
  (forall w',
      pipeline_CPU X w = Done w' ->
      engine_calls (log w') =
        engine_calls (log w)
        ++ map (fun k => (window p (k * (S - O)), cpu_t0 p (Z.of_nat (k * (S - O)))))
               (seq 0 (cpu_count p))
      /\ count_events is_extract (log w')
         = count_events is_extract (log w) + cpu_count p)
  /\ (forall k, k < cpu_count p <-> k * (S - O) < N)
  /\ (forall i slice, In slice (window p i) -> length slice = Nat.min S (N - i))
  /\ (channels_ok p = true -> pool_ok p = true -> list_backed p = true ->
      engine_total X (gpu_use p) ->
      (verbose p = 3 -> 0 < N -> S - O <= N) ->
      is_done (pipeline_CPU X w) = true)
  /\ (verbose p = 3 -> 0 < N -> N < S - O -> is_done (pipeline_CPU X w) = false)
  /\ (forall w',
        (Z.of_nat (fst (data_shape p)) < 2 ^ 53)%Z ->
        pipeline_GPU X w = Done w' ->
        map fst (engine_calls (log w')) =
          map fst (engine_calls (log w))
          ++ map (block_T p)
                 (if fst (data_shape p) / S =? 0 then dataset p
                  else firstn (fst (data_shape p) / S) (dataset p))).
Proof.
  intros p N S O H.
  split; [|split; [|split; [|split; [|split]]]].
  - intros w' E; rewrite (pipeline_CPU_done X w w' H E); split.
    + rewrite engine_calls_app, engine_calls_cpu.
      rewrite map_map; f_equal; apply map_ext; intros k.
      rewrite Nat2Z.id; reflexivity.
    + rewrite count_events_app, count_extract_cpu, length_map, length_seq.
      reflexivity.
  - apply (cpu_starts (self w) H).
  - apply window_length.
  - apply (pipeline_CPU_total X w H).
  - apply (pipeline_CPU_progress X w H).
  - intros w' _ E; apply (pipeline_GPU_done X w w'); [|exact E].
    unfold O, S, p in H; lia.
Qed.

(** C5, amended, at ten samples, snippet size four and no overlap. *)
Lemma C5_witness :
  0 < 4
  /\ is_done (pipeline_CPU Example.X
                (Example.world (Example.pipeline 10 4 0 false) empty_dir)) = true
  /\ (forall k, k < 3 <-> k * 4 < 10)
  /\ (forall i slice,
        In slice (window (Example.pipeline 10 4 0 false) i) ->
        length slice = Nat.min 4 (10 - i)).
Proof.
  destruct (C5_cpu_loop_windows_run_to_the_end
              Example.X (Example.world (Example.pipeline 10 4 0 false) empty_dir)
              ltac:(cbn; lia))
    as [_ [K [W [T _]]]].
  split; [lia|split; [|split]].
  - apply T; try reflexivity; [apply Example_engine_total|discriminate].
  - exact K.
  - exact W.
Defined.

(** C6 at the failing input: eight samples, snippet size four, no
    overlap.  Both loops end normally after two windows, the second of
    which reaches the end of the recording, and neither loop has set
    [terminate] before any call of the engine. *)
Theorem C6_last_window_is_not_marked_final :
  let cpu := pipeline_CPU Example.X
               (Example.world (Example.pipeline 8 4 0 false) empty_dir) in
  let gpu := pipeline_GPU Example.X
               (Example.world (Example.pipeline 8 4 0 true) empty_dir) in
  is_done cpu = true
  /\ map fst (engine_calls (log (world_of cpu))) = [[[0; 1; 2; 3]]; [[4; 5; 6; 7]]]%Q
  /\ final_marks false (log (world_of cpu)) = [false; false]
  /\ is_done gpu = true
  /\ map fst (engine_calls (log (world_of gpu))) = [[[0; 1; 2; 3]]; [[4; 5; 6; 7]]]%Q
  /\ final_marks false (log (world_of gpu)) = [false; false].
Proof. vm_compute; repeat split; reflexivity. Qed.

(** C7, as stated, fails: the hand-off stores two labels for one
    detection and ends normally. *)
Lemma C7_counterexample :
  exists w',
    tracking_handoff Example.X_two_labels
      (Example.world Example.one_detection empty_dir) = Done w' /\
    length (items (ident_v (self w'))) = 2 /\
    length (items (_fund_v (self w'))) = 1.
Proof.
  eexists; split; [reflexivity|split; reflexivity].
Qed.

(** C7, amended.  The hand-off compares no lengths.  With [do_tracking]
    set and signatures of which the array view can be taken (an array,
    or a list of rows of one length) it ends normally: it stores the
    labels that the tracking stage returns, in the order given and
    whatever their number, as [ident_v], and saves; it leaves the
    fundamentals, the time-bin indices and the signatures as they are.
    With signature rows of different lengths it ends by a [ValueError]
    before the tracker is called, and nothing has changed.  Without
    [do_tracking] it does nothing. *)
Theorem C7_handoff_stores_labels_unchecked (X : Externals) (w : World) :
  if do_tracking (self w) && negb (sign_v_ok (self w))
  then tracking_handoff X w = Raised ValueError w
  else
    exists w',
      tracking_handoff X w = Done w' /\
      _fund_v (self w') = _fund_v (self w) /\
      _idx_v (self w') = _idx_v (self w) /\
      _sign_v (self w') = _sign_v (self w) /\
      ident_v (self w') =
        (if do_tracking (self w)
         then NdArray (freq_tracking_v6 X (items (_fund_v (self w)))
                                          (items (_idx_v (self w)))
                                          (items (_sign_v (self w)))
                                          (items (times (self w))))
         else ident_v (self w)) /\
      ident_v_npy (disk w') =
        (if do_tracking (self w) then Some (items (ident_v (self w')))
         else ident_v_npy (disk w)).
Proof.
  rewrite tracking_handoff_spec.
  destruct (do_tracking (self w)); cbn [andb negb].
  - destruct (sign_v_ok (self w)); cbn [negb]; [|reflexivity].
    eexists; split; [reflexivity|]; repeat split; reflexivity.
  - exists w; repeat split; reflexivity.
Qed.

(** C8.  [save] ends normally exactly when the array view of the
    signatures can be taken (an array, or a list of rows of one length).
    A pipeline constructed over the directory that such a [save] has
    written holds the five sequences [fund_v], [idx_v], [sign_v],
    [ident_v] and [times] with the items of the state that was saved, in
    the same order (hence of the same lengths).  A [save] that raises
    has raised a [ValueError] with [sign_v.npy] as it was. *)
Theorem C8_checkpoint_round_trip
    (w : World) (data0 : DataLoader) (samplerate0 : Q)
    (dataset0 : list (list (list Q))) (data_shape0 : nat * nat) (verbose0 : nat)
    (gpu_use0 : bool) (core_count0 : nat) (spec0 : Spectrogram.t) :
  is_done (save w) = sign_v_ok (self w)
  /\ (forall w',
        save w = Done w' ->
        exists p',
          __init__ data0 samplerate0 dataset0 data_shape0 verbose0 gpu_use0
               core_count0 spec0 (disk w') = Ok p' /\
          items (_fund_v p') = items (_fund_v (self w)) /\
          items (_idx_v p') = items (_idx_v (self w)) /\
          items (_sign_v p') = items (_sign_v (self w)) /\
          items (ident_v p') = items (ident_v (self w)) /\
          items (times p') = items (times (self w)))
  /\ (forall e w',
        save w = Raised e w' ->
        e = ValueError /\ self w' = self w /\
        sign_v_npy (disk w') = sign_v_npy (disk w)).
Proof.
  rewrite save_spec; destruct (sign_v_ok (self w)); cbn [is_done].
  - split; [reflexivity|split; [|discriminate]].
    intros w' H; inversion H; subst w'; clear H.
    eexists; split; [reflexivity|].
    match goal with |- context [if ?c then _ else _] => destruct c end;
      repeat split; reflexivity.
  - split; [reflexivity|split; [discriminate|]].
    intros e w' H; inversion H; repeat split; reflexivity.
Qed.

(** C8 at a pipeline that holds one detection. *)
Lemma C8_witness :
  exists w' p',
    save (Example.world Example.one_detection empty_dir) = Done w' /\
    __init__ (Example.recording 8) 20000%Q (Example.blocks 8 4) (8, 1) 0 false 4
         (Example.engine0 4 0 false) (disk w') = Ok p' /\
    items (_sign_v p') = [[1; 2]]%Q /\ items (ident_v p') = [NaN].
Proof.
  destruct (C8_checkpoint_round_trip
              (Example.world Example.one_detection empty_dir)
              (Example.recording 8) 20000%Q (Example.blocks 8 4) (8, 1) 0 false 4
              (Example.engine0 4 0 false)) as [D [R _]].
  destruct (save (Example.world Example.one_detection empty_dir)) as [w'|e w'];
    [|discriminate].
  destruct (R w' eq_refl) as [p' [I [_ [_ [Sg [Id _]]]]]].
  exists w', p'; split; [reflexivity|split; [exact I|]].
  split; [exact Sg|exact Id].
Defined.

(** C9.  For a fixed snippet the CPU extraction strategy yields the same
    detections whatever the order in which the workers finish.  Two
    calls of [extract_snippet_signals] that differ only in the oracle of
    completion orders end in the same outcome.  Where the pool can be
    created, the sequences are lists, the snippet has a time bin, the
    frequency axis is not empty and the tensor covers the axis and the
    time bins, both calls end normally and both have added to the
    sequences the fundamentals of the time bins by position: those of
    the first bin, then those of the second, and so on, each with the
    position of its bin plus the offset of the snippet, so that the
    local indices ascend; and one signature for each. *)
Theorem C9_extraction_independent_of_worker_scheduling
    (X : Externals) (w : World) (s1 s2 : list (list nat)) :
  gpu_use (self w) = false ->
  2 <= core_count (self w) ->
  list_backed (self w) = true ->
  per_bin X (Spec (self w)) <> [] ->
  Spectrogram.spec_freqs (Spec (self w)) <> [] ->
  length (Spectrogram.spec_freqs (Spec (self w)))
    <= dim1 (Spectrogram.spec (Spec (self w))) ->
  length (per_bin X (Spec (self w))) <= dim2 (Spectrogram.spec (Spec (self w))) ->
  forget_sched (extract_snippet_signals X (set_sched s1 w)) =
  forget_sched (extract_snippet_signals X (set_sched s2 w))
  /\ exists w1 w2,
       extract_snippet_signals X (set_sched s1 w) = Done w1 /\
       extract_snippet_signals X (set_sched s2 w) = Done w2 /\
       self w1 = self w2 /\
       _fund_v (self w1)
       = PyList (items (_fund_v (self w)) ++ concat (per_bin X (Spec (self w)))) /\
       _idx_v (self w1)
       = PyList (items (_idx_v (self w))
                 ++ map (fun i =>
                           (Z.of_nat i
                            + (Z.of_nat (length (Spectrogram.times (Spec (self w))))
                               - Z.of_nat (length (Spectrogram.spec_times
                                                     (Spec (self w))))))%Z)
                        (local_idx (per_bin X (Spec (self w))))) /\
       StronglySorted le (local_idx (per_bin X (Spec (self w)))) /\
       length (items (_sign_v (self w1)))
       = length (items (_sign_v (self w)))
         + length (concat (per_bin X (Spec (self w)))).
Proof.
  intros G C L D F D1 D2.
  pose proof (extract_any_order X w s1 s2) as A.
  split; [exact A|].
  assert (T : forall s, is_done (extract_snippet_signals X (set_sched s w)) = true).
  { intros s; rewrite extract_is_done; cbn [self set_sched].
    unfold pool_ok, snippet_ok; rewrite G, L; cbn [orb].
    apply Nat.leb_le in C; rewrite C; cbn [andb].
    change (detections X false (Spec (self w))) with (per_bin X (Spec (self w))).
    rewrite (contribute_ok _ _ D F D1 D2); reflexivity. }
  destruct (extract_snippet_signals X (set_sched s1 w)) as [w1|e1 w1] eqn:E1;
    [|specialize (T s1); rewrite E1 in T; discriminate].
  destruct (extract_snippet_signals X (set_sched s2 w)) as [w2|e2 w2] eqn:E2;
    [|specialize (T s2); rewrite E2 in T; discriminate].
  exists w1, w2; split; [reflexivity|split; [reflexivity|]].
  split; [cbn in A; inversion A; reflexivity|].
  destruct (extract_done_inv X _ _ E1) as [c [Cc [_ [_ [Fu [Ix [Sg _]]]]]]].
  cbn [self set_sched] in Cc, Fu, Ix, Sg; rewrite G in Cc.
  change (detections X false (Spec (self w))) with (per_bin X (Spec (self w))) in Cc.
  destruct (contribute_inv _ _ _ Cc) as [Cf [Ci [Cs I0]]].
  rewrite Fu, Ix, Sg, Cf, Ci, I0; cbn [items].
  split; [reflexivity|split; [reflexivity|split; [apply local_idx_sorted|]]].
  rewrite length_app, Cs; reflexivity.
Qed.

(** C9 at the first snippet of the small instance, under two orders of
    completion. *)
Lemma C9_witness :
  exists w1 w2,
    extract_snippet_signals Example.X
      (set_sched [[1; 0]; [0; 2]]
         (Example.world (set_Spec (Example.engine_after 1)
                                  (Example.pipeline 8 4 0 false)) empty_dir))
    = Done w1 /\
    extract_snippet_signals Example.X
      (set_sched [[0; 0]; [1; 1]]
         (Example.world (set_Spec (Example.engine_after 1)
                                  (Example.pipeline 8 4 0 false)) empty_dir))
    = Done w2 /\
    self w1 = self w2 /\
    _fund_v (self w1) = PyList [300; 620; 300; 620]%Q /\
    _idx_v (self w1) = PyList [0; 0; 1; 1]%Z.
Proof.
  destruct (C9_extraction_independent_of_worker_scheduling Example.X
              (Example.world (set_Spec (Example.engine_after 1)
                                       (Example.pipeline 8 4 0 false)) empty_dir)
              [[1; 0]; [0; 2]] [[0; 0]; [1; 1]]
              eq_refl ltac:(cbn; lia) eq_refl ltac:(discriminate)
              ltac:(discriminate) ltac:(cbn; lia) ltac:(cbn; lia))
    as [_ [w1 [w2 [E1 [E2 [S [F [I _]]]]]]]].
  exists w1, w2; split; [exact E1|split; [exact E2|split; [exact S|]]].
  split; [rewrite F|rewrite I]; reflexivity.
Defined.

(** C10.  Setting [get_signals] to a truthy value empties the five
    sequences, setting it to a falsy value leaves them as they are; the
    flag becomes the truth value, and [do_tracking] is not touched.  So
    when [main] forces a new extraction on a pipeline loaded from a
    checkpoint, the detections are purged and [do_tracking] stays as the
    constructor left it: off if the checkpoint held an assigned
    identity. *)
Theorem C10_get_signals_setter_leaves_do_tracking
    (get_sigs : pyobj) (p : AnalysisPipeline) :
  let p' := set_get_signals get_sigs p in
  do_tracking p' = do_tracking p
  /\ _get_signals p' = truthy get_sigs
  /\ (if truthy get_sigs
      then _fund_v p' = PyList [] /\ _idx_v p' = PyList [] /\
           _sign_v p' = PyList [] /\ ident_v p' = PyList [] /\
           times p' = PyList []
      else _fund_v p' = _fund_v p /\ _idx_v p' = _idx_v p /\
           _sign_v p' = _sign_v p /\ ident_v p' = ident_v p /\
           times p' = times p)
  /\ (forall data0 samplerate0 dataset0 data_shape0 verbose0 gpu_use0 core_count0 spec0
             f i s l t,
        exists q,
          __init__ data0 samplerate0 dataset0 data_shape0 verbose0 gpu_use0 core_count0 spec0
               {| fund_v_npy := Some f; idx_v_npy := Some i; sign_v_npy := Some s;
                  ident_v_npy := Some l; times_npy := Some t |} = Ok q /\
          do_tracking q = negb (0 <? count_assigned (NdArray l)) /\
          let q' := main_flags true false q in
          do_tracking q' = do_tracking q /\ _get_signals q' = true /\
          _fund_v q' = PyList [] /\ _idx_v q' = PyList [] /\
          _sign_v q' = PyList [] /\ ident_v q' = PyList [] /\
          times q' = PyList []).
Proof.
  unfold set_get_signals; cbn.
  split; [destruct (truthy get_sigs); reflexivity|].
  split; [destruct (truthy get_sigs); reflexivity|].
  split; [destruct (truthy get_sigs); cbn; repeat split; reflexivity|].
  intros; eexists; split; [reflexivity|].
  match goal with |- context [if ?c then _ else _] => destruct c end;
    repeat split; reflexivity.
Qed.

(* ------------------------------------------------------------------ *)
(** * Further facts about the pipeline *)

(** ** The records of a snippet *)

(** X2.  An append that ends normally on aligned sequences adds the
    detections of the snippet as whole records, after those held before:
    for each local time bin in order and each fundamental of the bin in
    order, the fundamental, the position of the bin plus the offset
    [len(Spec.times) - len(Spec.spec_times)], and the power of every
    channel at the frequency bin nearest to the fundamental in that time
    bin. *)
Theorem X2_append_adds_whole_records (X : Externals) (w w' : World) :
  aligned (self w) ->
  extract_snippet_signals X w = Done w' ->
  records (self w') =
  records (self w)
  ++ snippet_records (Spec (self w)) (detections X (gpu_use (self w)) (Spec (self w))).
Proof.
  intros [A1 [A2 _]] E.
  destruct (extract_done_inv X w w' E) as [c [C [_ [_ [F [Ix [S _]]]]]]].
  unfold records; rewrite F, Ix, S; cbn [items].
  rewrite (combine_app (items (_idx_v (self w))) _ (items (_sign_v (self w))) _)
    by congruence.
  rewrite combine_app by (rewrite length_combine, A2, Nat.min_id; exact A1).
  f_equal; apply contribute_records; exact C.
Qed.

(** X2 at the first snippet of the small instance. *)
Lemma X2_witness :
  exists w',
    extract_snippet_signals Example.X
      (Example.world (set_Spec (Example.engine_after 1)
                               (Example.pipeline 8 4 0 false)) empty_dir) = Done w' /\
    records (self w') =
      [(300, (0%Z, [1; 2])); (620, (0%Z, [2; 3]));
       (300, (1%Z, [2; 3])); (620, (1%Z, [3; 4]))]%Q.
Proof.
  set (w := Example.world (set_Spec (Example.engine_after 1)
                                    (Example.pipeline 8 4 0 false)) empty_dir).
  assert (A : aligned (self w)) by (repeat split; reflexivity).
  destruct (extract_snippet_signals Example.X w) as [w'|e w'] eqn:E;
    [|vm_compute in E; discriminate].
  exists w'; split; [reflexivity|].
  rewrite (X2_append_adds_whole_records Example.X w w' A E).
  reflexivity.
Defined.

(** ** When an append ends normally, and how it fails *)

Ltac unfold_extract :=
  unfold extract_snippet_signals, seqM, pure, strategy, raising;
  unfold extend_fund_v, extend_idx_v, extend_sign_v, reset_ident_v, raising, pure;
  cbn.

(** A call that raises does so in the pool or between the strategy and
    the updates, when the sequences are lists. *)
Lemma extract_raised_where (X : Externals) (w w' : World) (e : exn) :
  list_backed (self w) = true ->
  extract_snippet_signals X w = Raised e w' ->
  (gpu_use (self w) = false /\ Pool (Z.of_nat (core_count (self w)) - 1) = Err e)
  \/ contribute (Spec (self w)) (detections X (gpu_use (self w)) (Spec (self w)))
     = Err e.
Proof.
  unfold list_backed, detections; unfold_extract.
  destruct (_fund_v (self w)) as [lf|lf] eqn:F; cbn; [|discriminate].
  destruct (_idx_v (self w)) as [li|li] eqn:I; cbn; [|discriminate].
  destruct (_sign_v (self w)) as [ls|ls] eqn:S; cbn; [|discriminate].
  intros _.
  destruct (gpu_use (self w)) eqn:G.
  - destruct (contribute _ _) as [c|e'] eqn:C; cbn.
    + rewrite ?F; cbn; rewrite ?I; cbn; rewrite ?S; cbn; discriminate.
    + intros H; inversion H; subst; right; reflexivity.
  - destruct (Pool _) as [u|e'] eqn:P.
    + rewrite cpu_fundamentals_by_position.
      destruct (contribute _ _) as [c|e''] eqn:C; cbn.
      * rewrite ?F; cbn; rewrite ?I; cbn; rewrite ?S; cbn; discriminate.
      * intros H; inversion H; subst; right; reflexivity.
    + intros H; inversion H; subst; left; split; reflexivity.
Qed.

(** X3.  An append ends normally when the pool can be created, the three
    sequences are lists, the snippet has a time bin, the frequency axis
    is not empty, and the engine's tensor has a row for every frequency
    of the axis and a column for every time bin of the snippet. *)
Theorem X3_append_ends_normally_on_a_covering_tensor (X : Externals) (w : World) :
  pool_ok (self w) = true ->
  list_backed (self w) = true ->
  detections X (gpu_use (self w)) (Spec (self w)) <> [] ->
  Spectrogram.spec_freqs (Spec (self w)) <> [] ->
  length (Spectrogram.spec_freqs (Spec (self w)))
    <= dim1 (Spectrogram.spec (Spec (self w))) ->
  length (detections X (gpu_use (self w)) (Spec (self w)))
    <= dim2 (Spectrogram.spec (Spec (self w))) ->
  exists w', extract_snippet_signals X w = Done w'.
Proof.
  intros P L D F D1 D2.
  apply is_done_inv; rewrite extract_is_done, P, L.
  unfold snippet_ok; rewrite (contribute_ok _ _ D F D1 D2); reflexivity.
Qed.

(** X3 at the first snippet of the small instance. *)
Lemma X3_witness :
  exists w',
    extract_snippet_signals Example.X
      (Example.world (set_Spec (Example.engine_after 1)
                               (Example.pipeline 8 4 0 false)) empty_dir) = Done w'.
Proof.
  apply (X3_append_ends_normally_on_a_covering_tensor Example.X);
    try reflexivity; try discriminate; cbn; lia.
Defined.

(** X4.  An append on list-backed sequences is all or nothing: when it
    raises, the exception is a [ValueError] or an [IndexError], and the
    four sequences, the engine and the save directory are as before the
    call. *)
Theorem X4_failed_append_changes_nothing (X : Externals) (w w' : World) (e : exn) :
  list_backed (self w) = true ->
  extract_snippet_signals X w = Raised e w' ->
  (e = ValueError \/ e = IndexError) /\
  _fund_v (self w') = _fund_v (self w) /\ _idx_v (self w') = _idx_v (self w) /\
  _sign_v (self w') = _sign_v (self w) /\ ident_v (self w') = ident_v (self w) /\
  Spec (self w') = Spec (self w) /\ disk w' = disk w.
Proof.
  intros L E.
  destruct (extract_raised_inv X w w' e E L) as [F [Ix [S [Id [Fr [_ D]]]]]].
  destruct Fr as [_ [_ [_ [_ [_ [_ [Sp _]]]]]]].
  repeat split; try assumption.
  destruct (extract_raised_where X w w' e L E) as [[_ P]|C].
  - unfold Pool in P; destruct (_ <? 1)%Z; inversion P; left; reflexivity.
  - apply (contribute_errors _ _ _ C).
Qed.

(** X4 before the first snippet of the small instance, where the engine
    has no time bin yet. *)
Lemma X4_witness :
  exists w',
    extract_snippet_signals Example.X
      (Example.world (Example.pipeline 8 4 0 false) empty_dir)
      = Raised ValueError w' /\
    _fund_v (self w') = PyList [] /\ ident_v (self w') = PyList [].
Proof.
  destruct (extract_snippet_signals Example.X
              (Example.world (Example.pipeline 8 4 0 false) empty_dir))
    as [w'|e w'] eqn:E; [vm_compute in E; discriminate|].
  destruct (X4_failed_append_changes_nothing Example.X
              (Example.world (Example.pipeline 8 4 0 false) empty_dir) w' e eq_refl E)
    as [_ [F [_ [_ [Id _]]]]].
  assert (V : e = ValueError) by (vm_compute in E; inversion E; reflexivity).
  exists w'; rewrite V; repeat split; assumption.
Defined.

(** X5.  The empty inputs of an append.  A snippet without any time bin
    makes the call raise a [ValueError] with the sequences untouched.  A
    snippet with time bins none of which holds a fundamental is
    accepted, whatever the frequency axis and the tensor are: the three
    sequences keep their items and [ident_v] becomes not-a-number
    throughout. *)
Theorem X5_appends_of_empty_snippets (X : Externals) (w : World) :
  pool_ok (self w) = true ->
  let found := detections X (gpu_use (self w)) (Spec (self w)) in
  (found = [] ->
   exists w',
     extract_snippet_signals X w = Raised ValueError w' /\
     _fund_v (self w') = _fund_v (self w) /\ _idx_v (self w') = _idx_v (self w) /\
     _sign_v (self w') = _sign_v (self w) /\ ident_v (self w') = ident_v (self w))
  /\ (found <> [] -> concat found = [] -> list_backed (self w) = true ->
      exists w',
        extract_snippet_signals X w = Done w' /\
        items (_fund_v (self w')) = items (_fund_v (self w)) /\
        items (_idx_v (self w')) = items (_idx_v (self w)) /\
        items (_sign_v (self w')) = items (_sign_v (self w)) /\
        ident_v (self w') = np_full_nan (length (items (_idx_v (self w))))).
Proof.
  intros P found; split.
  - intros E0.
    assert (P' : gpu_use (self w) = true
                 \/ Pool (Z.of_nat (core_count (self w)) - 1) = Ok tt).
    { unfold pool_ok in P; apply orb_true_iff in P.
      destruct P as [P|P]; [left; exact P|right; apply Pool_ok; exact P]. }
    revert E0; unfold found, detections; unfold_extract.
    destruct (gpu_use (self w)) eqn:G.
    + intros E0; rewrite E0; cbn.
      eexists; split; [reflexivity|repeat split; reflexivity].
    + destruct P' as [P'|P']; [discriminate|]; rewrite P'.
      rewrite cpu_fundamentals_by_position; intros E0; rewrite E0; cbn.
      eexists; split; [reflexivity|repeat split; reflexivity].
  - intros N C L.
    assert (K : is_ok (contribute (Spec (self w)) found) = true).
    { unfold contribute, np_hstack, signatures.
      destruct found as [|f r] eqn:Ef; [congruence|].
      change (map _ (enumerate (f :: r))) with
        (map (fun ef : nat * list Q => repeat (fst ef) (length (snd ef)))
             (enumerate (f :: r))).
      destruct (map _ (enumerate (f :: r))) as [|st sts] eqn:E; [discriminate|].
      assert (Hidx : concat (st :: sts) = local_idx (f :: r))
        by (unfold local_idx; rewrite E; reflexivity).
      cbn [bind]; rewrite C; cbn [mapM bind]; rewrite Hidx.
      assert (Z : local_idx (f :: r) = []).
      { apply length_zero_iff_nil; rewrite local_idx_length, C; reflexivity. }
      rewrite Z; reflexivity. }
    destruct (is_done_inv (extract_snippet_signals X w)) as [w' E].
    { rewrite extract_is_done, P, L; unfold snippet_ok; fold found; rewrite K.
      reflexivity. }
    exists w'; split; [exact E|].
    destruct (extract_done_inv X w w' E) as [c [Cc [_ [_ [F [Ix [S [Id _]]]]]]]].
    fold found in Cc.
    destruct (contribute_inv _ _ _ Cc) as [Cf [Ci [Cs _]]].
    assert (Zi : tmp_idx_v c = []).
    { apply length_zero_iff_nil; rewrite Ci, local_idx_length, C; reflexivity. }
    assert (Zs : tmp_sign_v c = []).
    { apply length_zero_iff_nil; rewrite Cs, C; reflexivity. }
    rewrite Id, F, Ix, S, Cf, C, Zi, Zs; cbn [items map]; rewrite !app_nil_r.
    repeat split; reflexivity.
Qed.

(** X5 before the first snippet of the small instance. *)
Lemma X5_witness :
  exists w',
    extract_snippet_signals Example.X
      (Example.world (Example.pipeline 8 4 0 false) empty_dir)
    = Raised ValueError w'.
Proof.
  destruct (X5_appends_of_empty_snippets Example.X
              (Example.world (Example.pipeline 8 4 0 false) empty_dir) eq_refl)
    as [A _].
  destruct (A eq_refl) as [w' [E _]].
  exists w'; exact E.
Defined.

(** ** The edges of the snippet loops *)

(** X6.  The degenerate steps of the loops.  With an overlap equal to the
    snippet size the CPU loop raises a [ZeroDivisionError] and with a
    snippet size of zero so does the GPU loop, both before anything is
    done; with an overlap larger than the snippet size the CPU loop ends
    normally without a single window, so that [run] on a new pipeline
    saves an empty result and tracks nothing but what the tracker makes
    of no detection. *)
Theorem X6_degenerate_steps (X : Externals) (w : World) :
  (Spectrogram.snippet_size (Spec (self w)) = Spectrogram.noverlap (Spec (self w)) ->
   pipeline_CPU X w = Raised ZeroDivisionError w)
  /\ (Spectrogram.snippet_size (Spec (self w)) = 0 ->
      pipeline_GPU X w = Raised ZeroDivisionError w)
  /\ (Spectrogram.snippet_size (Spec (self w)) < Spectrogram.noverlap (Spec (self w)) ->
      pipeline_CPU X w = Done w
      /\ (gpu_use (self w) = false -> _get_signals (self w) = true ->
          do_tracking (self w) = true -> empty_state (self w) ->
          exists w',
            run X w = Done w' /\
            engine_calls (log w') = engine_calls (log w) /\
            fund_v_npy (disk w') = Some [] /\
            ident_v_npy (disk w') =
              Some (freq_tracking_v6 X [] [] []
                      (Spectrogram.times (Spec (self w)))))).
Proof.
  split; [|split].
  - intros H; unfold pipeline_CPU, raising, floordiv, cpu_step.
    rewrite H, Z.sub_diag; reflexivity.
  - intros H; unfold pipeline_GPU, raising, floordiv; rewrite H; reflexivity.
  - intros H.
    assert (C : pipeline_CPU X w = Done w).
    { unfold pipeline_CPU, raising, floordiv, np_arange.
      destruct (cpu_step (self w) =? 0)%Z eqn:E0;
        [apply Z.eqb_eq in E0; unfold cpu_step in E0; lia|].
      destruct (cpu_step (self w) <? 0)%Z eqn:E1;
        [reflexivity|apply Z.ltb_ge in E1; unfold cpu_step in E1; lia]. }
    split; [exact C|].
    intros G S T [F [Ix [Sg Id]]].
    unfold run, seqM; rewrite S, G; cbn [orb]; unfold seqM; rewrite C.
    unfold pure; rewrite save_spec.
    unfold sign_v_ok at 1; cbn [self upd set_times _sign_v]; rewrite Sg.
    cbn [np_array_rows rectangular is_ok]; rewrite tracking_handoff_spec.
    unfold sign_v_ok, saved; cbn [self upd emit set_disk set_times _sign_v do_tracking].
    rewrite T, Sg; cbn [np_array_rows rectangular is_ok].
    eexists; split; [reflexivity|].
    unfold tracked, saved, checkpoint_of; cbn.
    rewrite !engine_calls_app, ?F, ?Ix, ?Sg; cbn; rewrite !app_nil_r.
    repeat split; reflexivity.
Qed.

Lemma seq_snoc (m : nat) : seq 0 (S m) = seq 0 m ++ [m].
Proof. rewrite seq_S; reflexivity. Qed.

(** X7.  In a CPU loop that starts with an empty log and ends normally,
    [terminate] is set before the last call of the engine when the step
    [S - O] does not divide the number of samples, and before no other
    call and not at all when it does. *)
Theorem X7_cpu_loop_marks_the_last_window_unless_step_divides
    (X : Externals) (w w' : World) :
  Spectrogram.noverlap (Spec (self w)) < Spectrogram.snippet_size (Spec (self w)) ->
  log w = [] ->
  pipeline_CPU X w = Done w' ->
  let step := Spectrogram.snippet_size (Spec (self w))
              - Spectrogram.noverlap (Spec (self w)) in
  final_marks false (log w') =
  match cpu_count (self w) with
  | 0 => []
  | S m => repeat false m ++ [negb (shape0 (data (self w)) mod step =? 0)]
  end.
Proof.
  intros H L E step.
  rewrite (pipeline_CPU_final_marks X w w' H L E); fold step.
  pose proof (proj2 (proj2 (cpu_starts (self w) H))) as K; cbv zeta in K; fold step in K.
  set (N := shape0 (data (self w))) in *.
  assert (Pos : 0 < step) by (unfold step; lia).
  destruct (cpu_count (self w)) as [|m]; [reflexivity|].
  rewrite seq_snoc, map_app; cbn [map]; f_equal.
  - assert (M : m * step < N) by (apply K; lia).
    clear K; induction m as [|m IH]; [reflexivity|].
    change (repeat false (S m)) with (false :: repeat false m).
    rewrite seq_snoc, map_app, repeat_cons; cbn [map]; f_equal.
    + apply IH; lia.
    + f_equal; apply Nat.ltb_ge; lia.
  - f_equal.
    assert (M : m * step < N) by (apply K; lia).
    assert (U : N <= S m * step).
    { destruct (Nat.le_gt_cases N (S m * step)) as [U|U]; [exact U|].
      apply K in U; lia. }
    destruct (N mod step =? 0) eqn:D.
    + apply Nat.eqb_eq in D; cbn [negb]; apply Nat.ltb_ge.
      apply Nat.Div0.mod_divides in D; destruct D as [q D].
      assert (Q : m < q) by nia.
      nia.
    + apply Nat.eqb_neq in D; cbn [negb]; apply Nat.ltb_lt.
      assert (Ne : N <> S m * step).
      { intros C; apply D; rewrite C; apply Nat.Div0.mod_mul. }
      simpl in *; lia.
Qed.

(** X7 at ten and at eight samples, snippet size four and no overlap. *)
Lemma X7_witness :
  final_marks false
    (log (world_of (pipeline_CPU Example.X
       (Example.world (Example.pipeline 10 4 0 false) empty_dir))))
  = [false; false; true]
  /\ final_marks false
       (log (world_of (pipeline_CPU Example.X
          (Example.world (Example.pipeline 8 4 0 false) empty_dir))))
     = [false; false].
Proof.
  assert (G : forall n,
             is_done (pipeline_CPU Example.X
                        (Example.world (Example.pipeline n 4 0 false) empty_dir)) = true).
  { intros n; apply pipeline_CPU_total; try reflexivity;
      [cbn; lia|apply Example_engine_total|discriminate]. }
  split.
  - destruct (is_done_inv _ (G 10)) as [w' E]; rewrite E; cbn [world_of].
    assert (O : Spectrogram.noverlap (Spec (self
                  (Example.world (Example.pipeline 10 4 0 false) empty_dir)))
                < Spectrogram.snippet_size (Spec (self
                  (Example.world (Example.pipeline 10 4 0 false) empty_dir))))
      by (cbn; lia).
    rewrite (X7_cpu_loop_marks_the_last_window_unless_step_divides
               Example.X _ w' O eq_refl E).
    reflexivity.
  - destruct (is_done_inv _ (G 8)) as [w' E]; rewrite E; cbn [world_of].
    assert (O : Spectrogram.noverlap (Spec (self
                  (Example.world (Example.pipeline 8 4 0 false) empty_dir)))
                < Spectrogram.snippet_size (Spec (self
                  (Example.world (Example.pipeline 8 4 0 false) empty_dir))))
      by (cbn; lia).
    rewrite (X7_cpu_loop_marks_the_last_window_unless_step_divides
               Example.X _ w' O eq_refl E).
    reflexivity.
Defined.

(** X8.  The GPU loop of a pipeline whose [get_signals] is off computes
    spectrograms only.  For a positive snippet size it ends normally,
    never calls [extract_snippet_signals], and leaves the four sequences
    and the two stage flags as they are, unless the verbosity is 3 and
    the shape given to the constructor is shorter than a snippet: then
    the progress message of the first block divides by zero, and a loop
    over a data set that yields a block ends by a [ZeroDivisionError]
    (for a shape below [2 ^ 53], where the quotient of the loop is the
    one taken here). *)
Theorem X8_gpu_loop_without_signals_only_computes_spectrograms
    (X : Externals) (w : World) :
  _get_signals (self w) = false ->
  0 < Spectrogram.snippet_size (Spec (self w)) ->
  ((verbose (self w) = 3 ->
    Spectrogram.snippet_size (Spec (self w)) <= fst (data_shape (self w))) ->
   exists w',
     pipeline_GPU X w = Done w' /\
     count_events is_extract (log w') = count_events is_extract (log w) /\
     _get_signals (self w') = false /\ do_tracking (self w') = do_tracking (self w) /\
     _fund_v (self w') = _fund_v (self w) /\ _idx_v (self w') = _idx_v (self w) /\
     _sign_v (self w') = _sign_v (self w) /\ ident_v (self w') = ident_v (self w))
  /\ (verbose (self w) = 3 ->
      fst (data_shape (self w)) < Spectrogram.snippet_size (Spec (self w)) ->
      (Z.of_nat (fst (data_shape (self w))) < 2 ^ 53)%Z ->
      dataset (self w) <> [] ->
      exists w',
        pipeline_GPU X w = Raised ZeroDivisionError w' /\
        count_events is_extract (log w') = count_events is_extract (log w)).
Proof.
  intros G S; unfold pipeline_GPU, raising, floordiv.
  destruct (Z.of_nat (Spectrogram.snippet_size (Spec (self w))) =? 0)%Z eqn:E;
    [apply Z.eqb_eq in E; lia|].
  rewrite <- Nat2Z.inj_div.
  split.
  - intros V; apply gpu_loop_skips_extraction; [exact G|].
    unfold progress_message.
    destruct (verbose (self w) =? 3) eqn:V3; [|reflexivity].
    apply Nat.eqb_eq in V3; specialize (V V3).
    destruct (Z.of_nat (fst (data_shape (self w))
                        / Spectrogram.snippet_size (Spec (self w))) =? 0)%Z eqn:Z0;
      [|reflexivity].
    apply Z.eqb_eq in Z0; exfalso.
    assert (Q : fst (data_shape (self w))
                / Spectrogram.snippet_size (Spec (self w)) = 0) by lia.
    apply Nat.div_small_iff in Q; lia.
  - intros V N _ D.
    rewrite Nat.div_small by exact N.
    destruct (dataset (self w)) as [|b r]; [congruence|].
    cbn [gpu_loop]; unfold seqM at 1; unfold gpu_iteration, seqM at 1.
    destruct (gpu_block_skips_extraction X b w G)
      as [w2 [E2 [C2 [_ [_ [_ [_ [_ [_ V2]]]]]]]]].
    rewrite E2; unfold report_progress, raising, progress_message.
    rewrite V2, V; cbn.
    exists w2; split; [reflexivity|exact C2].
Qed.

(** X8 at a pipeline loaded from a checkpoint. *)
Lemma X8_witness :
  exists w',
    pipeline_GPU Example.X
      (Example.world
         (set__get_signals false
            (set__fund_v (NdArray [300%Q]) (Example.pipeline 8 4 0 true)))
         Example.untracked) = Done w' /\
    count_events is_extract (log w') = 0 /\
    _fund_v (self w') = NdArray [300%Q].
Proof.
  destruct (X8_gpu_loop_without_signals_only_computes_spectrograms
              Example.X
              (Example.world
                 (set__get_signals false
                    (set__fund_v (NdArray [300%Q]) (Example.pipeline 8 4 0 true)))
                 Example.untracked)
              eq_refl ltac:(cbn; lia))
    as [H _].
  destruct (H ltac:(discriminate)) as [w' [E [C [_ [_ [F _]]]]]].
  exists w'; split; [exact E|split; [exact C|exact F]].
Defined.

Section GpuMarks.

Variable X : Externals.
Hypothesis counts : engine_counts X.

Lemma gpu_block_marks (block : list (list Q)) (w w' : World) :
  gpu_block X block w = Done w' ->
  Spectrogram.itter_count (Spec (self w'))
    = (Spectrogram.itter_count (Spec (self w)) + 1)%Z /\
  data (self w') = data (self w) /\
  Spectrogram.snippet_size (Spec (self w')) = Spectrogram.snippet_size (Spec (self w)) /\
  count_events is_set_terminate (log w')
    = count_events is_set_terminate (log w)
      + (if gpu_is_last (self w) then 1 else 0).
Proof.
  unfold gpu_block, seqM.
  set (w1 := world_of (if gpu_is_last (self w) then set_terminate w else Done w)).
  assert (H1 : (if gpu_is_last (self w) then set_terminate w else Done w) = Done w1)
    by (unfold w1; destruct (gpu_is_last _); reflexivity).
  rewrite H1.
  set (w2 := world_of (call_engine X (block_T (self w1) block) (gpu_t0 (self w1)) w1)).
  change (call_engine X (block_T (self w1) block) (gpu_t0 (self w1)) w1)
    with (Done w2).
  cbv iota beta.
  assert (L2 : Spectrogram.itter_count (Spec (self w2))
               = (Spectrogram.itter_count (Spec (self w)) + 1)%Z
               /\ data (self w2) = data (self w)
               /\ Spectrogram.snippet_size (Spec (self w2))
                  = Spectrogram.snippet_size (Spec (self w))
               /\ count_events is_set_terminate (log w2)
                  = count_events is_set_terminate (log w)
                    + (if gpu_is_last (self w) then 1 else 0)).
  { unfold w2, w1, count_events; destruct (gpu_is_last _); cbn;
      rewrite counts, ?filter_app, ?length_app; cbn; repeat split; lia. }
  destruct L2 as [I2 [D2 [S2 C2]]].
  destruct (_get_signals (self w2)).
  - intros E.
    destruct (extract_done_inv X w2 w' E)
      as [c [_ [_ [_ [_ [_ [_ [_ [Fr [Lg _]]]]]]]]]].
    destruct Fr as [D [_ [_ [_ [_ [_ [Sp _]]]]]]].
    rewrite Lg, count_events_app, Sp, D.
    change (count_events is_set_terminate [ExtractSnippetSignals]) with 0.
    repeat split; try assumption; lia.
  - intros E; inversion E; subst; repeat split; assumption.
Qed.

Lemma gpu_iteration_marks (iterations : Z) (block : list (list Q)) (w w' : World) :
  gpu_iteration X iterations block w = Done w' ->
  Spectrogram.itter_count (Spec (self w'))
    = (Spectrogram.itter_count (Spec (self w)) + 1)%Z /\
  data (self w') = data (self w) /\
  Spectrogram.snippet_size (Spec (self w')) = Spectrogram.snippet_size (Spec (self w)) /\
  count_events is_set_terminate (log w')
    = count_events is_set_terminate (log w)
      + (if gpu_is_last (self w) then 1 else 0).
Proof.
  intros H; apply (gpu_block_marks block), (gpu_iteration_inv X _ _ _ _ H).
Qed.

(** Before the [break] no block is marked. *)
Lemma gpu_loop_marks_before_break (q : nat) (blocks : list (list (list Q))) :
  forall enu w w',
    enu < q ->
    Spectrogram.itter_count (Spec (self w)) = Z.of_nat enu ->
    shape0 (data (self w)) / Spectrogram.snippet_size (Spec (self w)) = q ->
    gpu_loop X (Z.of_nat q) enu blocks w = Done w' ->
    count_events is_set_terminate (log w') = count_events is_set_terminate (log w).
Proof.
  induction blocks as [|b r IH]; intros enu w w' Q I N H.
  - inversion H; reflexivity.
  - cbn [gpu_loop] in H; unfold seqM in H.
    destruct (gpu_iteration X (Z.of_nat q) b w) as [w1|e w1] eqn:E; [|discriminate].
    destruct (gpu_iteration_marks _ b w w1 E) as [I1 [D1 [S1 C1]]].
    assert (L : gpu_is_last (self w) = false).
    { unfold gpu_is_last; rewrite <- Nat2Z.inj_div, N, I; apply Z.eqb_neq; lia. }
    rewrite L, Nat.add_0_r in C1.
    destruct (Z.of_nat enu =? Z.of_nat q - 1)%Z eqn:B.
    + inversion H; subst; exact C1.
    + apply Z.eqb_neq in B.
      rewrite <- C1; apply (IH (S enu) w1 w'); try assumption; try lia.
      rewrite D1, S1; exact N.
Qed.

(** Without a [break] the block whose number is [N // S] is marked. *)
Lemma gpu_loop_marks_without_break (q : nat) (blocks : list (list (list Q))) :
  forall enu w w',
    q <= enu ->
    Spectrogram.itter_count (Spec (self w)) = Z.of_nat enu ->
    shape0 (data (self w)) / Spectrogram.snippet_size (Spec (self w)) = q ->
    gpu_loop X (Z.of_nat q) enu blocks w = Done w' ->
    count_events is_set_terminate (log w')
    = count_events is_set_terminate (log w)
      + (if (enu =? q) && negb (length blocks =? 0) then 1 else 0).
Proof.
  induction blocks as [|b r IH]; intros enu w w' Q I N H.
  - inversion H; rewrite andb_false_r; lia.
  - cbn [gpu_loop] in H; unfold seqM in H.
    destruct (gpu_iteration X (Z.of_nat q) b w) as [w1|e w1] eqn:E; [|discriminate].
    destruct (gpu_iteration_marks _ b w w1 E) as [I1 [D1 [S1 C1]]].
    assert (L : gpu_is_last (self w) = (enu =? q)).
    { unfold gpu_is_last; rewrite <- Nat2Z.inj_div, N, I.
      destruct (enu =? q) eqn:Eq.
      - apply Nat.eqb_eq in Eq; apply Z.eqb_eq; lia.
      - apply Nat.eqb_neq in Eq; apply Z.eqb_neq; lia. }
    rewrite L in C1.
    destruct (Z.of_nat enu =? Z.of_nat q - 1)%Z eqn:B;
      [apply Z.eqb_eq in B; lia|].
    rewrite (IH (S enu) w1 w'); try assumption; try lia;
      [|rewrite D1, S1; exact N].
    assert (F : (S enu =? q) = false) by (apply Nat.eqb_neq; lia).
    rewrite F, C1; change (length (b :: r) =? 0) with false.
    cbn [andb negb]; rewrite andb_true_r; lia.
Qed.

End GpuMarks.

(** X9.  Let the engine count its calls from zero and the shape given to
    the constructor be that of the recording.  A GPU loop that ends
    normally never sets [terminate] when the recording holds at least
    one snippet size of samples; when it holds fewer, the loop sets it
    once, before the first block of the data set. *)
Theorem X9_gpu_loop_marks_no_block_of_a_recording_that_fills_a_snippet
    (X : Externals) (w w' : World) :
  engine_counts X ->
  0 < Spectrogram.snippet_size (Spec (self w)) ->
  fst (data_shape (self w)) = shape0 (data (self w)) ->
  Spectrogram.itter_count (Spec (self w)) = 0%Z ->
  pipeline_GPU X w = Done w' ->
  count_events is_set_terminate (log w')
  = count_events is_set_terminate (log w)
    + (if (shape0 (data (self w)) <? Spectrogram.snippet_size (Spec (self w)))
          && negb (length (dataset (self w)) =? 0)
       then 1 else 0).
Proof.
  intros C S Sh I; unfold pipeline_GPU, raising, floordiv.
  destruct (Z.of_nat (Spectrogram.snippet_size (Spec (self w))) =? 0)%Z eqn:E;
    [apply Z.eqb_eq in E; lia|].
  rewrite Sh, <- Nat2Z.inj_div.
  set (q := shape0 (data (self w)) / Spectrogram.snippet_size (Spec (self w))).
  intros H.
  destruct (shape0 (data (self w)) <? Spectrogram.snippet_size (Spec (self w))) eqn:Lt.
  - apply Nat.ltb_lt in Lt.
    assert (Q : q = 0) by (apply Nat.div_small; exact Lt).
    rewrite (gpu_loop_marks_without_break X C q (dataset (self w)) 0 w w');
      try assumption; try lia; try reflexivity.
    rewrite Q; reflexivity.
  - apply Nat.ltb_ge in Lt.
    assert (Q : 0 < q) by (apply Nat.div_str_pos; lia).
    rewrite (gpu_loop_marks_before_break X C q (dataset (self w)) 0 w w');
      try assumption; try lia; try reflexivity.
    cbn [andb]; lia.
Qed.

Lemma Example_engine_counts : engine_counts Example.X.
Proof. intros s snippet t0; reflexivity. Qed.

(** X9 at eight samples and a snippet size of four. *)
Lemma X9_witness :
  count_events is_set_terminate
    (log (world_of (pipeline_GPU Example.X
       (Example.world (Example.pipeline 8 4 0 true) empty_dir)))) = 0.
Proof.
  destruct (pipeline_GPU Example.X
              (Example.world (Example.pipeline 8 4 0 true) empty_dir))
    as [w'|e w'] eqn:E; [|vm_compute in E; discriminate].
  cbn [world_of].
  assert (S : 0 < Spectrogram.snippet_size (Spec (self
                (Example.world (Example.pipeline 8 4 0 true) empty_dir))))
    by (cbn; lia).
  rewrite (X9_gpu_loop_marks_no_block_of_a_recording_that_fills_a_snippet
             Example.X _ w' Example_engine_counts S eq_refl eq_refl E).
  reflexivity.
Defined.

(** ** The constructor and [run] *)

(** X10.  A save directory that holds [fund_v.npy] and lacks one of the
    other four files makes the constructor raise a [FileNotFoundError];
    a directory that lacks [fund_v.npy] is taken for empty, whatever
    else it holds. *)
Theorem X10_constructor_on_a_partial_checkpoint
    (data0 : DataLoader) (samplerate0 : Q) (dataset0 : list (list (list Q)))
    (data_shape0 : nat * nat) (verbose0 : nat)
    (gpu_use0 : bool) (core_count0 : nat)
    (spec0 : Spectrogram.t) (d : SaveDir) :
  match fund_v_npy d with
  | Some _ =>
      match idx_v_npy d, sign_v_npy d, ident_v_npy d, times_npy d with
      | Some _, Some _, Some _, Some _ =>
          is_ok (__init__ data0 samplerate0 dataset0 data_shape0 verbose0 gpu_use0
                          core_count0 spec0 d) = true
      | _, _, _, _ =>
          __init__ data0 samplerate0 dataset0 data_shape0 verbose0 gpu_use0
                   core_count0 spec0 d = Err FileNotFoundError
      end
  | None =>
      __init__ data0 samplerate0 dataset0 data_shape0 verbose0 gpu_use0 core_count0 spec0 d
      = __init__ data0 samplerate0 dataset0 data_shape0 verbose0 gpu_use0 core_count0 spec0
                 empty_dir
  end.
Proof.
  unfold __init__.
  destruct (fund_v_npy d) as [f|]; [|reflexivity].
  destruct (idx_v_npy d) as [i|]; [|reflexivity].
  destruct (sign_v_npy d) as [s|]; [|reflexivity].
  destruct (ident_v_npy d) as [l|]; [|reflexivity].
  destruct (times_npy d) as [t|]; reflexivity.
Qed.

Section RunFacts.

Variable X : Externals.

Ltac count_tac :=
  unfold count_events; cbn; rewrite ?filter_app, ?length_app; cbn; lia.

Lemma kept_refl (w : World) : kept w w.
Proof. repeat split; auto. Qed.

Lemma kept_trans (w1 w2 w3 : World) : kept w1 w2 -> kept w2 w3 -> kept w1 w3.
Proof.
  intros [A [B [C [D F]]]] [A' [B' [C' [D' F']]]]; repeat split; try congruence; auto.
Qed.

Lemma untracked_full (n : nat) : forallb isnan (items (np_full_nan n)) = true.
Proof.
  unfold np_full_nan; cbn [items]; induction n; [reflexivity|exact IHn].
Qed.

Lemma extract_kept (w w' : World) :
  extract_snippet_signals X w = Done w' -> kept w w'.
Proof.
  intros E.
  destruct (extract_done_inv X w w' E) as [c [_ [_ [_ [_ [_ [_ [Id [Fr [Lg D]]]]]]]]]].
  destruct Fr as [_ [_ [_ [_ [_ [_ [_ [G [T _]]]]]]]]].
  repeat split; try assumption.
  - rewrite Lg; count_tac.
  - intros _; unfold untracked; rewrite Id; apply untracked_full.
Qed.

Lemma cpu_window_kept (i0 : Z) (w w' : World) :
  cpu_window X i0 w = Done w' -> kept w w'.
Proof.
  unfold cpu_window, seqM, raising.
  set (w1 := world_of (if cpu_is_last (self w) i0 then set_terminate w else Done w)).
  assert (H1 : (if cpu_is_last (self w) i0 then set_terminate w else Done w)
               = Done w1) by (unfold w1; destruct (cpu_is_last _ _); reflexivity).
  assert (K1 : kept w w1)
    by (unfold w1; destruct (cpu_is_last _ _); repeat split; auto;
        count_tac).
  rewrite H1.
  destruct (cpu_snippet (self w1) i0) as [snippet|e]; [|discriminate].
  set (w2 := world_of (call_engine X snippet (cpu_t0 (self w1) i0) w1)).
  change (call_engine X snippet (cpu_t0 (self w1) i0) w1) with (Done w2).
  assert (K2 : kept w1 w2)
    by (repeat split; auto; unfold w2; count_tac).
  intros E; apply (kept_trans _ _ _ K1), (kept_trans _ _ _ K2), extract_kept, E.
Qed.

Lemma cpu_iteration_kept (iterations i0 : Z) (w w' : World) :
  cpu_iteration X iterations i0 w = Done w' -> kept w w'.
Proof.
  intros E; destruct (cpu_iteration_inv X _ _ _ _ E) as [W _].
  apply (cpu_window_kept i0), W.
Qed.

Lemma gpu_block_kept (block : list (list Q)) (w w' : World) :
  gpu_block X block w = Done w' -> kept w w'.
Proof.
  unfold gpu_block, seqM.
  set (w1 := world_of (if gpu_is_last (self w) then set_terminate w else Done w)).
  assert (H1 : (if gpu_is_last (self w) then set_terminate w else Done w) = Done w1)
    by (unfold w1; destruct (gpu_is_last _); reflexivity).
  assert (K1 : kept w w1)
    by (unfold w1; destruct (gpu_is_last _); repeat split; auto;
        count_tac).
  rewrite H1.
  set (w2 := world_of (call_engine X (block_T (self w1) block) (gpu_t0 (self w1)) w1)).
  change (call_engine X (block_T (self w1) block) (gpu_t0 (self w1)) w1)
    with (Done w2).
  cbv iota beta.
  assert (K2 : kept w1 w2)
    by (repeat split; auto; unfold w2; count_tac).
  destruct (_get_signals (self w2)).
  - intros E; apply (kept_trans _ _ _ K1), (kept_trans _ _ _ K2), extract_kept, E.
  - intros E; inversion E; subst; apply (kept_trans _ _ _ K1), K2.
Qed.

Lemma gpu_iteration_kept (iterations : Z) (block : list (list Q)) (w w' : World) :
  gpu_iteration X iterations block w = Done w' -> kept w w'.
Proof.
  intros E; destruct (gpu_iteration_inv X _ _ _ _ E) as [W _].
  apply (gpu_block_kept block), W.
Qed.

Lemma pipeline_CPU_kept (w w' : World) : pipeline_CPU X w = Done w' -> kept w w'.
Proof.
  unfold pipeline_CPU, raising.
  destruct (floordiv _ _) as [iterations|e]; [|discriminate].
  destruct (np_arange _ _) as [starts|e]; [|discriminate].
  revert w; induction starts as [|i0 r IH]; intros w H.
  - inversion H; apply kept_refl.
  - cbn [for_each] in H; unfold seqM in H.
    destruct (cpu_iteration X iterations i0 w) as [w1|e w1] eqn:E; [|discriminate].
    apply (kept_trans _ _ _ (cpu_iteration_kept iterations i0 w w1 E)), IH, H.
Qed.

Lemma pipeline_GPU_kept (w w' : World) : pipeline_GPU X w = Done w' -> kept w w'.
Proof.
  unfold pipeline_GPU, raising.
  destruct (floordiv _ _) as [iterations|e]; [|discriminate].
  generalize 0 as enu; generalize (dataset (self w)) as blocks.
  intros blocks; revert w; induction blocks as [|b r IH]; intros w enu H.
  - inversion H; apply kept_refl.
  - cbn [gpu_loop] in H; unfold seqM in H.
    destruct (gpu_iteration X iterations b w) as [w1|e w1] eqn:E; [|discriminate].
    apply (kept_trans _ _ _ (gpu_iteration_kept iterations b w w1 E)).
    destruct (Z.of_nat enu =? iterations - 1)%Z.
    + inversion H; apply kept_refl.
    + apply (IH w1 (S enu) H).
Qed.

(** A [run] that ends normally, taken apart. *)
Lemma run_done_inv (w w' : World) :
  run X w = Done w' ->
  if _get_signals (self w) || Spectrogram.get_fine_spec (Spec (self w))
     || Spectrogram.get_sparse_spec (Spec (self w))
  then exists w0,
         (if gpu_use (self w) then pipeline_GPU X else pipeline_CPU X) w = Done w0 /\
         kept w w0 /\
         tracking_handoff X (saved_with_times w0) = Done w'
  else tracking_handoff X w = Done w'.
Proof.
  unfold run, seqM.
  destruct (_get_signals (self w) || Spectrogram.get_fine_spec (Spec (self w))
            || Spectrogram.get_sparse_spec (Spec (self w))) eqn:C.
  - destruct ((if gpu_use (self w) then pipeline_GPU X else pipeline_CPU X) w)
      as [w0|e w0] eqn:L; [|discriminate].
    assert (K : kept w w0).
    { destruct (gpu_use (self w));
        [apply pipeline_GPU_kept|apply pipeline_CPU_kept]; exact L. }
    unfold pure; rewrite save_spec.
    destruct (sign_v_ok _); [|discriminate].
    intros H; exists w0; split; [reflexivity|split; [exact K|exact H]].
  - intros H; exact H.
Qed.

(** A hand-off to the tracking stage that ends normally, taken apart. *)
Lemma tracking_handoff_done (w w' : World) :
  tracking_handoff X w = Done w' ->
  if do_tracking (self w)
  then disk w' = checkpoint_of (self w') /\
       do_tracking (self w') = true /\
       count_events is_tracking (log w') = S (count_events is_tracking (log w))
  else w' = w.
Proof.
  rewrite tracking_handoff_spec.
  destruct (do_tracking (self w)) eqn:T.
  - destruct (sign_v_ok (self w)); [|discriminate].
    intros H; inversion H; subst w'; clear H.
    split; [reflexivity|split; [cbn; exact T|unfold tracked, saved; count_tac]].
  - intros H; inversion H; reflexivity.
Qed.

Lemma run_mirrors (w w' : World) :
  run X w = Done w' -> has_work (self w) = true -> disk w' = checkpoint_of (self w').
Proof.
  intros R H; pose proof (run_done_inv w w' R) as I.
  unfold has_work in H.
  destruct (_get_signals (self w) || Spectrogram.get_fine_spec (Spec (self w))
            || Spectrogram.get_sparse_spec (Spec (self w))).
  - destruct I as [w0 [_ [_ T]]].
    pose proof (tracking_handoff_done _ _ T) as D.
    destruct (do_tracking (self (saved_with_times w0)));
      [apply D|subst w'; reflexivity].
  - cbn [orb] in H.
    pose proof (tracking_handoff_done _ _ I) as D.
    rewrite H in D; apply D.
Qed.

Lemma unsaved_refl (w : World) : unsaved w w.
Proof. repeat split. Qed.

Lemma unsaved_trans (w1 w2 w3 : World) :
  unsaved w1 w2 -> unsaved w2 w3 -> unsaved w1 w3.
Proof. intros [A [B C]] [A' [B' C']]; repeat split; congruence. Qed.

Lemma quiet_seq (m k : M) : quiet m -> quiet k -> quiet (m ;; k).
Proof.
  intros Hm Hk w; specialize (Hm w); unfold seqM.
  destruct (m w) as [w1|e w1]; cbn [world_of] in *; [|exact Hm].
  apply (unsaved_trans _ _ _ Hm), Hk.
Qed.

Lemma quiet_raising {A : Type} (r : World -> result A) (k : A -> M) :
  (forall a, quiet (k a)) -> quiet (raising r k).
Proof.
  intros Hk w; unfold raising.
  destruct (r w) as [a|e]; [apply Hk|apply unsaved_refl].
Qed.

Lemma quiet_set_terminate : quiet set_terminate.
Proof. intros w; repeat split; count_tac. Qed.

Lemma quiet_call_engine (snippet : list (list Q)) (t0 : Q) :
  quiet (call_engine X snippet t0).
Proof. intros w; repeat split; count_tac. Qed.

Lemma quiet_extract : quiet (extract_snippet_signals X).
Proof.
  intros w; destruct (extract_frame X w) as [_ [L D]].
  repeat split; [exact D| |]; rewrite L, count_events_app; cbn; lia.
Qed.

Lemma quiet_report_progress (iterations : Z) : quiet (report_progress iterations).
Proof.
  unfold report_progress; apply quiet_raising; intros _ w; apply unsaved_refl.
Qed.

Lemma quiet_cpu_iteration (iterations i0 : Z) : quiet (cpu_iteration X iterations i0).
Proof.
  unfold cpu_iteration, cpu_window.
  apply quiet_seq; [|apply quiet_report_progress].
  apply quiet_seq; [|apply quiet_seq; [|apply quiet_extract]].
  - intros w; destruct (cpu_is_last (self w) i0);
      [apply quiet_set_terminate|apply unsaved_refl].
  - apply quiet_raising; intros snippet w; apply quiet_call_engine.
Qed.

Lemma quiet_gpu_iteration (iterations : Z) (block : list (list Q)) :
  quiet (gpu_iteration X iterations block).
Proof.
  unfold gpu_iteration, gpu_block.
  apply quiet_seq; [|apply quiet_report_progress].
  apply quiet_seq; [|apply quiet_seq].
  - intros w; destruct (gpu_is_last (self w));
      [apply quiet_set_terminate|apply unsaved_refl].
  - intros w; apply quiet_call_engine.
  - intros w; destruct (_get_signals (self w));
      [apply quiet_extract|apply unsaved_refl].
Qed.

Lemma quiet_pipeline_CPU : quiet (pipeline_CPU X).
Proof.
  unfold pipeline_CPU.
  apply quiet_raising; intros iterations.
  apply quiet_raising; intros starts.
  induction starts as [|i0 r IH]; [intros w; apply unsaved_refl|].
  cbn [for_each]; apply quiet_seq; [apply quiet_cpu_iteration|exact IH].
Qed.

Lemma quiet_gpu_loop (iterations : Z) (blocks : list (list (list Q))) (enu : nat) :
  quiet (gpu_loop X iterations enu blocks).
Proof.
  revert enu; induction blocks as [|b r IH]; intros enu;
    [intros w; apply unsaved_refl|].
  cbn [gpu_loop]; apply quiet_seq; [apply quiet_gpu_iteration|].
  intros w; destruct (Z.of_nat enu =? iterations - 1)%Z;
    [apply unsaved_refl|apply IH].
Qed.

Lemma quiet_pipeline_GPU : quiet (pipeline_GPU X).
Proof.
  unfold pipeline_GPU.
  apply quiet_raising; intros iterations w; apply quiet_gpu_loop.
Qed.

Lemma run_raised_in_the_loop (w w' : World) (e : exn) :
  _get_signals (self w) || Spectrogram.get_fine_spec (Spec (self w))
  || Spectrogram.get_sparse_spec (Spec (self w)) = true ->
  (if gpu_use (self w) then pipeline_GPU X else pipeline_CPU X) w = Raised e w' ->
  run X w = Raised e w' /\ unsaved w w'.
Proof.
  intros C L; split.
  - unfold run, seqM; rewrite C, L; reflexivity.
  - destruct (gpu_use (self w)).
    + pose proof (quiet_pipeline_GPU w) as Q; rewrite L in Q; exact Q.
    + pose proof (quiet_pipeline_CPU w) as Q; rewrite L in Q; exact Q.
Qed.

Lemma run_tracking_count (w w' : World) :
  run X w = Done w' ->
  do_tracking (self w') = do_tracking (self w) /\
  count_events is_tracking (log w')
  = count_events is_tracking (log w) + (if do_tracking (self w) then 1 else 0).
Proof.
  intros R; pose proof (run_done_inv w w' R) as I.
  assert (G : forall v v',
             tracking_handoff X v = Done v' ->
             do_tracking (self v') = do_tracking (self v) /\
             count_events is_tracking (log v')
             = count_events is_tracking (log v)
               + (if do_tracking (self v) then 1 else 0)).
  { intros v v' H; pose proof (tracking_handoff_done _ _ H) as D.
    destruct (do_tracking (self v)) eqn:T.
    - destruct D as [_ [D1 D2]]; split; [exact D1|lia].
    - subst v'; split; [exact T|lia]. }
  destruct (_get_signals (self w) || Spectrogram.get_fine_spec (Spec (self w))
            || Spectrogram.get_sparse_spec (Spec (self w))).
  - destruct I as [w0 [_ [[A [_ [_ [C _]]]] T]]].
    destruct (G _ _ T) as [G1 G2].
    assert (D : do_tracking (self (saved_with_times w0)) = do_tracking (self w))
      by (cbn; exact A).
    assert (L : count_events is_tracking (log (saved_with_times w0))
                = count_events is_tracking (log w))
      by (rewrite <- C; unfold saved_with_times; count_tac).
    rewrite D in G1, G2; rewrite L in G2; split; assumption.
  - apply G, I.
Qed.

Lemma run_untracked (w w' : World) :
  run X w = Done w' ->
  _get_signals (self w) = true ->
  do_tracking (self w) = false ->
  untracked (self w) = true ->
  exists w0,
    w' = saved_with_times w0 /\ kept w w0.
Proof.
  intros R G T U; pose proof (run_done_inv w w' R) as I.
  rewrite G in I; cbn [orb] in I.
  destruct I as [w0 [_ [K H]]]; exists w0; split; [|exact K].
  destruct K as [A _].
  pose proof (tracking_handoff_done _ _ H) as D'.
  assert (D : do_tracking (self (saved_with_times w0)) = false)
    by (cbn; rewrite A; exact T).
  rewrite D in D'; exact D'.
Qed.

End RunFacts.

(** X11.  A [run] that had a stage to do and ends normally leaves the
    save directory as the mirror of the pipeline: the five files hold
    the items of the five sequences, whatever the directory held. *)
Theorem X11_run_leaves_the_directory_mirroring_the_pipeline
    (X : Externals) (w w' : World) :
  has_work (self w) = true ->
  run X w = Done w' ->
  disk w' = checkpoint_of (self w').
Proof. intros H R; apply (run_mirrors X w w' R H). Qed.

(** X11 at a new pipeline over eight samples on the CPU path. *)
Lemma X11_witness :
  exists w',
    run Example.X (Example.world (Example.pipeline 8 4 0 false) empty_dir) = Done w' /\
    disk w' = checkpoint_of (self w').
Proof.
  destruct (run Example.X (Example.world (Example.pipeline 8 4 0 false) empty_dir))
    as [w'|e w'] eqn:E; [|vm_compute in E; discriminate].
  exists w'; split; [reflexivity|].
  exact (X11_run_leaves_the_directory_mirroring_the_pipeline
           Example.X (Example.world (Example.pipeline 8 4 0 false) empty_dir) w'
           eq_refl E).
Defined.

(** X12.  An exception of the snippet loop ends the [run] that entered
    the loop: the two lines after the loop and the tracking stage are
    skipped, so none of the five files of the save directory is written,
    [save] is not called and the tracker is not called, whether
    [do_tracking] is set or not. *)
Theorem X12_an_exception_of_the_loop_ends_the_run_unsaved
    (X : Externals) (w w' : World) (e : exn) :
  _get_signals (self w) || Spectrogram.get_fine_spec (Spec (self w))
  || Spectrogram.get_sparse_spec (Spec (self w)) = true ->
  (if gpu_use (self w) then pipeline_GPU X else pipeline_CPU X) w = Raised e w' ->
  run X w = Raised e w' /\
  disk w' = disk w /\
  count_events is_save (log w') = count_events is_save (log w) /\
  count_events is_tracking (log w') = count_events is_tracking (log w).
Proof. intros C L; exact (run_raised_in_the_loop X w w' e C L). Qed.

(** X12 at a pipeline that holds the arrays of a checkpoint, with the
    fine spectrogram asked for, on the CPU path: the loop raises, and the
    checkpoint is as it was. *)
Lemma X12_witness :
  exists w',
    run Example.X
      (Example.world
         (set_get_signals (PyBool false)
            (set_times (NdArray [0%Q])
               (set_ident_v (NdArray [NaN])
                  (set__sign_v (NdArray [[1%Q; 2%Q]])
                     (set__idx_v (NdArray [0%Z])
                        (set__fund_v (NdArray [300%Q])
                           (set_Spec (Example.engine0 4 0 true)
                              (Example.pipeline 8 4 0 false))))))))
         Example.untracked)
    = Raised AttributeError w' /\
    disk w' = Example.untracked /\
    count_events is_tracking (log w') = 0.
Proof.
  destruct (pipeline_CPU Example.X
      (Example.world
         (set_get_signals (PyBool false)
            (set_times (NdArray [0%Q])
               (set_ident_v (NdArray [NaN])
                  (set__sign_v (NdArray [[1%Q; 2%Q]])
                     (set__idx_v (NdArray [0%Z])
                        (set__fund_v (NdArray [300%Q])
                           (set_Spec (Example.engine0 4 0 true)
                              (Example.pipeline 8 4 0 false))))))))
         Example.untracked)) as [w'|e w'] eqn:E; [vm_compute in E; discriminate|].
  assert (e = AttributeError) by (vm_compute in E; congruence); subst e.
  match type of E with
  | pipeline_CPU _ ?w = _ =>
      destruct (X12_an_exception_of_the_loop_ends_the_run_unsaved
                  Example.X w w' AttributeError eq_refl E) as [R [D [_ T]]]
  end.
  exists w'; split; [exact R|split; [exact D|exact T]].
Defined.

(** X13.  A [run] that ends normally calls the tracking stage once if
    [do_tracking] was set when it began and not at all otherwise,
    whatever the snippet loop did in between; it leaves [do_tracking] as
    it was, so that a second [run] of the same pipeline tracks again. *)
Theorem X13_run_tracks_exactly_when_do_tracking_was_set
    (X : Externals) (w w' : World) :
  run X w = Done w' ->
  do_tracking (self w') = do_tracking (self w) /\
  count_events is_tracking (log w')
  = count_events is_tracking (log w) + (if do_tracking (self w) then 1 else 0).
Proof. apply run_tracking_count. Qed.

(** X13 at a new pipeline over eight samples on the GPU path. *)
Lemma X13_witness :
  exists w',
    run Example.X (Example.world (Example.pipeline 8 4 0 true) empty_dir) = Done w' /\
    count_events is_tracking (log w') = 1.
Proof.
  destruct (run Example.X (Example.world (Example.pipeline 8 4 0 true) empty_dir))
    as [w'|e w'] eqn:E; [|vm_compute in E; discriminate].
  exists w'; split; [reflexivity|].
  exact (proj2 (X13_run_tracks_exactly_when_do_tracking_was_set
                  Example.X
                  (Example.world (Example.pipeline 8 4 0 true) empty_dir) w' E)).
Defined.

(** X14.  The option [--renew] on a pipeline whose tracking is off, as
    the constructor leaves it over a tracked checkpoint: a [run] that
    ends normally has extracted anew and has not tracked, the identities
    it saved are all unassigned, and a pipeline constructed over the
    save directory afterwards skips the extraction and tracks. *)
Theorem X14_renew_of_a_tracked_checkpoint_leaves_it_untracked
    (X : Externals) (nosave : bool) (p : AnalysisPipeline) (w w' : World) :
  do_tracking p = false ->
  self w = main_flags true nosave p ->
  run X w = Done w' ->
  count_events is_tracking (log w') = count_events is_tracking (log w) /\
  disk w' = checkpoint_of (self w') /\
  untracked (self w') = true /\
  forall data0 samplerate0 dataset0 data_shape0 verbose0 gpu_use0 core_count0 spec0,
  exists q,
    __init__ data0 samplerate0 dataset0 data_shape0 verbose0 gpu_use0 core_count0 spec0
       (disk w') = Ok q /\
    _get_signals q = false /\ do_tracking q = true.
Proof.
  intros T S R.
  assert (G : _get_signals (self w) = true)
    by (rewrite S; unfold main_flags; destruct nosave; reflexivity).
  assert (T' : do_tracking (self w) = false)
    by (rewrite S; unfold main_flags; destruct nosave; exact T).
  assert (U : untracked (self w) = true)
    by (rewrite S; unfold main_flags; destruct nosave; reflexivity).
  destruct (run_untracked X w w' R G T' U) as [w0 [E [_ [_ [_ [_ K]]]]]].
  destruct (run_tracking_count X w w' R) as [_ C]; rewrite T' in C.
  assert (U' : untracked (self w') = true) by (subst w'; cbn; apply K, U).
  assert (D : disk w' = checkpoint_of (self w')) by (subst w'; reflexivity).
  split; [lia|split; [exact D|split; [exact U'|]]].
  intros; rewrite D; unfold checkpoint_of.
  destruct (init_stage_selection data0 samplerate0 dataset0 data_shape0 verbose0 gpu_use0
              core_count0 spec0) as [_ B].
  destruct (B (items (_fund_v (self w'))) (items (_idx_v (self w')))
              (items (_sign_v (self w'))) (items (ident_v (self w')))
              (items (times (self w')))) as [q [Q1 [Q2 [Q3 _]]]].
  exists q; split; [exact Q1|split; [exact Q2|]].
  rewrite Q3; exact U'.
Qed.

(** X14 at the tracked checkpoint of one detection, renewed on the CPU
    path. *)
Lemma X14_witness :
  exists p w',
    __init__ (Example.recording 8) 20000%Q (Example.blocks 8 4) (8, 1) 0 false 4
         (Example.engine0 4 0 false) Example.tracked = Ok p /\
    run Example.X (Example.world (main_flags true false p) Example.tracked) = Done w' /\
    count_events is_tracking (log w') = 0 /\
    untracked (self w') = true.
Proof.
  destruct (__init__ (Example.recording 8) 20000%Q (Example.blocks 8 4) (8, 1) 0 false 4
              (Example.engine0 4 0 false) Example.tracked) as [p|e] eqn:I;
    [|vm_compute in I; discriminate].
  assert (T : do_tracking p = false) by (vm_compute in I; inversion I; reflexivity).
  destruct (run Example.X (Example.world (main_flags true false p) Example.tracked))
    as [w'|e w'] eqn:E;
    [|vm_compute in I; inversion I; subst p; vm_compute in E; discriminate].
  exists p, w'; split; [reflexivity|split; [exact E|]].
  destruct (X14_renew_of_a_tracked_checkpoint_leaves_it_untracked
              Example.X false p
              (Example.world (main_flags true false p) Example.tracked) w'
              T eq_refl E) as [C [_ [U _]]].
  split; [exact C|exact U].
Defined.

(** X15.  A restart after a run.  Let a [run] that had a stage to do end
    normally, and let a pipeline be constructed over the save directory
    it left, with an engine that is asked for no spectrogram product.
    The constructor succeeds and loads the five arrays that the first
    pipeline held at its end.  If one of their identities is assigned,
    a [run] of the new pipeline does nothing at all; if none is, it
    calls the tracker once more and nothing else. *)
Theorem X15_restart_after_a_run
    (X : Externals) (w w' : World)
    (data0 : DataLoader) (samplerate0 : Q) (dataset0 : list (list (list Q)))
    (data_shape0 : nat * nat) (verbose0 : nat)
    (gpu_use0 : bool) (core_count0 : nat)
    (spec0 : Spectrogram.t) (sch : list (list nat)) :
  has_work (self w) = true ->
  run X w = Done w' ->
  Spectrogram.get_fine_spec spec0 = false ->
  Spectrogram.get_sparse_spec spec0 = false ->
  exists q w'',
    __init__ data0 samplerate0 dataset0 data_shape0 verbose0 gpu_use0 core_count0 spec0
      (disk w') = Ok q /\
    checkpoint_of q = checkpoint_of (self w') /\
    run X {| self := q; disk := disk w'; log := []; sched := sch |} = Done w'' /\
    if untracked (self w')
    then log w'' = [FreqTracking; Save]
    else w'' = {| self := q; disk := disk w'; log := []; sched := sch |}.
Proof.
  intros H R F S.
  pose proof (run_mirrors X w w' R H) as D.
  set (p := self w') in *.
  assert (I : exists q,
             __init__ data0 samplerate0 dataset0 data_shape0 verbose0 gpu_use0 core_count0
               spec0 (checkpoint_of p) = Ok q /\
             checkpoint_of q = checkpoint_of p /\
             _get_signals q = false /\ Spec q = spec0 /\
             do_tracking q = untracked p /\ sign_v_ok q = true).
  { destruct (init_stage_selection data0 samplerate0 dataset0 data_shape0 verbose0 gpu_use0
                core_count0 spec0) as [_ B].
    destruct (B (items (_fund_v p)) (items (_idx_v p)) (items (_sign_v p))
                (items (ident_v p)) (items (times p)))
      as [q [Q [G [T [A1 [A2 [A3 [A4 A5]]]]]]]].
    exists q; split; [exact Q|split; [|split; [exact G|split; [|split; [exact T|]]]]].
    - unfold checkpoint_of; rewrite A1, A2, A3, A4, A5; reflexivity.
    - unfold __init__ in Q; cbn in Q.
      match type of Q with
      | Ok (if ?c then _ else _) = _ => destruct c
      end; inversion Q; reflexivity.
    - unfold __init__ in Q; cbn in Q.
      match type of Q with
      | Ok (if ?c then _ else _) = _ => destruct c
      end; inversion Q; reflexivity. }
  destruct I as [q [Q [C [G [Sp [T V]]]]]].
  rewrite D.
  set (v := {| self := q; disk := checkpoint_of p; log := []; sched := sch |}).
  assert (E : run X v = tracking_handoff X v)
    by (apply run_without_products; cbn [self v]; [exact G|rewrite Sp; exact F
                                                   |rewrite Sp; exact S]).
  assert (K : tracking_handoff X v
              = if untracked p then Done (tracked X v) else Done v).
  { rewrite tracking_handoff_spec.
    change (self v) with q; rewrite T, V; reflexivity. }
  rewrite K in E.
  exists q, (if untracked p then tracked X v else v).
  split; [exact Q|split; [exact C|split; [destruct (untracked p); exact E|]]].
  destruct (untracked p); reflexivity.
Qed.

(** X15 at a new pipeline over eight samples on the CPU path, whose
    tracker assigns an identity: the restart does nothing. *)
Lemma X15_witness :
  exists w' q,
    run Example.X (Example.world (Example.pipeline 8 4 0 false) empty_dir) = Done w' /\
    __init__ (Example.recording 8) 20000%Q (Example.blocks 8 4) (8, 1) 0 false 4
      (Example.engine0 4 0 false) (disk w') = Ok q /\
    run Example.X {| self := q; disk := disk w'; log := []; sched := [] |}
    = Done {| self := q; disk := disk w'; log := []; sched := [] |}.
Proof.
  destruct (run Example.X (Example.world (Example.pipeline 8 4 0 false) empty_dir))
    as [w'|e w'] eqn:E; [|vm_compute in E; discriminate].
  destruct (X15_restart_after_a_run Example.X
              (Example.world (Example.pipeline 8 4 0 false) empty_dir) w'
              (Example.recording 8) 20000%Q (Example.blocks 8 4) (8, 1) 0 false 4
              (Example.engine0 4 0 false) [] eq_refl E eq_refl eq_refl)
    as [q [w'' [Q [_ [R U]]]]].
  assert (T : untracked (self w') = false)
    by (vm_compute in E; inversion E; reflexivity).
  rewrite T in U; subst w''.
  exists w', q; split; [reflexivity|split; [exact Q|exact R]].
Defined.

(** ** The entry point *)

Lemma open_raw_data_with_logger (h : Cli.Host) (filename : Cli.filename_arg)
    (buffersize backsize channel snippet_size : Cli.value) (verbose : nat) :
  Cli.open_raw_data h filename buffersize backsize channel snippet_size verbose true
  = match filename with
    | Cli.Files [] => Err IndexError
    | _ =>
        let data := Cli.open_loader h filename buffersize backsize in
        Ok [Cli.Data data; Cli.Rate (rate data); Cli.Channels (channels data);
            Cli.Dataset (if Cli.available_GPU h
                         then Some {| Cli.data_loader := data;
                                      Cli.block_size := snippet_size;
                                      Cli.noverlap := 0 |}
                         else None);
            Cli.Shape (shape0 data, channels data)]
    end.
Proof.
  unfold Cli.open_raw_data, Cli.logger_info.
  destruct filename as [f|[|f l]]; cbn [bind]; try reflexivity;
    destruct (1 <=? verbose); destruct (Cli.available_GPU h); reflexivity.
Qed.

Lemma open_raw_data_five (h : Cli.Host) (filename : Cli.filename_arg)
    (buffersize backsize channel snippet_size : Cli.value) (verbose : nat)
    (logger : bool) (t : list Cli.component) :
  Cli.open_raw_data h filename buffersize backsize channel snippet_size verbose logger
  = Ok t ->
  length t = 5.
Proof.
  unfold Cli.open_raw_data, Cli.logger_info.
  destruct filename as [f|[|f l]]; cbn [bind]; try discriminate;
    destruct (1 <=? verbose); destruct logger; destruct (Cli.available_GPU h);
    cbn [bind]; try discriminate; intros H; inversion H; reflexivity.
Qed.

Lemma unpack_of_five {A : Type} (t : list A) :
  length t = 5 ->
  Cli.unpack4 t = Err ValueError /\ exists n, Cli.unpack5 t = Ok n.
Proof.
  destruct t as [|a [|b [|c [|d [|e [|f r]]]]]]; try discriminate.
  intros _; split; [reflexivity|eexists; reflexivity].
Qed.

Lemma save_path_error (folder : Cli.Path) (e : exn) :
  Cli.save_path folder = Err e -> e = IndexError /\ length folder < 3.
Proof.
  unfold Cli.save_path, Cli.setitem_from_end.
  destruct (length folder <? 3) eqn:L; [|discriminate].
  intros H; inversion H; split; [reflexivity|apply Nat.ltb_lt, L].
Qed.

Lemma Configuration_without_a_file (h : Cli.Host) (folder : option String.string)
    (verbose : nat) :
  (forall top, Config.first_yaml (Config.walk (Cli.fs h) top) = None) ->
  Cli.Configuration h folder verbose = Cli.Raise Cli.YAMLStreamError.
Proof.
  intros N; unfold Cli.Configuration, Config.find_config, Config.search_folders.
  cbn [Config.search]; rewrite !N.
  destruct (Config.parent_by_split _); [rewrite N|]; reflexivity.
Qed.

Lemma Configuration_with_a_file (h : Cli.Host) (folder : option String.string)
    (verbose : nat) (a : Cli.attribute) :
  Cli.Configuration h folder verbose = Cli.Return a ->
  exists file, Cli.load h file = Cli.Return a.
Proof.
  unfold Cli.Configuration.
  destruct (Config.find_config _ _ _) as [file|[]]; [|discriminate].
  intros H; exists file; exact H.
Qed.

(** X16.  [main] never gets past its step 2.  Without a path it raises an
    [AttributeError]; with a folder of fewer than three parts an
    [IndexError], before any directory is made.  Otherwise it makes the
    save directory and then raises: the exception of the constructor of
    [Configuration] if that raises, as it does by a [YAMLStreamError] of
    [create_standard_cfg_file] when the search finds no [.yaml] file;
    an [AttributeError] or a [TypeError] if the configuration has no
    attribute [spectrogram] or one that is no mapping with strings for
    keys; a [TypeError] if that mapping has a key [filename], [verbose]
    or [logger]; an [IndexError] if the path is a directory without a
    [.wav] file; and in every other case a [ValueError], because
    [open_raw_data] returns a tuple of five and [main] assigns it to four
    names (the five names of [datahandler.main] fit). *)
Theorem X16_main_raises_before_it_constructs_the_pipeline
    (h : Cli.Host) (args : Cli.Namespace) :
  Cli.main_steps_0_to_2 h args
  = match Cli.path args with
    | None => (None, Cli.Raise (Cli.Builtin AttributeError))
    | Some p =>
        match Cli.save_path (snd (Cli.file_and_folder h p)) with
        | Err _ => (None, Cli.Raise (Cli.Builtin IndexError))
        | Ok save_path0 =>
            (Some save_path0,
             Cli.Raise
               (match Cli.Configuration h (Cli.config args) (Cli.verbose args) with
                | Cli.Raise e => e
                | Cli.Return Cli.Unset => Cli.Builtin AttributeError
                | Cli.Return Cli.NoKeywords => Cli.TypeError
                | Cli.Return (Cli.Keywords d) =>
                    if Cli.clashes d
                    then Cli.TypeError
                    else match fst (Cli.file_and_folder h p) with
                         | Cli.Files [] => Cli.Builtin IndexError
                         | _ => Cli.Builtin ValueError
                         end
                end))
        end
    end
  /\ (forall folder verbose,
        ((forall top, Config.first_yaml (Config.walk (Cli.fs h) top) = None) ->
         Cli.Configuration h folder verbose = Cli.Raise Cli.YAMLStreamError)
        /\ (forall a, Cli.Configuration h folder verbose = Cli.Return a ->
                      exists file, Cli.load h file = Cli.Return a))
  /\ forall filename buffersize backsize channel snippet_size verbose logger t,
       Cli.open_raw_data h filename buffersize backsize channel snippet_size
                         verbose logger = Ok t ->
       Cli.unpack4 t = Err ValueError /\ exists n, Cli.unpack5 t = Ok n.
Proof.
  split; [|split].
  - unfold Cli.main_steps_0_to_2.
    destruct (Cli.path args) as [p|]; [|reflexivity].
    destruct (Cli.file_and_folder h p) as [file0 folder0]; cbn [fst snd].
    destruct (Cli.save_path folder0) as [sp|e] eqn:S.
    + f_equal.
      destruct (Cli.Configuration h (Cli.config args) (Cli.verbose args))
        as [[d| |]|e]; cbn [Cli.and_then Cli.expand]; try reflexivity.
      unfold Cli.call_open_raw_data.
      destruct (Cli.clashes d); [reflexivity|].
      rewrite open_raw_data_with_logger.
      destruct file0 as [f|[|f l]]; reflexivity.
    + destruct (save_path_error folder0 e S) as [E _]; subst e; reflexivity.
  - intros folder verbose; split.
    + apply Configuration_without_a_file.
    + apply Configuration_with_a_file.
  - intros filename buffersize backsize channel snippet_size verbose logger t H.
    apply unpack_of_five, (open_raw_data_five _ _ _ _ _ _ _ _ _ H).
Qed.

(** X16 at a recording [/home/data/rec.wav], once with the configuration
    files of [Cli.desk] and once in a file system that holds no [.yaml]
    file. *)
Lemma X16_witness :
  snd (Cli.main_steps_0_to_2 Cli.desk Cli.rec_args)
  = Cli.Raise (Cli.Builtin ValueError)
  /\ snd (Cli.main_steps_0_to_2 Cli.bare_desk Cli.rec_args)
     = Cli.Raise Cli.YAMLStreamError.
Proof.
  split.
  - rewrite (proj1 (X16_main_raises_before_it_constructs_the_pipeline
                      Cli.desk Cli.rec_args)); reflexivity.
  - rewrite (proj1 (X16_main_raises_before_it_constructs_the_pipeline
                      Cli.bare_desk Cli.rec_args)); reflexivity.
Defined.

Lemma splice {A : Type} (x : A) (n : nat) (l : list A) :
  n < length l ->
  let l' := firstn n l ++ x :: skipn (S n) l in
  length l' = length l /\
  nth_error l' n = Some x /\
  (forall i, i <> n -> nth_error l' i = nth_error l i) /\
  firstn n l' = firstn n l /\ skipn (S n) l' = skipn (S n) l.
Proof.
  revert l; induction n as [|n IH]; intros [|a l] H; cbn in H; try lia.
  - cbn; repeat split; try reflexivity.
    intros [|i] Hi; [lia|reflexivity].
  - destruct (IH l ltac:(lia)) as [L [N [O [F S']]]].
    cbn [firstn skipn app length nth_error] in *.
    repeat split.
    + rewrite L; reflexivity.
    + exact N.
    + intros [|i] Hi; [reflexivity|cbn; apply O; lia].
    + rewrite F; reflexivity.
    + exact S'.
Qed.

Lemma save_path_ok (folder : Cli.Path) :
  3 <= length folder ->
  Cli.save_path folder
  = Ok (firstn (length folder - 3) folder
        ++ Cli.intermediate :: skipn (S (length folder - 3)) folder).
Proof.
  intros H; unfold Cli.save_path, Cli.setitem_from_end.
  destruct (length folder <? 3) eqn:L; [apply Nat.ltb_lt in L; lia|reflexivity].
Qed.

Lemma save_path_parts
    (folder : Cli.Path) :
  match Cli.save_path folder with
  | Ok save_path0 =>
      3 <= length folder /\
      length save_path0 = length folder /\
      nth_error save_path0 (length folder - 3) = Some Cli.intermediate /\
      (forall i, i <> length folder - 3 ->
                 nth_error save_path0 i = nth_error folder i) /\
      Cli.save_path save_path0 = Ok save_path0
  | Err e => e = IndexError /\ length folder < 3
  end.
Proof.
  destruct (le_lt_dec 3 (length folder)) as [H|H].
  - rewrite (save_path_ok folder H).
    destruct (splice Cli.intermediate (length folder - 3) folder ltac:(lia))
      as [L [N [O [F K]]]]; cbv zeta in L, N, O, F, K.
    split; [exact H|split; [exact L|split; [exact N|split; [exact O|]]]].
    rewrite save_path_ok by (rewrite L; exact H).
    rewrite L, F, K; reflexivity.
  - unfold Cli.save_path, Cli.setitem_from_end.
    destruct (length folder <? 3) eqn:L; [split; [reflexivity|exact H]|].
    apply Nat.ltb_ge in L; lia.
Qed.

(** X17.  The save directory of [main].  A folder of fewer than three
    parts raises an [IndexError] and no other folder raises.  Otherwise
    the save directory has as many parts as the folder, the part
    [intermediate] in the third place from the end and the parts of the
    folder everywhere else; and it is its own save directory. *)
Theorem X17_save_directory_replaces_the_third_part_from_the_end
    (folder : Cli.Path) :
  match Cli.save_path folder with
  | Ok save_path0 =>
      3 <= length folder /\
      length save_path0 = length folder /\
      nth_error save_path0 (length folder - 3) = Some Cli.intermediate /\
      (forall i, i <> length folder - 3 ->
                 nth_error save_path0 i = nth_error folder i) /\
      Cli.save_path save_path0 = Ok save_path0
  | Err e => e = IndexError /\ length folder < 3
  end.
Proof. exact (save_path_parts folder). Qed.

Lemma is_absolute_head (a : String.string) (l r : Cli.Path) :
  Cli.is_absolute ((a :: l) ++ r) = Cli.is_absolute (a :: l).
Proof. reflexivity. Qed.

(** X18.  Where [main] puts the save directory of a recording, in a
    working directory that is absolute.  A directory is taken as it is
    given, not made absolute.  A file is made absolute first, and its
    folder is its parent: a file with fewer than two directories between
    the root and itself raises the [IndexError]; with exactly two the
    root is what [intermediate] replaces, so the save directory is a
    relative path; with more the save directory is absolute. *)
Theorem X18_save_directory_of_a_recording (h : Cli.Host) (p : Cli.Path) :
  Cli.is_absolute (Cli.cwd h) = true ->
  (Cli.is_dir h p = true -> snd (Cli.file_and_folder h p) = p)
  /\ (Cli.is_dir h p = false ->
      let file0 := Cli.absolute (Cli.cwd h) p in
      match Cli.save_path (snd (Cli.file_and_folder h p)) with
      | Ok save_path0 =>
          4 <= length file0 /\
          length save_path0 = length file0 - 1 /\
          Cli.is_absolute save_path0 = (4 <? length file0)
      | Err _ => length file0 < 4
      end).
Proof.
  intros C; split; intros D; unfold Cli.file_and_folder; rewrite D; [reflexivity|].
  cbv zeta; cbn [snd].
  set (f := Cli.absolute (Cli.cwd h) p).
  assert (A : Cli.is_absolute f = true).
  { unfold f, Cli.absolute.
    destruct (Cli.is_absolute p) eqn:P; [exact P|].
    destruct (Cli.cwd h) as [|a l]; [discriminate|].
    rewrite is_absolute_head; exact C. }
  assert (L : length (Cli.parent f) = if length f =? 1 then 1 else length f - 1).
  { unfold Cli.parent; rewrite A; cbn [andb].
    destruct (length f =? 1) eqn:E; [apply Nat.eqb_eq, E|].
    destruct f as [|a l]; [reflexivity|].
    rewrite removelast_firstn_len, length_firstn; cbn [length]; lia. }
  pose proof (save_path_parts (Cli.parent f))
    as S.
  destruct (Cli.save_path (Cli.parent f)) as [sp|e].
  - destruct S as [S1 [S2 [S3 [S4 _]]]].
    destruct (length f =? 1) eqn:E; [lia|].
    split; [lia|split; [lia|]].
    destruct (4 <? length f) eqn:G.
    + apply Nat.ltb_lt in G.
      assert (H0 : nth_error sp 0 = nth_error (Cli.parent f) 0) by (apply S4; lia).
      assert (H1 : nth_error (Cli.parent f) 0 = nth_error f 0).
      { unfold Cli.parent; rewrite A, E; cbn [andb].
        destruct f as [|a [|b l]]; cbn in *; try lia; reflexivity. }
      rewrite H1 in H0.
      destruct sp as [|s sp], f as [|a l]; try discriminate.
      inversion H0; subst; exact A.
    + apply Nat.ltb_ge in G.
      assert (Z0 : length (Cli.parent f) - 3 = 0) by lia.
      rewrite Z0 in S3.
      destruct sp as [|s sp]; [discriminate|].
      inversion S3; subst; reflexivity.
  - destruct S as [_ S]; destruct (length f =? 1) eqn:E;
      [apply Nat.eqb_eq in E|]; lia.
Qed.

(** X18 at the file [data/rec.wav] in the working directory [/home]: the
    save directory is the relative path [intermediate/home/data]. *)
Lemma X18_witness :
  Cli.save_path (snd (Cli.file_and_folder Cli.desk Cli.rec_wav))
  = Ok Cli.intermediate_home_data
  /\ Cli.is_absolute Cli.intermediate_home_data = false.
Proof.
  pose proof (X18_save_directory_of_a_recording Cli.desk Cli.rec_wav eq_refl)
    as [_ H].
  specialize (H eq_refl); cbv zeta in H.
  destruct (Cli.save_path (snd (Cli.file_and_folder Cli.desk Cli.rec_wav)))
    as [sp|e] eqn:E; [|vm_compute in E; discriminate].
  vm_compute in E; inversion E; subst sp; split; [reflexivity|].
  destruct H as [_ [_ H]]; exact H.
Defined.

(** ** The search for the configuration file *)

Lemma lookup_app (n : Config.node) (p q : Config.Path) :
  Config.lookup n (p ++ q)
  = match Config.lookup n p with
    | Some c => Config.lookup c q
    | None => None
    end.
Proof.
  revert n; induction p as [|a p IH]; intros n; [reflexivity|].
  cbn [app Config.lookup].
  destruct n as [|entries]; [reflexivity|].
  destruct (Config.entry a entries); [apply IH|reflexivity].
Qed.

Lemma walk_of_a_file (fs : Config.node) (p : Config.Path) :
  (forall entries, Config.lookup fs p <> Some (Config.Dir entries)) ->
  Config.walk fs p = [].
Proof.
  unfold Config.walk; intros H.
  destruct (Config.lookup fs p) as [[|entries]|]; try reflexivity.
  exfalso; apply (H entries); reflexivity.
Qed.

Lemma parent_by_split_snoc (dir : Config.Path) (name : String.string) :
  dir <> [] -> Config.parent_by_split (dir ++ [name]) = Some dir.
Proof.
  intros H; unfold Config.parent_by_split.
  destruct dir as [|a [|b r]]; [contradiction|reflexivity|].
  change ((a :: b :: r) ++ [name]) with (a :: b :: (r ++ [name])).
  cbv iota beta.
  change (a :: b :: (r ++ [name])) with ((a :: b :: r) ++ [name]).
  rewrite removelast_last; reflexivity.
Qed.

(** X19.  A configuration given as a file, as [main] gives it: the
    search takes the path for its folder, finds nothing to walk there,
    and goes on in the directory of the file, where it takes the first
    name of the listing that ends in [.yaml].  So the file that is loaded
    does not depend on the name that was given, and is another file when
    the listing has another [.yaml] first. *)
Theorem X19_a_configuration_given_as_a_file_is_searched_for
    (fs : Config.node) (module_dir dir : Config.Path) (name y : String.string)
    (entries : list (String.string * Config.node)) :
  dir <> [] ->
  Config.lookup fs dir = Some (Config.Dir entries) ->
  (forall es, Config.entry name entries <> Some (Config.Dir es)) ->
  find (fun f => Config.endswith f Config.dot_yaml) (Config.filenames entries) = Some y ->
  Config.find_config fs module_dir (dir ++ [name]) = Config.Found (dir ++ [y]).
Proof.
  intros D L N Y.
  unfold Config.find_config, Config.search_folders; cbn [Config.search].
  rewrite walk_of_a_file.
  - cbn [Config.first_yaml].
    rewrite (parent_by_split_snoc dir name D).
    unfold Config.walk; rewrite L; cbn [Config.walk_node Config.first_yaml].
    fold Config.dot_yaml; rewrite Y; reflexivity.
  - intros es; rewrite lookup_app, L; cbn [Config.lookup].
    destruct (Config.entry name entries) as [[|es']|] eqn:E; try discriminate.
    exfalso; apply (N es'); reflexivity.
Qed.

(** X19 at a directory [/p] that lists [a.yaml] before [my.yaml]: asked
    for [/p/my.yaml], the search finds [/p/a.yaml]. *)
Lemma X19_witness :
  Config.find_config Config.two_configs [] (Config.p ++ [Config.my_yaml])
  = Config.Found (Config.p ++ [Config.a_yaml]).
Proof.
  refine (X19_a_configuration_given_as_a_file_is_searched_for
            Config.two_configs [] Config.p Config.my_yaml Config.a_yaml
            _ _ eq_refl _ eq_refl).
  - discriminate.
  - intros es; vm_compute; discriminate.
Defined.

(** ** The CPU path without a second core *)

Lemma Pool_of_one_core (n : nat) : n <= 1 -> Pool (Z.of_nat n - 1) = Err ValueError.
Proof.
  intros H; unfold Pool.
  destruct (Z.of_nat n - 1 <? 1)%Z eqn:L; [reflexivity|].
  apply Z.ltb_ge in L; lia.
Qed.

Lemma extract_on_one_core (X : Externals) (w : World) :
  gpu_use (self w) = false ->
  core_count (self w) <= 1 ->
  extract_snippet_signals X w = Raised ValueError (emit ExtractSnippetSignals w).
Proof.
  intros G C; unfold extract_snippet_signals, seqM, pure, strategy.
  cbn [self emit]; rewrite G, (Pool_of_one_core _ C); reflexivity.
Qed.

Lemma np_arange_starts_at_zero (stop step : Z) :
  (0 < stop)%Z -> (0 < step)%Z ->
  exists r, np_arange stop step = Ok (0%Z :: r).
Proof.
  intros H1 H2; unfold np_arange.
  destruct (step =? 0)%Z eqn:E; [apply Z.eqb_eq in E; lia|].
  destruct (step <? 0)%Z eqn:L; [apply Z.ltb_lt in L; lia|].
  assert (P : (1 <= (stop + step - 1) / step)%Z)
    by (apply Z.div_le_lower_bound; lia).
  destruct (Z.to_nat ((stop + step - 1) / step)) as [|n] eqn:N; [lia|].
  cbn [seq map]; eexists; reflexivity.
Qed.

(** X20.  The CPU path on a host with a single core.  The pool is asked
    for [core_count - 1] workers, so every append raises a [ValueError]
    before it reads the snippet, and the CPU loop of a recording that is
    not empty ends by that exception in its first iteration: the engine
    has been called once, on the first window, and the four sequences
    are as they were. *)
Theorem X20_cpu_path_on_a_single_core (X : Externals) (w : World) :
  gpu_use (self w) = false ->
  core_count (self w) <= 1 ->
  extract_snippet_signals X w = Raised ValueError (emit ExtractSnippetSignals w)
  /\ (Spectrogram.noverlap (Spec (self w)) < Spectrogram.snippet_size (Spec (self w)) ->
      0 < shape0 (data (self w)) ->
      channels_ok (self w) = true ->
      exists w',
        pipeline_CPU X w = Raised ValueError w' /\
        engine_calls (log w')
        = engine_calls (log w) ++ [(window (self w) 0, cpu_t0 (self w) 0%Z)] /\
        count_events is_extract (log w') = count_events is_extract (log w) + 1 /\
        _fund_v (self w') = _fund_v (self w) /\ _idx_v (self w') = _idx_v (self w) /\
        _sign_v (self w') = _sign_v (self w) /\ ident_v (self w') = ident_v (self w)).
Proof.
  intros G C; split; [apply (extract_on_one_core X w G C)|].
  intros O N Ch.
  unfold pipeline_CPU, raising, floordiv.
  assert (St : (0 < cpu_step (self w))%Z) by (unfold cpu_step; lia).
  destruct (cpu_step (self w) =? 0)%Z eqn:E; [apply Z.eqb_eq in E; lia|].
  destruct (np_arange_starts_at_zero (Z.of_nat (shape0 (data (self w))))
              (cpu_step (self w)) ltac:(lia) St) as [r A].
  rewrite A; cbn [for_each]; unfold seqM at 1.
  unfold cpu_iteration, cpu_window, seqM, raising.
  set (w1 := world_of (if cpu_is_last (self w) 0 then set_terminate w else Done w)).
  assert (H1 : (if cpu_is_last (self w) 0 then set_terminate w else Done w) = Done w1)
    by (unfold w1; destruct (cpu_is_last _ _); reflexivity).
  rewrite H1.
  assert (S1 : setup (self w1) = setup (self w))
    by (unfold w1; destruct (cpu_is_last _ _); reflexivity).
  destruct (setup_eq (self w) (self w1) S1) as [_ [Sn [T0 [Ck _]]]].
  rewrite cpu_snippet_window, Ck, Ch.
  set (w2 := world_of (call_engine X (window (self w1) (Z.to_nat 0))
                         (cpu_t0 (self w1) 0) w1)).
  change (call_engine X (window (self w1) (Z.to_nat 0)) (cpu_t0 (self w1) 0) w1)
    with (Done w2).
  cbv iota beta.
  assert (G2 : gpu_use (self w2) = false)
    by (unfold w2, w1; destruct (cpu_is_last _ _); exact G).
  assert (C2 : core_count (self w2) <= 1)
    by (unfold w2, w1; destruct (cpu_is_last _ _); exact C).
  rewrite (extract_on_one_core X w2 G2 C2).
  eexists; split; [reflexivity|].
  assert (W : window (self w1) (Z.to_nat 0) = window (self w) 0)
    by (unfold w1; destruct (cpu_is_last _ _); reflexivity).
  unfold w2; cbn [log emit call_engine pure world_of self upd].
  rewrite W, T0.
  unfold w1; destruct (cpu_is_last (self w) 0);
    cbn [log emit set_terminate pure world_of self upd set_Spec
         _fund_v _idx_v _sign_v ident_v];
    rewrite ?engine_calls_app, ?count_events_app; cbn;
    rewrite ?app_nil_r; repeat split; try reflexivity; lia.
Qed.

(** X20 at a new pipeline over eight samples with one core. *)
Lemma X20_witness :
  exists w',
    pipeline_CPU Example.X
      (Example.world
         (on_one_core (Example.pipeline 8 4 0 false)) empty_dir)
    = Raised ValueError w' /\
    length (engine_calls (log w')) = 1.
Proof.
  destruct (X20_cpu_path_on_a_single_core Example.X
              (Example.world
                 (on_one_core (Example.pipeline 8 4 0 false)) empty_dir)
              eq_refl ltac:(cbn; lia)) as [_ H].
  destruct (H ltac:(cbn; lia) ltac:(cbn; lia) eq_refl) as [w' [R [L _]]].
  exists w'; split; [exact R|rewrite L; reflexivity].
Defined.
